(** * Taskmaster backend: models, serializers, permissions and views

    A shallow embedding of [Backend/tasks/models.py], [serializers.py] and
    [views.py].  Database tables are finite maps from primary keys to rows,
    a view is a function from the request and the state of the world to a
    response and a new state, and an exception raised inside a view is a
    value of an error monad that the framework's exception handler turns
    into a response. *)

From Stdlib Require Import ZArith NArith Ascii String Lia.
From stdpp Require Import base option list strings gmap fin_maps pretty.

Local Open Scope string_scope.
Local Open Scope Z_scope.

(** ** What [json.loads] returns

    [forgot_password] and [reset_password] parse the body themselves and
    look at the members without asking for their type, so a member is any
    JSON value. *)

(** A [float]: not a number, an infinity, or plus or minus
    [mantissa * 2 ^ exponent]. *)
Inductive PyFloat :=
  | FNaN
  | FInfinity (negative : bool)
  | FFinite (negative : bool) (mantissa : N) (exponent : Z).

(** An object keeps its pairs in the order of the text; where a key comes
    twice, the later pair is the one the [dict] holds. *)
#[warnings="-register-all"] Inductive JsonValue :=
  | JNull
  | JBool (b : bool)
  | JInt (n : Z)
  | JFloat (x : PyFloat)
  | JString (s : string)
  | JArray (items : list JsonValue)
  | JDict (pairs : list (string * JsonValue)).

(** [type(v).__name__] *)
Definition type_name (v : JsonValue) : string :=
  match v with
  | JNull => "NoneType"
  | JBool _ => "bool"
  | JInt _ => "int"
  | JFloat _ => "float"
  | JString _ => "str"
  | JArray _ => "list"
  | JDict _ => "dict"
  end.

(** [bool(v)], the truth value that [not v] and [all([...])] go by. *)
Definition bool_of (v : JsonValue) : bool :=
  match v with
  | JNull => false
  | JBool b => b
  | JInt n => negb (n =? 0)
  | JFloat FNaN | JFloat (FInfinity _) => true
  | JFloat (FFinite _ m _) => negb (m =? 0)%N
  | JString s => negb (String.eqb s "")
  | JArray items => negb (bool_decide (items = []))
  | JDict pairs => negb (bool_decide (pairs = []))
  end.

(** What a [bool], an [int] or a [float] is worth when Python compares
    numbers: [m * 2 ^ e], an infinity, or nothing. *)
Inductive Number :=
  | NotANumber
  | Infinite (negative : bool)
  | Dyadic (m e : Z).

Definition number_of (v : JsonValue) : option Number :=
  match v with
  | JBool b => Some (Dyadic (if b then 1 else 0) 0)
  | JInt n => Some (Dyadic n 0)
  | JFloat FNaN => Some NotANumber
  | JFloat (FInfinity s) => Some (Infinite s)
  | JFloat (FFinite s m e) => Some (Dyadic (if s then - Z.of_N m else Z.of_N m) e)
  | _ => None
  end.

Definition number_eq (x y : Number) : bool :=
  match x, y with
  | Dyadic m e, Dyadic m' e' =>
      let k := Z.min e e' in
      m * 2 ^ (e - k) =? m' * 2 ^ (e' - k)
  | Infinite s, Infinite s' => Bool.eqb s s'
  | _, _ => false
  end.

(** [json.loads] hands out one and the same object for every [NaN] of the
    text, and the comparison of the items of two containers takes the same
    object for equal before it asks [==]. *)
Definition is_nan (v : JsonValue) : bool :=
  match v with JFloat FNaN => true | _ => false end.

(** [d.get(k)] for the [dict] of the pairs. *)
Fixpoint pairs_get (k : string) (pairs : list (string * JsonValue)) : option JsonValue :=
  match pairs with
  | [] => None
  | (k', v) :: rest =>
      match pairs_get k rest with
      | Some w => Some w
      | None => if String.eqb k k' then Some v else None
      end
  end.

(** [a == b] *)
Fixpoint py_eq (a b : JsonValue) {struct a} : bool :=
  match a, b with
  | JNull, JNull => true
  | JString s, JString t => String.eqb s t
  | JArray l, JArray l' =>
      (fix items (l l' : list JsonValue) : bool :=
         match l, l' with
         | [], [] => true
         | x :: l, y :: l' => (is_nan x && is_nan y || py_eq x y) && items l l'
         | _, _ => false
         end) l l'
  | JDict m, JDict m' =>
      bool_decide (length (remove_dups m.*1) = length (remove_dups m'.*1)) &&
      (fix members (rest : list (string * JsonValue)) : bool :=
         match rest with
         | [] => true
         | (k, v) :: rest =>
             (if existsb (String.eqb k) rest.*1 then true
              else match pairs_get k m' with
                   | Some w => is_nan v && is_nan w || py_eq v w
                   | None => false
                   end)
             && members rest
         end) m
  | _, _ =>
      match number_of a, number_of b with
      | Some x, Some y => number_eq x y
      | _, _ => false
      end
  end.

(** [a != b] *)
Definition py_ne (a b : JsonValue) : bool := negb (py_eq a b).

(** ** What the code takes from Python, Django, its extensions and the settings

    None of these are defined in the repository; the views only call them.
    They are kept abstract, so every result below holds for any choice. *)
Class Platform := {
  (** [django.utils.http.urlsafe_base64_decode]; [None] is its [ValueError] *)
  urlsafe_base64_decode : string → option string;
  urlsafe_base64_encode : string → string;
  (** [django.utils.encoding.force_str] on bytes; [None] is the
      [DjangoUnicodeDecodeError] (a [ValueError]) of undecodable input *)
  force_str : string → option string;
  (** conversion of a lookup value to the integer primary key
      ([AutoField.get_prep_value]); [None] is its [ValueError] *)
  pk_of_str : string → option Z;
  (** [token.split("-")] followed by [base36_to_int] on the first half, as
      [PasswordResetTokenGenerator.check_token] does; [None] is a token for
      which either step fails *)
  token_timestamp : string → option N;
  int_to_base36 : N → string;
  (** [salted_hmac(key_salt, value, secret).hexdigest()[::2]] under the
      generator's key salt and the server's secret key *)
  salted_hmac : string → string;
  (** text of a [last_login] time stamp inside the hashed value *)
  str_datetime : Z → string;
  (** [django.contrib.auth.hashers.make_password] with the salt it draws *)
  make_password : string → string → string;
  (** [str(RefreshToken.for_user(user).access_token)] for the user's key;
      issuing a token is taken to succeed *)
  access_token_for : Z → string;
  (** validation of a [CharField] with the given [max_length] and
      [allow_blank]: the cleaned value, or [None] when it is rejected *)
  char_field : option nat → bool → string → option string;
  (** validation of the [EmailField] of the user serializer: the cleaned
      address, or [None] when it is rejected *)
  email_field : string → option string;
  (** the data base's case-insensitive containment test ([icontains]):
      does the column (first argument) contain the parameter (second)? *)
  icontains : string → string → bool;
  (** [str.strip()], which the [CharField] of a form applies to its value *)
  strip : string → string;
  (** [str(v)] for a float, a list or a dict *)
  repr : JsonValue → string;
  (** [settings.FRONTEND_URL], [DEFAULT_FROM_EMAIL], [PASSWORD_RESET_TIMEOUT] *)
  FRONTEND_URL : string;
  DEFAULT_FROM_EMAIL : string;
  PASSWORD_RESET_TIMEOUT : Z;
}.

(** ** models.py *)

(** The fields of [User(AbstractUser)] that the views read or write. *)
Record User := mkUser {
  username : string;
  email : string;
  password : string;
  last_login : option Z;
  first_name : string;
  last_name : string;
}.

Record Category := mkCategory { category_name : string }.
Record Tag := mkTag { tag_name : string }.

(** [Category] and [Tag] are the same shape of model: one [CharField] called
    [name], declared [unique=True], with its [max_length]. *)
Class NamedModel (A : Type) := {
  name : A → string;
  with_name : string → A;
  name_max_length : nat;
  name_with_name : ∀ n, name (with_name n) = n;
}.

#[global] Instance Category_named : NamedModel Category :=
  {| name := category_name; with_name := mkCategory; name_max_length := 100;
     name_with_name := λ _, eq_refl |}.
#[global] Instance Tag_named : NamedModel Tag :=
  {| name := tag_name; with_name := mkTag; name_max_length := 50;
     name_with_name := λ _, eq_refl |}.

(** A date is its proleptic Gregorian ordinal ([date.toordinal()]), so that
    [timedelta(days=1)] is [1] and the order of dates is the order of [Z]. *)
Record Task := mkTask {
  user : Z;
  title : string;
  description : option string;
  due_date : option Z;
  priority : string;
  status : string;
  category : option Z;
  tags : gset Z;
  created_at : Z;
  updated_at : Z;
}.

Definition priority_choices : list string := ["low"; "medium"; "high"].
Definition status_choices : list string := ["pending"; "in_progress"; "completed"].

Record Mail := mkMail {
  mail_subject : string;
  mail_message : string;
  mail_from : string;
  mail_to : list string;
}.

(** The tables of the data base and the messages handed to the mail
    transport so far. *)
Record State := mkState {
  users : gmap Z User;
  categories : gmap Z Category;
  tag_table : gmap Z Tag;
  tasks : gmap Z Task;
  outbox : list Mail;
}.

Definition set_users (f : gmap Z User → gmap Z User) (st : State) : State :=
  mkState (f (users st)) (categories st) (tag_table st) (tasks st) (outbox st).
Definition set_categories (f : gmap Z Category → gmap Z Category) (st : State) : State :=
  mkState (users st) (f (categories st)) (tag_table st) (tasks st) (outbox st).
Definition set_tag_table (f : gmap Z Tag → gmap Z Tag) (st : State) : State :=
  mkState (users st) (categories st) (f (tag_table st)) (tasks st) (outbox st).
Definition set_tasks (f : gmap Z Task → gmap Z Task) (st : State) : State :=
  mkState (users st) (categories st) (tag_table st) (f (tasks st)) (outbox st).
Definition set_outbox (f : list Mail → list Mail) (st : State) : State :=
  mkState (users st) (categories st) (tag_table st) (tasks st) (f (outbox st)).

(** ** The object manager *)

(** The key an [AutoField] gives the next row.  All that matters here is
    that no row has it; the model takes one more than the largest key in
    use. *)
Definition next_pk {A} (m : gmap Z A) : Z :=
  1 + foldr Z.max 0 (fst <$> map_to_list m).

(** Outcome of [Model.objects.get(...)]. *)
Inductive GetResult (A : Type) :=
  | Got (pk : Z) (row : A)
  | DoesNotExist
  | MultipleObjectsReturned (n : nat).
Arguments Got {A} pk row.
Arguments DoesNotExist {A}.
Arguments MultipleObjectsReturned {A} n.

Definition objects_get {A} (P : A → bool) (m : gmap Z A) : GetResult A :=
  match filter (λ kv, P kv.2 = true) (map_to_list m) with
  | [] => DoesNotExist
  | [(pk, row)] => Got pk row
  | l => MultipleObjectsReturned (length l)
  end.

(** ** Exceptions and responses *)

(** The [rest_framework.exceptions] a view of this application can raise. *)
Inductive APIException :=
  | ValidationError (errors : list (string * string))
  | PermissionDenied (detail : string)
  | NotFound
  | NotAuthenticated.

Inductive Result (A : Type) :=
  | Return (a : A)
  | Raise (e : APIException).
Arguments Return {A} a.
Arguments Raise {A} e.

#[global] Instance Result_ret : MRet Result := λ A, @Return A.
#[global] Instance Result_bind : MBind Result := λ A B f r,
  match r with
  | Return a => f a
  | Raise e => Raise e
  end.

(** What [TaskSerializer] writes for a task: [category] and [tags] are
    write-only, [category_name] and [tags_names] are derived. *)
Record TaskRepr := mkTaskRepr {
  r_id : Z;
  r_user : Z;
  r_title : string;
  r_description : option string;
  r_due_date : option Z;
  r_priority : string;
  r_status : string;
  r_category_name : option string;
  r_tags_names : list string;
  r_created_at : Z;
  r_updated_at : Z;
}.

Inductive Data :=
  | Empty
  | Dict (fields : list (string * string))
  | Failure (e : APIException)
  | OneTask (t : TaskRepr)
  | ManyTasks (l : list TaskRepr)
  | OneNamed (pk : Z) (n : string)
  | ManyNamed (l : list (Z * string)).

Record Response := mkResponse {
  status_code : Z;
  data : Data;
}.

Definition HTTP_200_OK : Z := 200.
Definition HTTP_201_CREATED : Z := 201.
Definition HTTP_204_NO_CONTENT : Z := 204.
Definition HTTP_400_BAD_REQUEST : Z := 400.
Definition HTTP_401_UNAUTHORIZED : Z := 401.
Definition HTTP_403_FORBIDDEN : Z := 403.
Definition HTTP_404_NOT_FOUND : Z := 404.
Definition HTTP_500_INTERNAL_SERVER_ERROR : Z := 500.

(** The framework's exception handler. *)
Definition exception_status (e : APIException) : Z :=
  match e with
  | ValidationError _ => HTTP_400_BAD_REQUEST
  | PermissionDenied _ => HTTP_403_FORBIDDEN
  | NotFound => HTTP_404_NOT_FOUND
  | NotAuthenticated => HTTP_401_UNAUTHORIZED
  end.

Definition handle_exception (e : APIException) : Response :=
  mkResponse (exception_status e) (Failure e).

(** A view that raises answers with the handler's response and keeps what
    it was given ([keep]): in every view below the checks that can raise
    come before the first write. *)
Definition handle {S} (keep : S) (r : Result (Response * S)) : Response * S :=
  match r with
  | Return out => out
  | Raise e => (handle_exception e, keep)
  end.

(** An exception that no handler knows, such as an [IntegrityError]. *)
Definition server_error : Response := mkResponse HTTP_500_INTERNAL_SERVER_ERROR Empty.

(** ** Permissions *)

Inductive Method := GET | HEAD | OPTIONS | POST | PUT | PATCH | DELETE.

#[global] Instance Method_eq_dec : EqDecision Method.
Proof. solve_decision. Defined.

Definition SAFE_METHODS : list Method := [GET; HEAD; OPTIONS].

Inductive Permission := AllowAny | IsAuthenticated | IsAuthenticatedOrReadOnly.

(** [requester] is [request.user]: the key of the authenticated user, or
    [None] for an anonymous request. *)
Definition has_permission (p : Permission) (m : Method) (requester : option Z) : bool :=
  match p with
  | AllowAny => true
  | IsAuthenticated => bool_decide (is_Some requester)
  | IsAuthenticatedOrReadOnly =>
      bool_decide (m ∈ SAFE_METHODS) || bool_decide (is_Some requester)
  end.

(** The views of views.py. *)
Inductive View :=
  | TagViewSet
  | UserRegistrationView
  | LoginView
  | LogoutView
  | UserProfileView
  | ChangePasswordView
  | TaskViewSet
  | CategoryViewSet
  | forgot_password_view
  | reset_password_view.

Definition permission_classes (v : View) : list Permission :=
  match v with
  | TagViewSet => [IsAuthenticatedOrReadOnly]
  | UserRegistrationView => [AllowAny]
  | LoginView => [AllowAny]
  | LogoutView => [IsAuthenticated]
  | UserProfileView => [IsAuthenticated]
  | ChangePasswordView => [IsAuthenticated]
  | TaskViewSet => [IsAuthenticated]
  | CategoryViewSet => [IsAuthenticatedOrReadOnly]
  | forgot_password_view => [AllowAny]
  | reset_password_view => [AllowAny]
  end.

Definition check_permissions (v : View) (m : Method) (requester : option Z) : bool :=
  forallb (λ p, has_permission p m requester) (permission_classes v).

(** [APIView.initial]: a request that fails a permission of the view is
    turned away before any handler runs.  The three permission classes can
    only fail for an anonymous request, for which the framework raises
    [NotAuthenticated]. *)
Definition initial (v : View) (m : Method) (requester : option Z) : Result unit :=
  if check_permissions v m requester then Return () else Raise NotAuthenticated.

(** ** serializers.py: TaskSerializer *)

(** The body of a task request, after JSON parsing.  A field is [None] when
    the body does not carry it; for a nullable field the inner [None] is
    JSON [null].  [in_user] is a [user] value the client put in the body. *)
Record TaskInput := mkTaskInput {
  in_user : option Z;
  in_title : option string;
  in_description : option (option string);
  in_due_date : option (option Z);
  in_priority : option string;
  in_status : option string;
  in_category : option (option Z);
  in_tags : option (list Z);
}.

(** [validated_data]: the writable fields that were sent and passed
    validation.  [user] is read-only, so it has no place here. *)
Record TaskAttrs := mkTaskAttrs {
  v_title : option string;
  v_description : option (option string);
  v_due_date : option (option Z);
  v_priority : option string;
  v_status : option string;
  v_category : option (option Z);
  v_tags : option (list Z);
}.

Definition due_date_in_past : string :=
  "La fecha de vencimiento no puede ser en el pasado.".

(** [TaskSerializer.validate_due_date]; [today] is [timezone.now().date()].
    A date is always truthy, [None] is not. *)
Definition validate_due_date (today : Z) (value : option Z) : string + option Z :=
  match value with
  | Some d => if bool_decide (d < today) then inl due_date_in_past else inr value
  | None => inr value
  end.

(** Validation of one field that is not required: nothing is checked when
    the field was not sent. *)
Definition optional_field {A B} (check : A → string + B) (x : option A)
  : string + option B :=
  match x with
  | None => inr None
  | Some a => match check a with inl e => inl e | inr b => inr (Some b) end
  end.

(** A field declared [allow_null]: JSON [null] is accepted as it is. *)
Definition nullable {A B} (check : A → string + B) (x : option A) : string + option B :=
  optional_field check x.

Definition field_error {A} (field : string) (r : string + A) : list (string * string) :=
  match r with inl e => [(field, e)] | inr _ => [] end.

Definition field_value {A} (r : string + option A) : option A :=
  match r with inl _ => None | inr v => v end.

Definition choice_field (choices : list string) (s : string) : string + string :=
  if bool_decide (s ∈ choices) then inr s else inl "invalid_choice".

Definition related_field {A} (table : gmap Z A) (pk : Z) : string + Z :=
  if bool_decide (is_Some (table !! pk)) then inr pk else inl "does_not_exist".

Section Serializers.
Context `{Platform}.

Definition char_field_checked (max_length : option nat) (allow_blank : bool)
    (s : string) : string + string :=
  match char_field max_length allow_blank s with
  | Some s' => inr s'
  | None => inl "invalid"
  end.

(** [title] is the one field a full (not partial) body must carry. *)
Definition title_field (partial : bool) (x : option string) : string + option string :=
  match x with
  | None => if partial then inr None else inl "required"
  | Some _ => optional_field (char_field_checked (Some 200%nat) false) x
  end.

Definition many {A B} (check : A → string + B) (l : list A) : string + list B :=
  foldr (λ a acc,
    match check a, acc with
    | inr b, inr bs => inr (b :: bs)
    | inl e, _ => inl e
    | _, inl e => inl e
    end) (inr []) l.

(** [serializer.is_valid(raise_exception=True)]: every field that was
    sent goes through the field's own validation and then through its
    [validate_<field>] method; the errors of all fields are collected. *)
Definition TaskSerializer_is_valid (today : Z) (st : State) (partial : bool)
    (d : TaskInput) : Result TaskAttrs :=
  let t := title_field partial (in_title d) in
  let de := optional_field (nullable (char_field_checked None true)) (in_description d) in
  let du := optional_field (validate_due_date today) (in_due_date d) in
  let pr := optional_field (choice_field priority_choices) (in_priority d) in
  let sa := optional_field (choice_field status_choices) (in_status d) in
  let ca := optional_field (nullable (related_field (categories st))) (in_category d) in
  let ta := optional_field (many (related_field (tag_table st))) (in_tags d) in
  let errors :=
    (field_error "title" t ++ field_error "description" de ++
     field_error "due_date" du ++ field_error "priority" pr ++
     field_error "status" sa ++ field_error "category" ca ++
     field_error "tags" ta)%list in
  match errors with
  | [] => Return (mkTaskAttrs (field_value t) (field_value de) (field_value du)
                    (field_value pr) (field_value sa) (field_value ca)
                    (field_value ta))
  | _ => Raise (ValidationError errors)
  end.

(** [TaskSerializer.create], called by [save(user=...)] with the keyword
    merged into the validated data.  Fields that were not sent take the
    defaults of the model; [created_at] and [updated_at] are set by the
    data base layer to [now]. *)
Definition TaskSerializer_create (now : Z) (owner : Z) (v : TaskAttrs)
    (st : State) : Z * State :=
  let tags_data := default [] (v_tags v) in
  let task :=
    mkTask owner
      (default "" (v_title v))
      (default None (v_description v))
      (default None (v_due_date v))
      (default "medium" (v_priority v))
      (default "pending" (v_status v))
      (default None (v_category v))
      (list_to_set tags_data)
      now now in
  let pk := next_pk (tasks st) in
  (pk, set_tasks (insert pk task) st).

(** [TaskSerializer.update]: [setattr] for every validated attribute,
    [instance.save()], then [tags.set] when tags were sent. *)
Definition TaskSerializer_update (now : Z) (pk : Z) (instance : Task)
    (v : TaskAttrs) (st : State) : State :=
  let task :=
    mkTask (user instance)
      (default (title instance) (v_title v))
      (default (description instance) (v_description v))
      (default (due_date instance) (v_due_date v))
      (default (priority instance) (v_priority v))
      (default (status instance) (v_status v))
      (default (category instance) (v_category v))
      (match v_tags v with
       | Some tags_data => list_to_set tags_data
       | None => tags instance
       end)
      (created_at instance) now in
  set_tasks (insert pk task) st.

(** [TaskSerializer.to_representation]. *)
Definition get_tags_names (st : State) (instance : Task) : list string :=
  omap (λ pk, tag_name <$> tag_table st !! pk) (elements (tags instance)).

Definition TaskSerializer_data (st : State) (pk : Z) (instance : Task) : TaskRepr :=
  mkTaskRepr pk (user instance) (title instance) (description instance)
    (due_date instance) (priority instance) (status instance)
    (c ← category instance; category_name <$> categories st !! c)
    (get_tags_names st instance)
    (created_at instance) (updated_at instance).
End Serializers.

(** ** views.py: TaskViewSet *)

(** The query parameters [TaskFilter] understands; [None] is a parameter
    that was not given.  The four text parameters are the texts as they
    were sent.  A date and the key of a category are given as the date
    and the number they stand for: a date the form of the filter cannot
    read, a category that is no number and a text the form refuses stop
    the request before the query is made, and are no [TaskFilter]. *)
Record TaskFilter := mkTaskFilter {
  f_title : option string;
  f_description : option string;
  f_status : option string;
  f_priority : option string;
  f_category : option Z;
  f_due_date : option Z;
  f_due_date_after : option Z;
  f_due_date_before : option Z;
}.

Definition no_filter : TaskFilter :=
  mkTaskFilter None None None None None None None None.

(** [Filter.filter] for a value as cleaned by the form of the filter: a
    value that is empty ([None]: the parameter was not given, or was
    blank, see [text_param] below) lets every row through; any other is
    a lookup on the column, and a lookup on a NULL column matches
    nothing. *)
Definition lookup_expr {A B} (test : B → A → bool) (param : option A)
    (column : option B) : bool :=
  match param, column with
  | None, _ => true
  | Some _, None => false
  | Some p, Some c => test c p
  end.

(** [self.request.user] in a view that [initial] has let through on
    [IsAuthenticated]. *)
Definition request_user (requester : option Z) : Result Z :=
  match requester with
  | Some u => Return u
  | None => Raise NotAuthenticated
  end.

Definition permission_update : string := "No tienes permiso para editar esta tarea.".
Definition permission_destroy : string := "No tienes permiso para eliminar esta tarea.".

Section TaskViews.
Context `{Platform}.

(** A text parameter as its filter sees it: the [CharField] of the form
    strips it, and [Filter.filter] leaves the queryset as it is when the
    value is empty. *)
Definition text_param (x : option string) : option string :=
  s ← x;
  let value := strip s in
  if bool_decide (value = "") then None else Some value.

Definition TaskFilter_matches (flt : TaskFilter) (t : Task) : bool :=
  lookup_expr icontains (text_param (f_title flt)) (Some (title t)) &&
  lookup_expr icontains (text_param (f_description flt)) (description t) &&
  lookup_expr String.eqb (text_param (f_status flt)) (Some (status t)) &&
  lookup_expr String.eqb (text_param (f_priority flt)) (Some (priority t)) &&
  lookup_expr Z.eqb (f_category flt) (category t) &&
  lookup_expr Z.eqb (f_due_date flt) (due_date t) &&
  lookup_expr Z.geb (f_due_date_after flt) (due_date t) &&
  lookup_expr Z.leb (f_due_date_before flt) (due_date t).

(** [TaskViewSet.get_queryset]: [Task.objects.filter(user=user)]. *)
Definition get_queryset (u : Z) (st : State) : gmap Z Task :=
  filter (λ kv, user kv.2 = u) (tasks st).

(** [DjangoFilterBackend.filter_queryset] with [TaskFilter]. *)
Definition filter_queryset (flt : TaskFilter) (qs : gmap Z Task) : gmap Z Task :=
  filter (λ kv, TaskFilter_matches flt kv.2 = true) qs.

(** [GenericAPIView.get_object]: the row is looked up by key in the
    filtered queryset of the view, and a miss is a 404. *)
Definition get_object (u : Z) (flt : TaskFilter) (pk : Z) (st : State) : Result Task :=
  match filter_queryset flt (get_queryset u st) !! pk with
  | Some instance => Return instance
  | None => Raise NotFound
  end.

(** [TaskViewSet.perform_create]: [serializer.save(user=self.request.user)]. *)
Definition perform_create (now : Z) (u : Z) (v : TaskAttrs) (st : State) : Z * State :=
  TaskSerializer_create now u v st.

(** [TaskViewSet.perform_update]. *)
Definition perform_update (now : Z) (u : Z) (pk : Z) (instance : Task)
    (v : TaskAttrs) (st : State) : Result State :=
  if bool_decide (user instance ≠ u) then Raise (PermissionDenied permission_update)
  else Return (TaskSerializer_update now pk instance v st).

(** [TaskViewSet.perform_destroy]. *)
Definition perform_destroy (u : Z) (pk : Z) (instance : Task) (st : State)
    : Result State :=
  if bool_decide (user instance ≠ u) then Raise (PermissionDenied permission_destroy)
  else Return (set_tasks (delete pk) st).

(** [ListModelMixin.list] *)
Definition TaskViewSet_list (requester : option Z) (flt : TaskFilter) (st : State)
    : Response * State :=
  handle st (
    _ ← initial TaskViewSet GET requester;
    u ← request_user requester;
    let queryset := filter_queryset flt (get_queryset u st) in
    Return (mkResponse HTTP_200_OK
              (ManyTasks ((λ kv, TaskSerializer_data st kv.1 kv.2) <$> map_to_list queryset)),
            st)).

(** [RetrieveModelMixin.retrieve] *)
Definition TaskViewSet_retrieve (requester : option Z) (flt : TaskFilter) (pk : Z)
    (st : State) : Response * State :=
  handle st (
    _ ← initial TaskViewSet GET requester;
    u ← request_user requester;
    instance ← get_object u flt pk st;
    Return (mkResponse HTTP_200_OK (OneTask (TaskSerializer_data st pk instance)), st)).

(** [CreateModelMixin.create] *)
Definition TaskViewSet_create (today now : Z) (requester : option Z) (d : TaskInput)
    (st : State) : Response * State :=
  handle st (
    _ ← initial TaskViewSet POST requester;
    u ← request_user requester;
    v ← TaskSerializer_is_valid today st false d;
    let '(pk, st') := perform_create now u v st in
    Return (mkResponse HTTP_201_CREATED
              (from_option (λ t, OneTask (TaskSerializer_data st' pk t)) Empty
                 (tasks st' !! pk)),
            st')).

(** [UpdateModelMixin.update] (PUT) and [partial_update] (PATCH, which is
    [update] with [partial=True]). *)
Definition TaskViewSet_update (today now : Z) (partial : bool) (requester : option Z)
    (flt : TaskFilter) (pk : Z) (d : TaskInput) (st : State) : Response * State :=
  handle st (
    _ ← initial TaskViewSet (if partial then PATCH else PUT) requester;
    u ← request_user requester;
    instance ← get_object u flt pk st;
    v ← TaskSerializer_is_valid today st partial d;
    st' ← perform_update now u pk instance v st;
    Return (mkResponse HTTP_200_OK
              (from_option (λ t, OneTask (TaskSerializer_data st' pk t)) Empty
                 (tasks st' !! pk)),
            st')).

(** [DestroyModelMixin.destroy] *)
Definition TaskViewSet_destroy (requester : option Z) (flt : TaskFilter) (pk : Z)
    (st : State) : Response * State :=
  handle st (
    _ ← initial TaskViewSet DELETE requester;
    u ← request_user requester;
    instance ← get_object u flt pk st;
    st' ← perform_destroy u pk instance st;
    Return (mkResponse HTTP_204_NO_CONTENT Empty, st')).
End TaskViews.

(** ** models.py and views.py: Category and Tag *)

(** What the data base answers to a write that breaks a constraint. *)
Inductive DatabaseError := IntegrityError.

Section NamedModels.
Context `{Platform} {A : Type} `{NamedModel A}.

(** Is there a row called [n], other than the row [exclude]? *)
Definition name_taken (exclude : option Z) (n : string) (m : gmap Z A) : bool :=
  existsb (λ kv, bool_decide (name kv.2 = n) && negb (bool_decide (exclude = Some kv.1)))
    (map_to_list m).

(** [Model.objects.create(name=n)] under the [unique=True] of the column. *)
Definition objects_create (n : string) (m : gmap Z A)
    : DatabaseError + (Z * gmap Z A) :=
  if name_taken None n m then inl IntegrityError
  else inr (next_pk m, <[next_pk m := with_name n]> m).

(** [instance.name = n; instance.save()] for the row [pk]. *)
Definition objects_save (pk : Z) (n : string) (m : gmap Z A)
    : DatabaseError + gmap Z A :=
  if name_taken (Some pk) n m then inl IntegrityError
  else inr (<[pk := with_name n]> m).

(** The serializer derived from the model: a [CharField] with the
    [max_length] of the column and a [UniqueValidator] over the table,
    which leaves the row being updated out of the comparison. *)
Definition named_is_valid (instance : option Z) (partial : bool)
    (data_name : option string) (m : gmap Z A) : Result (option string) :=
  match data_name with
  | None => if partial then Return None else Raise (ValidationError [("name", "required")])
  | Some s =>
      match char_field (Some name_max_length) false s with
      | None => Raise (ValidationError [("name", "invalid")])
      | Some n =>
          if name_taken instance n m then Raise (ValidationError [("name", "unique")])
          else Return (Some n)
      end
  end.

Definition lookup_or_404 (pk : Z) (m : gmap Z A) : Result A :=
  match m !! pk with
  | Some row => Return row
  | None => Raise NotFound
  end.

Definition named_list (view : View) (requester : option Z) (m : gmap Z A)
    : Response * gmap Z A :=
  handle m (
    _ ← initial view GET requester;
    Return (mkResponse HTTP_200_OK (ManyNamed ((λ kv, (kv.1, name kv.2)) <$> map_to_list m)), m)).

Definition named_retrieve (view : View) (requester : option Z) (pk : Z) (m : gmap Z A)
    : Response * gmap Z A :=
  handle m (
    _ ← initial view GET requester;
    row ← lookup_or_404 pk m;
    Return (mkResponse HTTP_200_OK (OneNamed pk (name row)), m)).

Definition named_create (view : View) (requester : option Z) (data_name : option string)
    (m : gmap Z A) : Response * gmap Z A :=
  handle m (
    _ ← initial view POST requester;
    v ← named_is_valid None false data_name m;
    match objects_create (default "" v) m with
    | inl IntegrityError => Return (server_error, m)
    | inr (pk, m') => Return (mkResponse HTTP_201_CREATED (OneNamed pk (default "" v)), m')
    end).

Definition named_update (view : View) (partial : bool) (requester : option Z) (pk : Z)
    (data_name : option string) (m : gmap Z A) : Response * gmap Z A :=
  handle m (
    _ ← initial view (if partial then PATCH else PUT) requester;
    row ← lookup_or_404 pk m;
    v ← named_is_valid (Some pk) partial data_name m;
    match objects_save pk (default (name row) v) m with
    | inl IntegrityError => Return (server_error, m)
    | inr m' => Return (mkResponse HTTP_200_OK (OneNamed pk (default (name row) v)), m')
    end).

Definition named_destroy (view : View) (requester : option Z) (pk : Z) (m : gmap Z A)
    : Response * gmap Z A :=
  handle m (
    _ ← initial view DELETE requester;
    _ ← lookup_or_404 pk m;
    Return (mkResponse HTTP_204_NO_CONTENT Empty, delete pk m)).
End NamedModels.

(** [on_delete=models.SET_NULL] of [Task.category], and the rows of the
    many-to-many table that go with a deleted tag. *)
Definition clear_category (pk : Z) (t : Task) : Task :=
  mkTask (user t) (title t) (description t) (due_date t) (priority t) (status t)
    (if bool_decide (category t = Some pk) then None else category t)
    (tags t) (created_at t) (updated_at t).

Definition drop_tag (pk : Z) (t : Task) : Task :=
  mkTask (user t) (title t) (description t) (due_date t) (priority t) (status t)
    (category t) (tags t ∖ {[pk]}) (created_at t) (updated_at t).

Section TaxonomyViews.
Context `{Platform}.

Definition CategoryViewSet_list (requester : option Z) (st : State) : Response * State :=
  let '(r, m) := named_list CategoryViewSet requester (categories st) in
  (r, set_categories (λ _, m) st).

Definition CategoryViewSet_retrieve (requester : option Z) (pk : Z) (st : State)
    : Response * State :=
  let '(r, m) := named_retrieve CategoryViewSet requester pk (categories st) in
  (r, set_categories (λ _, m) st).

Definition CategoryViewSet_create (requester : option Z) (data_name : option string)
    (st : State) : Response * State :=
  let '(r, m) := named_create CategoryViewSet requester data_name (categories st) in
  (r, set_categories (λ _, m) st).

Definition CategoryViewSet_update (partial : bool) (requester : option Z) (pk : Z)
    (data_name : option string) (st : State) : Response * State :=
  let '(r, m) := named_update CategoryViewSet partial requester pk data_name (categories st) in
  (r, set_categories (λ _, m) st).

Definition CategoryViewSet_destroy (requester : option Z) (pk : Z) (st : State)
    : Response * State :=
  let '(r, m) := named_destroy CategoryViewSet requester pk (categories st) in
  (r, if bool_decide (status_code r = HTTP_204_NO_CONTENT)
      then set_tasks (fmap (clear_category pk)) (set_categories (λ _, m) st)
      else st).

Definition TagViewSet_list (requester : option Z) (st : State) : Response * State :=
  let '(r, m) := named_list TagViewSet requester (tag_table st) in
  (r, set_tag_table (λ _, m) st).

Definition TagViewSet_retrieve (requester : option Z) (pk : Z) (st : State)
    : Response * State :=
  let '(r, m) := named_retrieve TagViewSet requester pk (tag_table st) in
  (r, set_tag_table (λ _, m) st).

Definition TagViewSet_create (requester : option Z) (data_name : option string)
    (st : State) : Response * State :=
  let '(r, m) := named_create TagViewSet requester data_name (tag_table st) in
  (r, set_tag_table (λ _, m) st).

Definition TagViewSet_update (partial : bool) (requester : option Z) (pk : Z)
    (data_name : option string) (st : State) : Response * State :=
  let '(r, m) := named_update TagViewSet partial requester pk data_name (tag_table st) in
  (r, set_tag_table (λ _, m) st).

Definition TagViewSet_destroy (requester : option Z) (pk : Z) (st : State)
    : Response * State :=
  let '(r, m) := named_destroy TagViewSet requester pk (tag_table st) in
  (r, if bool_decide (status_code r = HTTP_204_NO_CONTENT)
      then set_tasks (fmap (drop_tag pk)) (set_tag_table (λ _, m) st)
      else st).
End TaxonomyViews.

(** ** views.py: UserProfileView, for the e-mail address

    [User.email] comes from [AbstractUser] and is not declared unique, and
    [UserSerializer] gives it no validator of its own beyond the format of
    an address; the registration view looks for an existing address
    itself, this view does not.  Here is the view for a PATCH whose body
    carries at most the member [email]; the view in full, for PUT and for
    PATCH and for every member the serializer writes, is
    [UserProfileView_update] further down, next to the other views that
    validate a username.  The answer has the members that come from the
    columns of [User]; the member [profile], which the serializer adds
    for a user with a row in [UserProfile], is left out. *)
Section ProfileView.
Context `{Platform}.

Definition UserSerializer_data (pk : Z) (u : User) : Data :=
  Dict [("id", pretty pk); ("username", username u); ("email", email u);
        ("first_name", first_name u); ("last_name", last_name u)].

(** [UserProfileView.update] with [partial=True] (PATCH); [get_object] is
    [request.user]. *)
Definition UserProfileView_partial_update (requester : option Z)
    (in_email : option string) (st : State) : Response * State :=
  handle st (
    _ ← initial UserProfileView PATCH requester;
    pk ← request_user requester;
    match users st !! pk with
    | None => Raise NotAuthenticated
    | Some instance =>
        match in_email with
        | None => Return (mkResponse HTTP_200_OK (UserSerializer_data pk instance), st)
        | Some e =>
            match email_field e with
            | None => Raise (ValidationError [("email", "invalid")])
            | Some e' =>
                let instance' :=
                  mkUser (username instance) e' (password instance) (last_login instance)
                    (first_name instance) (last_name instance) in
                Return (mkResponse HTTP_200_OK (UserSerializer_data pk instance'),
                        set_users (insert pk instance') st)
            end
        end
    end).
End ProfileView.

(** ** views.py: forgot_password and reset_password *)

(** What [json.loads(request.body)] does: it raises [JSONDecodeError] for
    a text that is no JSON, it raises something else (a
    [UnicodeDecodeError] for bytes that are no text, with the text of the
    exception), it returns a value that is not an object (of which the
    views get to know the type), or it returns an object. *)
Inductive Body :=
  | InvalidJson
  | LoadsRaises (msg : string)
  | NotAnObject (type_of_value : string)
  | JsonObject (members : gmap string JsonValue).

(** [data.get(key)]: [None] for a member that is not there. *)
Definition get (key : string) (members : gmap string JsonValue) : JsonValue :=
  default JNull (members !! key).

(** The member [key] when it is a string. *)
Definition dict_get (key : string) (members : gmap string JsonValue) : option string :=
  match get key members with
  | JString s => Some s
  | _ => None
  end.

Definition error_response (code : Z) (msg : string) : Response :=
  mkResponse code (Dict [("error", msg)]).

Definition invalid_json : Response :=
  error_response HTTP_400_BAD_REQUEST "Formato JSON inválido.".

(** The [except Exception as e] at the end of both views. *)
Definition unexpected (msg : string) : Response :=
  error_response HTTP_500_INTERNAL_SERVER_ERROR ("Ocurrió un error inesperado: " +:+ msg).

(** The text of the [AttributeError] for [v.attribute] where the type of
    [v] has no such attribute. *)
Definition no_attribute (type_name attribute : string) : string :=
  "'" +:+ type_name +:+ "' object has no attribute '" +:+ attribute +:+ "'".

Definition no_attribute_get (type_name : string) : string :=
  "'" +:+ type_name +:+ "' object has no attribute 'get'".

(** The text of the [TypeError] of [make_password] for a password that is
    neither [str] nor [bytes]. *)
Definition password_type_error (type_name : string) : string :=
  "Password must be a string or bytes, got " +:+ type_name +:+ ".".

Definition multiple_objects (n : nat) : string :=
  "get() returned more than one User -- it returned " +:+
  (if bool_decide (n < 21)%nat then pretty n else "more than 20") +:+ "!".

Definition email_required : Response :=
  error_response HTTP_400_BAD_REQUEST "Se requiere un correo electrónico.".

(** The answer of [forgot_password] both when no user has the address and
    when the mail went out. *)
Definition reset_mail_sent : Response :=
  mkResponse HTTP_200_OK
    (Dict [("message", "Se ha enviado un correo electrónico con instrucciones para restablecer tu contraseña.")]).

Definition fields_required : Response :=
  error_response HTTP_400_BAD_REQUEST "Todos los campos son requeridos.".

Definition passwords_differ : Response :=
  error_response HTTP_400_BAD_REQUEST "Las contraseñas no coinciden.".

(** The one answer for a link that is of no use (category [InvalidLink]). *)
Definition invalid_link : Response :=
  error_response HTTP_400_BAD_REQUEST
    "Enlace de restablecimiento de contraseña inválido o expirado.".

Definition password_reset_done (access_token : string) : Response :=
  mkResponse HTTP_200_OK
    (Dict [("message", "Contraseña restablecida con éxito"); ("access_token", access_token)]).

Section PasswordReset.
Context `{Platform}.

(** [PasswordResetTokenGenerator._make_hash_value] *)
Definition make_hash_value (pk : Z) (u : User) (timestamp : N) : string :=
  let login_timestamp := from_option str_datetime "" (last_login u) in
  pretty pk +:+ password u +:+ login_timestamp +:+ pretty timestamp +:+ email u.

(** [PasswordResetTokenGenerator._make_token_with_timestamp] *)
Definition make_token_with_timestamp (pk : Z) (u : User) (timestamp : N) : string :=
  int_to_base36 timestamp +:+ "-" +:+ salted_hmac (make_hash_value pk u timestamp).

(** [default_token_generator.make_token(user)]; [now] counts the seconds
    of the generator's clock. *)
Definition make_token (now : N) (pk : Z) (u : User) : string :=
  make_token_with_timestamp pk u now.

(** [default_token_generator.check_token(user, token)] *)
Definition check_token (now : N) (pk : Z) (u : User) (token : string) : bool :=
  if String.eqb token "" then false
  else
    match token_timestamp token with
    | None => false
    | Some ts =>
        if String.eqb (make_token_with_timestamp pk u ts) token
        then negb (Z.of_N now - Z.of_N ts >? PASSWORD_RESET_TIMEOUT)
        else false
    end.

Definition reset_url (uidb64 token : string) : string :=
  FRONTEND_URL +:+ "/reset-password?uidb64=" +:+ uidb64 +:+ "&token=" +:+ token.

Definition reset_mail (to : string) (url : string) : Mail :=
  mkMail "Restablecimiento de contraseña"
    ("Por favor, haz clic en el siguiente enlace para restablecer tu contraseña: " +:+ url)
    DEFAULT_FROM_EMAIL [to].

(** [str(v)], which is what the look-up on a [CharField] column and the
    mail transport make of a value. *)
Definition value_str (v : JsonValue) : string :=
  match v with
  | JString s => s
  | JNull => "None"
  | JBool b => if b then "True" else "False"
  | JInt n => pretty n
  | _ => repr v
  end.

(** [forgot_password].  [mail_error] is what the mail transport does with
    the message: [None] when it takes it, [Some msg] when [send_mail]
    raises an exception whose text is [msg].  A look-up [email=v] compares
    the column with [str(v)], and that text is what the transport writes
    as the recipient. *)
Definition forgot_password (now : N) (mail_error : option string) (body : Body)
    (st : State) : Response * State :=
  match body with
  | InvalidJson => (invalid_json, st)
  | LoadsRaises msg => (unexpected msg, st)
  | NotAnObject tn => (unexpected (no_attribute_get tn), st)
  | JsonObject data =>
      let email_ := get "email" data in
      if negb (bool_of email_) then (email_required, st)
      else
        let address := value_str email_ in
        match objects_get (λ u, String.eqb (email u) address) (users st) with
        | DoesNotExist => (reset_mail_sent, st)
        | MultipleObjectsReturned n => (unexpected (multiple_objects n), st)
        | Got pk u =>
            let uidb64 := urlsafe_base64_encode (pretty pk) in
            let token := make_token now pk u in
            match mail_error with
            | Some msg => (unexpected msg, st)
            | None =>
                (reset_mail_sent,
                 set_outbox (λ box, box ++ [reset_mail address (reset_url uidb64 token)])%list st)
            end
        end
  end.

(** The inner [try] of [reset_password]: every exception it catches, and
    a key without a row, leave [user = None]. *)
Definition resolve_user (uidb64 : string) (st : State) : option (Z * User) :=
  raw ← urlsafe_base64_decode uidb64;
  uid ← force_str raw;
  pk ← pk_of_str uid;
  u ← users st !! pk;
  Some (pk, u).

(** [user.set_password(raw)] *)
Definition set_password (salt raw : string) (u : User) : User :=
  mkUser (username u) (email u) (make_password salt raw) (last_login u)
    (first_name u) (last_name u).

(** [reset_password].  [salt] is the salt the password hasher draws.
    What is not a string raises where a method of [str] is asked of it:
    [uidb64.encode()] in [urlsafe_base64_decode], outside the exceptions
    the inner [try] catches; [token.split("-")] in [check_token], which
    is only called for a user that was found; and the type check of
    [make_password], before the row is saved.  All three end in the
    [except Exception] of the view. *)
Definition reset_password (now : N) (salt : string) (body : Body) (st : State)
    : Response * State :=
  match body with
  | InvalidJson => (invalid_json, st)
  | LoadsRaises msg => (unexpected msg, st)
  | NotAnObject tn => (unexpected (no_attribute_get tn), st)
  | JsonObject data =>
      let uidb64 := get "uidb64" data in
      let token := get "token" data in
      let new_password := get "new_password" data in
      let confirm_password := get "confirm_password" data in
      if negb (forallb bool_of [uidb64; token; new_password; confirm_password])
      then (fields_required, st)
      else if py_ne new_password confirm_password
      then (passwords_differ, st)
      else
        match uidb64 with
        | JString uidb64 =>
            match resolve_user uidb64 st with
            | Some (pk, u) =>
                match token with
                | JString token =>
                    if check_token now pk u token then
                      match new_password with
                      | JString raw =>
                          let u' := set_password salt raw u in
                          (password_reset_done (access_token_for pk),
                           set_users (insert pk u') st)
                      | other =>
                          (unexpected (password_type_error (type_name other)), st)
                      end
                    else (invalid_link, st)
                | other => (unexpected (no_attribute (type_name other) "split"), st)
                end
            | None => (invalid_link, st)
            end
        | other => (unexpected (no_attribute (type_name other) "encode"), st)
        end
  end.

(** The body the front end posts to [reset_password]. *)
Definition reset_body (uidb64 token new_password confirm_password : string) : Body :=
  JsonObject (list_to_map
    [("uidb64", JString uidb64); ("token", JString token);
     ("new_password", JString new_password);
     ("confirm_password", JString confirm_password)]).

Definition forgot_body (address : string) : Body :=
  JsonObject {[ "email" := JString address ]}.
End PasswordReset.

(** ** The application as a whole *)

(** What a request meets and does not bring along: the date and the time
    of the server, the clock of the token generator, the salt the hasher
    draws and the mood of the mail transport. *)
Record Env := mkEnv {
  env_today : Z;
  env_now : Z;
  env_clock : N;
  env_salt : string;
  env_mail_error : option string;
}.

(** The requests served by the views that are modelled in full. *)
Inductive Request :=
  | TaskList (flt : TaskFilter)
  | TaskRetrieve (flt : TaskFilter) (pk : Z)
  | TaskCreate (d : TaskInput)
  | TaskUpdate (partial : bool) (flt : TaskFilter) (pk : Z) (d : TaskInput)
  | TaskDestroy (flt : TaskFilter) (pk : Z)
  | CategoryList
  | CategoryRetrieve (pk : Z)
  | CategoryCreate (data_name : option string)
  | CategoryUpdate (partial : bool) (pk : Z) (data_name : option string)
  | CategoryDestroy (pk : Z)
  | TagList
  | TagRetrieve (pk : Z)
  | TagCreate (data_name : option string)
  | TagUpdate (partial : bool) (pk : Z) (data_name : option string)
  | TagDestroy (pk : Z)
  | ProfilePatch (in_email : option string)
  | ForgotPassword (body : Body)
  | ResetPassword (body : Body).

Definition view_of (rq : Request) : View :=
  match rq with
  | TaskList _ | TaskRetrieve _ _ | TaskCreate _ | TaskUpdate _ _ _ _ | TaskDestroy _ _ =>
      TaskViewSet
  | CategoryList | CategoryRetrieve _ | CategoryCreate _ | CategoryUpdate _ _ _
  | CategoryDestroy _ => CategoryViewSet
  | TagList | TagRetrieve _ | TagCreate _ | TagUpdate _ _ _ | TagDestroy _ => TagViewSet
  | ProfilePatch _ => UserProfileView
  | ForgotPassword _ => forgot_password_view
  | ResetPassword _ => reset_password_view
  end.

Definition method_of (rq : Request) : Method :=
  match rq with
  | TaskList _ | TaskRetrieve _ _ | CategoryList | CategoryRetrieve _ | TagList
  | TagRetrieve _ => GET
  | TaskCreate _ | CategoryCreate _ | TagCreate _ | ForgotPassword _ | ResetPassword _ => POST
  | TaskUpdate partial _ _ _ | CategoryUpdate partial _ _ | TagUpdate partial _ _ =>
      if partial then PATCH else PUT
  | ProfilePatch _ => PATCH
  | TaskDestroy _ _ | CategoryDestroy _ | TagDestroy _ => DELETE
  end.

Section Application.
Context `{Platform}.

Definition serve (env : Env) (requester : option Z) (rq : Request) (st : State)
    : Response * State :=
  match rq with
  | TaskList flt => TaskViewSet_list requester flt st
  | TaskRetrieve flt pk => TaskViewSet_retrieve requester flt pk st
  | TaskCreate d => TaskViewSet_create (env_today env) (env_now env) requester d st
  | TaskUpdate partial flt pk d =>
      TaskViewSet_update (env_today env) (env_now env) partial requester flt pk d st
  | TaskDestroy flt pk => TaskViewSet_destroy requester flt pk st
  | CategoryList => CategoryViewSet_list requester st
  | CategoryRetrieve pk => CategoryViewSet_retrieve requester pk st
  | CategoryCreate data_name => CategoryViewSet_create requester data_name st
  | CategoryUpdate partial pk data_name =>
      CategoryViewSet_update partial requester pk data_name st
  | CategoryDestroy pk => CategoryViewSet_destroy requester pk st
  | TagList => TagViewSet_list requester st
  | TagRetrieve pk => TagViewSet_retrieve requester pk st
  | TagCreate data_name => TagViewSet_create requester data_name st
  | TagUpdate partial pk data_name => TagViewSet_update partial requester pk data_name st
  | TagDestroy pk => TagViewSet_destroy requester pk st
  | ProfilePatch in_email => UserProfileView_partial_update requester in_email st
  | ForgotPassword body => forgot_password (env_clock env) (env_mail_error env) body st
  | ResetPassword body => reset_password (env_clock env) (env_salt env) body st
  end.
End Application.

(** ** Notions used in the statements below *)

(** No two rows of a table carry the same name. *)
Definition unique_names `{NamedModel A} (m : gmap Z A) : Prop :=
  ∀ i j x y, m !! i = Some x → m !! j = Some y → name x = name y → i = j.

(** The two states have the same categories and the same tags. *)
Definition same_taxonomy (st st' : State) : Prop :=
  categories st' = categories st ∧ tag_table st' = tag_table st.

(** The access credential a response hands out, if any. *)
Definition issued_token (r : Response) : option string :=
  match data r with
  | Dict fields => snd <$> head (filter (λ kv, kv.1 = "access_token") fields)
  | _ => None
  end.

(** The same body with another value for [user]. *)
Definition with_user (x : option Z) (d : TaskInput) : TaskInput :=
  mkTaskInput x (in_title d) (in_description d) (in_due_date d) (in_priority d)
    (in_status d) (in_category d) (in_tags d).

(** The same body without the member [due_date]. *)
Definition without_due_date (d : TaskInput) : TaskInput :=
  mkTaskInput (in_user d) (in_title d) (in_description d) None (in_priority d)
    (in_status d) (in_category d) (in_tags d).

(** The rows of a table that carry a given e-mail address. *)
Definition at_most_one_user (address : string) (st : State) : Prop :=
  ∀ i j x y, users st !! i = Some x → users st !! j = Some y →
    email x = address → email y = address → i = j.

(** ** An instance of the platform, to run the views on

    The digits and the token layout are Django's; the MAC is the identity
    and the password hasher joins salt and password, so both are free of
    collisions; the codec of [uidb64] knows the keys 1 to 3; the text of
    a float, a list or a dict is not spelled out and stands for itself
    as the name of the type in angle brackets. *)
Module Run.
Definition base36_digit (d : N) : ascii :=
  ascii_of_N (if (d <? 10)%N then 48 + d else 87 + d).

Fixpoint to_base36 (fuel : nat) (i : N) (acc : string) : string :=
  match fuel with
  | O => acc
  | S fuel' =>
      let acc' := String (base36_digit (i mod 36)) acc in
      if (i <? 36)%N then acc' else to_base36 fuel' (i / 36)%N acc'
  end.

Definition base36 (i : N) : string := to_base36 14 i "".

Definition base36_value (c : ascii) : option N :=
  let n := N_of_ascii c in
  if ((48 <=? n) && (n <=? 57))%N then Some (n - 48)%N
  else if ((97 <=? n) && (n <=? 122))%N then Some (n - 87)%N
  else if ((65 <=? n) && (n <=? 90))%N then Some (n - 55)%N
  else None.

Fixpoint from_base36 (s : string) (acc : N) : option N :=
  match s with
  | EmptyString => Some acc
  | String c s' => d ← base36_value c; from_base36 s' (36 * acc + d)%N
  end.

Definition base36_to_int (s : string) : option N :=
  if bool_decide (s = "") || bool_decide (13 < String.length s)%nat then None
  else from_base36 s 0%N.

(** The two halves of a string with exactly one ["-"]. *)
Fixpoint split_dash (s : string) : option (string * string) :=
  match s with
  | EmptyString => None
  | String c s' =>
      if Ascii.eqb c "-"%char
      then (if bool_decide (String.index 0 "-" s' = None) then Some ("", s') else None)
      else '(a, b) ← split_dash s'; Some (String c a, b)
  end.

Definition split_timestamp (token : string) : option N :=
  '(ts_b36, _) ← split_dash token; base36_to_int ts_b36.

Definition lower (c : ascii) : ascii :=
  let n := N_of_ascii c in
  if ((65 <=? n) && (n <=? 90))%N then ascii_of_N (n + 32) else c.

Fixpoint lowercase (s : string) : string :=
  match s with
  | EmptyString => EmptyString
  | String c s' => String (lower c) (lowercase s')
  end.

Fixpoint contains (needle hay : string) : bool :=
  String.prefix needle hay ||
  match hay with
  | EmptyString => false
  | String _ hay' => contains needle hay'
  end.

(** White space, as far as [ascii] goes. *)
Definition is_space (c : ascii) : bool :=
  let n := N_of_ascii c in
  ((9 <=? n) && (n <=? 13) || (28 <=? n) && (n <=? 32))%N.

Fixpoint lstrip (s : string) : string :=
  match s with
  | String c s' => if is_space c then lstrip s' else s
  | EmptyString => EmptyString
  end.

Fixpoint rstrip (s : string) : string :=
  match s with
  | String c s' =>
      match rstrip s' with
      | EmptyString => if is_space c then EmptyString else String c EmptyString
      | rest => String c rest
      end
  | EmptyString => EmptyString
  end.

Definition table {A} (l : list (string * A)) (s : string) : option A :=
  snd <$> head (filter (λ kv, kv.1 = s) l).

#[local] Instance platform : Platform := {|
  urlsafe_base64_decode := table [("MQ", "1"); ("Mg", "2"); ("Mw", "3")];
  urlsafe_base64_encode s := default "" (table [("1", "MQ"); ("2", "Mg"); ("3", "Mw")] s);
  force_str := Some;
  pk_of_str := table [("1", 1); ("2", 2); ("3", 3)];
  token_timestamp := split_timestamp;
  int_to_base36 := base36;
  salted_hmac value := value;
  str_datetime := pretty;
  make_password salt raw := "plain$" +:+ salt +:+ "$" +:+ raw;
  access_token_for pk := "access." +:+ pretty pk;
  char_field max_length allow_blank s :=
    if bool_decide (s = "") && negb allow_blank then None
    else if from_option (λ n, n <? String.length s)%nat false max_length
    then None else Some s;
  email_field s := if contains "@" s then Some s else None;
  icontains hay needle := contains (lowercase needle) (lowercase hay);
  strip s := rstrip (lstrip s);
  repr v := "<" +:+ type_name v +:+ ">";
  FRONTEND_URL := "http://localhost:5173";
  DEFAULT_FROM_EMAIL := "noreply@example.com";
  PASSWORD_RESET_TIMEOUT := 259200;
|}.

(** Two users, one task of each, a category and a tag. *)
Definition alice : User :=
  mkUser "alice" "alice@example.com" "plain$s0$oldpassword" None "Alice" "Liddell".
Definition bob : User :=
  mkUser "bob" "bob@example.com" "plain$s1$hunter2" None "" "".

Definition groceries : Task :=
  mkTask 1 "Buy groceries" None None "medium" "pending" (Some 1) {[1]} 10 10.
Definition laundry : Task :=
  mkTask 2 "Laundry" None None "low" "pending" None ∅ 11 11.

Definition st0 : State :=
  mkState {[ 1 := alice; 2 := bob ]} {[ 1 := mkCategory "Home" ]}
    {[ 1 := mkTag "Shopping" ]} {[ 1 := groceries; 2 := laundry ]} [].

(** The same with a third account, before and after Carol set her
    address to Alice's. *)
Definition st_carol : State :=
  set_users (insert 3 (mkUser "carol" "carol@example.com" "plain$s2$pw" None "" "")) st0.
Definition st_shared_email : State :=
  set_users (insert 3 (mkUser "carol" "alice@example.com" "plain$s2$pw" None "" "")) st0.

Definition new_task (d : option Z) : TaskInput :=
  mkTaskInput (Some 2) (Some "Call the bank") None (Some d) None None None None.

Definition alice_token : string := make_token 1000 1 alice.

Definition env0 : Env := mkEnv 100 50 1500 "s9" None.
End Run.

(** ** views.py: UserRegistrationView, ChangePasswordView and UserProfileView *)

(** What these two views take from Django beyond the platform above. *)
Class Accounts := {
  (** validation of the [username] field of the user serializer without
      its uniqueness check (length, allowed characters): the cleaned
      value, or [None] when it is rejected *)
  username_field : string → option string;
  (** [django.contrib.auth.hashers.check_password(raw, encoded)] *)
  check_password : string → string → bool;
}.

(** [Model.objects.filter(...).exists()] *)
Definition objects_exists {A} (P : A → bool) (m : gmap Z A) : bool :=
  existsb (λ kv, P kv.2) (map_to_list m).

(** The body of a registration, after JSON parsing; [None] is a member
    that the body does not carry. *)
Record RegistrationInput := mkRegistrationInput {
  reg_username : option string;
  reg_email : option string;
  reg_password : option string;
}.

(** [validated_data] of [UserRegistrationSerializer]: [email] may be
    missing, since the column is declared [blank=True]. *)
Record RegistrationAttrs := mkRegistrationAttrs {
  va_username : string;
  va_email : option string;
  va_password : string;
}.

Record ChangePasswordInput := mkChangePasswordInput {
  in_old_password : option string;
  in_new_password : option string;
}.

(** The body of a request to the profile view, and the [validated_data]
    of [UserSerializer]: the four members that can be written. *)
Record ProfileInput := mkProfileInput {
  pf_username : option string;
  pf_email : option string;
  pf_first_name : option string;
  pf_last_name : option string;
}.

Record ProfileAttrs := mkProfileAttrs {
  vp_username : option string;
  vp_email : option string;
  vp_first_name : option string;
  vp_last_name : option string;
}.

Definition username_exists_msg : string := "Este nombre de usuario ya existe".
Definition email_exists_msg : string := "Este correo electrónico ya está registrado".
Definition wrong_old_password : Response :=
  error_response HTTP_400_BAD_REQUEST "Contraseña antigua incorrecta".
Definition password_changed : Response :=
  mkResponse HTTP_200_OK (Dict [("message", "Contraseña actualizada con éxito")]).

(** A field that must be sent. *)
Definition required_field {A B} (check : A → string + B) (x : option A) : string + B :=
  match x with
  | None => inl "required"
  | Some a => check a
  end.

Definition sum_value {A} (dflt : A) (r : string + A) : A :=
  match r with inl _ => dflt | inr a => a end.

Section AccountViews.
Context `{Platform} `{Accounts}.

(** The [username] field: the validators of the column, then the
    [UniqueValidator] that the serializer derives from [unique=True]. *)
Definition username_checked (st : State) (s : string) : string + string :=
  match username_field s with
  | None => inl "invalid"
  | Some n =>
      if objects_exists (λ u, String.eqb (username u) n) (users st)
      then inl "unique" else inr n
  end.

Definition email_checked (s : string) : string + string :=
  match email_field s with
  | None => inl "invalid"
  | Some e => inr e
  end.

(** [UserRegistrationSerializer.is_valid(raise_exception=True)] *)
Definition UserRegistrationSerializer_is_valid (d : RegistrationInput) (st : State)
    : Result RegistrationAttrs :=
  let un := required_field (username_checked st) (reg_username d) in
  let em := optional_field email_checked (reg_email d) in
  let pw := required_field (char_field_checked None false) (reg_password d) in
  let errors :=
    (field_error "username" un ++ field_error "email" em ++ field_error "password" pw)%list in
  match errors with
  | [] => Return (mkRegistrationAttrs (sum_value "" un) (field_value em) (sum_value "" pw))
  | _ => Raise (ValidationError errors)
  end.

(** [UserRegistrationSerializer.create]: the password is replaced by its
    hash and the row is created with the defaults of the model. *)
Definition UserRegistrationSerializer_create (salt : string) (v : RegistrationAttrs)
    (st : State) : Z * State :=
  let password_ := make_password salt (va_password v) in
  let pk := next_pk (users st) in
  (pk, set_users
         (insert pk (mkUser (va_username v) (default "" (va_email v)) password_ None "" ""))
         st).

(** [UserRegistrationView.create].  A look-up for [email=None] finds no
    row, the column not being nullable. *)
Definition UserRegistrationView_create (salt : string) (requester : option Z)
    (d : RegistrationInput) (st : State) : Response * State :=
  handle st (
    _ ← initial UserRegistrationView POST requester;
    v ← UserRegistrationSerializer_is_valid d st;
    let username_ := va_username v in
    let email_ := va_email v in
    let errors :=
      ((if objects_exists (λ u, String.eqb (username u) username_) (users st)
        then [("username", username_exists_msg)] else []) ++
       (if from_option (λ e, objects_exists (λ u, String.eqb (email u) e) (users st))
             false email_
        then [("email", email_exists_msg)] else []))%list in
    match errors with
    | [] =>
        let '(_, st') := UserRegistrationSerializer_create salt v st in
        Return (mkResponse HTTP_201_CREATED
                  (Dict [("username", username_); ("email", default "" email_)]), st')
    | _ => Return (mkResponse HTTP_400_BAD_REQUEST (Dict errors), st)
    end).

(** [ChangePasswordSerializer.is_valid(raise_exception=True)] *)
Definition ChangePasswordSerializer_is_valid (d : ChangePasswordInput)
    : Result (string * string) :=
  let old := required_field (char_field_checked None false) (in_old_password d) in
  let new := required_field (char_field_checked None false) (in_new_password d) in
  let errors := (field_error "old_password" old ++ field_error "new_password" new)%list in
  match errors with
  | [] => Return (sum_value "" old, sum_value "" new)
  | _ => Raise (ValidationError errors)
  end.

(** [ChangePasswordView.update], for PUT and for PATCH.  The session that
    [update_session_auth_hash] touches is no part of the state. *)
Definition ChangePasswordView_update (salt : string) (partial : bool)
    (requester : option Z) (d : ChangePasswordInput) (st : State) : Response * State :=
  handle st (
    _ ← initial ChangePasswordView (if partial then PATCH else PUT) requester;
    v ← ChangePasswordSerializer_is_valid d;
    pk ← request_user requester;
    match users st !! pk with
    | None => Raise NotAuthenticated
    | Some u =>
        if negb (check_password v.1 (password u)) then Return (wrong_old_password, st)
        else Return (password_changed, set_users (insert pk (set_password salt v.2 u)) st)
    end).

(** The [UniqueValidator] of [username] on an update: the row that is
    updated is left out of the comparison. *)
Definition username_taken (exclude : Z) (n : string) (m : gmap Z User) : bool :=
  existsb (λ kv, String.eqb (username kv.2) n && negb (bool_decide (kv.1 = exclude)))
    (map_to_list m).

Definition username_checked_for (instance : Z) (st : State) (s : string) : string + string :=
  match username_field s with
  | None => inl "invalid"
  | Some n => if username_taken instance n (users st) then inl "unique" else inr n
  end.

(** [username] is the one member a full (not partial) body must carry:
    the other three columns are declared [blank=True]. *)
Definition username_member (partial : bool) (instance : Z) (st : State)
    (x : option string) : string + option string :=
  match x with
  | None => if partial then inr None else inl "required"
  | Some _ => optional_field (username_checked_for instance st) x
  end.

(** [UserSerializer.is_valid(raise_exception=True)] for the row
    [instance]; [id] and [profile] are read-only. *)
Definition UserSerializer_is_valid (instance : Z) (partial : bool) (d : ProfileInput)
    (st : State) : Result ProfileAttrs :=
  let un := username_member partial instance st (pf_username d) in
  let em := optional_field email_checked (pf_email d) in
  let fn := optional_field (char_field_checked (Some 150%nat) true) (pf_first_name d) in
  let ln := optional_field (char_field_checked (Some 150%nat) true) (pf_last_name d) in
  let errors :=
    (field_error "username" un ++ field_error "email" em ++
     field_error "first_name" fn ++ field_error "last_name" ln)%list in
  match errors with
  | [] => Return (mkProfileAttrs (field_value un) (field_value em) (field_value fn)
                    (field_value ln))
  | _ => Raise (ValidationError errors)
  end.

(** [ModelSerializer.update]: [setattr] for every validated attribute,
    then [instance.save()]. *)
Definition UserSerializer_update (instance : User) (v : ProfileAttrs) : User :=
  mkUser (default (username instance) (vp_username v))
    (default (email instance) (vp_email v))
    (password instance) (last_login instance)
    (default (first_name instance) (vp_first_name v))
    (default (last_name instance) (vp_last_name v)).

(** [UserProfileView.update], for PUT and for PATCH. *)
Definition UserProfileView_update (partial : bool) (requester : option Z)
    (d : ProfileInput) (st : State) : Response * State :=
  handle st (
    _ ← initial UserProfileView (if partial then PATCH else PUT) requester;
    pk ← request_user requester;
    match users st !! pk with
    | None => Raise NotAuthenticated
    | Some instance =>
        v ← UserSerializer_is_valid pk partial d st;
        let instance' := UserSerializer_update instance v in
        Return (mkResponse HTTP_200_OK (UserSerializer_data pk instance'),
                set_users (insert pk instance') st)
    end).

(** [RetrieveModelMixin.retrieve] of [UserProfileView] *)
Definition UserProfileView_retrieve (requester : option Z) (st : State)
    : Response * State :=
  handle st (
    _ ← initial UserProfileView GET requester;
    pk ← request_user requester;
    match users st !! pk with
    | None => Raise NotAuthenticated
    | Some instance => Return (mkResponse HTTP_200_OK (UserSerializer_data pk instance), st)
    end).

(** Every request the model serves. *)
Inductive AnyRequest :=
  | Api (rq : Request)
  | Register (d : RegistrationInput)
  | ChangePassword (partial : bool) (d : ChangePasswordInput)
  | ProfileRetrieve
  | ProfileUpdate (partial : bool) (d : ProfileInput).

Definition serve_any (env : Env) (requester : option Z) (rq : AnyRequest) (st : State)
    : Response * State :=
  match rq with
  | Api rq => serve env requester rq st
  | Register d => UserRegistrationView_create (env_salt env) requester d st
  | ChangePassword partial d =>
      ChangePasswordView_update (env_salt env) partial requester d st
  | ProfileRetrieve => UserProfileView_retrieve requester st
  | ProfileUpdate partial d => UserProfileView_update partial requester d st
  end.

(** *** What a request can do to the state

    [validated st v]: the attributes [v] came out of the task serializer
    in the state [st]. *)
Definition validated (st : State) (v : TaskAttrs) : Prop :=
  ∃ today partial d, TaskSerializer_is_valid today st partial d = Return v.

Definition name_free `{NamedModel A} (pk : Z) (n : string) (m : gmap Z A) : Prop :=
  ∀ j row, m !! j = Some row → name row = n → j = pk.

Definition key_to_write {A} (pk : Z) (m : gmap Z A) : Prop :=
  is_Some (m !! pk) ∨ m !! pk = None ∧ pk = next_pk m.

(** The writes of the views, each with what the view has checked before
    it writes. *)
Inductive Step (now : Z) (requester : option Z) (st : State) : State → Prop :=
  | step_same : Step now requester st st
  | step_task_created u v :
      requester = Some u → validated st v →
      Step now requester st (TaskSerializer_create now u v st).2
  | step_task_updated u pk T v :
      requester = Some u → tasks st !! pk = Some T → user T = u → validated st v →
      Step now requester st (TaskSerializer_update now pk T v st)
  | step_task_deleted u pk T :
      requester = Some u → tasks st !! pk = Some T → user T = u →
      Step now requester st (set_tasks (delete pk) st)
  | step_category_written pk n :
      is_Some requester → name_free pk n (categories st) → key_to_write pk (categories st) →
      Step now requester st (set_categories (insert pk (mkCategory n)) st)
  | step_category_deleted pk :
      is_Some requester → is_Some (categories st !! pk) →
      Step now requester st
        (set_tasks (fmap (clear_category pk)) (set_categories (delete pk) st))
  | step_tag_written pk n :
      is_Some requester → name_free pk n (tag_table st) → key_to_write pk (tag_table st) →
      Step now requester st (set_tag_table (insert pk (mkTag n)) st)
  | step_tag_deleted pk :
      is_Some requester → is_Some (tag_table st !! pk) →
      Step now requester st (set_tasks (fmap (drop_tag pk)) (set_tag_table (delete pk) st))
  | step_user_changed pk u u' :
      users st !! pk = Some u →
      (username u' = username u
       ∨ (requester = Some pk
          ∧ ∀ j x, users st !! j = Some x → username x = username u' → j = pk)) →
      last_login u' = last_login u →
      (email u' = email u ∧ first_name u' = first_name u ∧ last_name u' = last_name u
       ∨ (requester = Some pk ∧ password u' = password u)) →
      Step now requester st (set_users (insert pk u') st)
  | step_user_registered u :
      users st !! next_pk (users st) = None →
      (∀ j x, users st !! j = Some x → username x ≠ username u) →
      (∀ j x, users st !! j = Some x → email x = email u → email u = "") →
      last_login u = None → first_name u = "" → last_name u = "" →
      Step now requester st (set_users (insert (next_pk (users st)) u) st)
  | step_mail_sent pk u m :
      users st !! pk = Some u → mail_to m = [email u] →
      Step now requester st (set_outbox (λ box, box ++ [m])%list st).
End AccountViews.

(** *** Invariants *)

(** No two accounts have the same username. *)
Definition unique_usernames (st : State) : Prop :=
  ∀ i j x y, users st !! i = Some x → users st !! j = Some y →
    username x = username y → i = j.

(** [serializer.errors] of [TaskSerializer]: what each field has to say. *)
Definition task_errors `{Platform} (today : Z) (st : State) (partial : bool) (d : TaskInput)
    : list (string * string) :=
  (field_error "title" (title_field partial (in_title d))
   ++ field_error "description"
        (optional_field (nullable (char_field_checked None true)) (in_description d))
   ++ field_error "due_date" (optional_field (validate_due_date today) (in_due_date d))
   ++ field_error "priority" (optional_field (choice_field priority_choices) (in_priority d))
   ++ field_error "status" (optional_field (choice_field status_choices) (in_status d))
   ++ field_error "category"
        (optional_field (nullable (related_field (categories st))) (in_category d))
   ++ field_error "tags"
        (optional_field (many (related_field (tag_table st))) (in_tags d)))%list.

(** Every task points to a category and to tags that exist, and its
    priority and status are among the choices of the model. *)
Definition task_well_formed (st : State) (t : Task) : Prop :=
  (∀ c, category t = Some c → is_Some (categories st !! c))
  ∧ (∀ x, x ∈ tags t → is_Some (tag_table st !! x))
  ∧ priority t ∈ priority_choices
  ∧ status t ∈ status_choices.

Definition tasks_well_formed (st : State) : Prop :=
  ∀ pk t, tasks st !! pk = Some t → task_well_formed st t.

(** An instance of [Accounts] for [Run.platform], and more samples: a
    username is any non-empty string, and a password checks against a
    hash of the form [plain$salt$password]. *)
Module RunMore.
Fixpoint last_segment (s acc : string) : string :=
  match s with
  | EmptyString => acc
  | String c s' =>
      if Ascii.eqb c "$"%char then last_segment s' "" else last_segment s' (acc +:+ String c "")
  end.

#[local] Instance accounts : Accounts := {|
  username_field s := if String.eqb s "" then None else Some s;
  check_password raw encoded := String.eqb (last_segment encoded "") raw;
|}.

(** A new username and a new first name for Alice. *)
Definition rename_alice : ProfileInput :=
  mkProfileInput (Some "alicia") None (Some "Alicia") None.

Definition dave : RegistrationInput :=
  mkRegistrationInput (Some "newuser") (Some "new@example.com") (Some "securepassword").

(** [Run.st0] with a third task, of Alice, due on day 120. *)
Definition rent : Task :=
  mkTask 1 "Pay rent" None (Some 120) "high" "pending" None ∅ 12 12.
Definition st_rent : State := set_tasks (insert 3 rent) Run.st0.

(** Tasks due from day 100 to day 130. *)
Definition window : TaskFilter :=
  mkTaskFilter None None None None None None (Some 100) (Some 130).

(** The same with a title and a priority to look for, and with a
    description and a status that are given but blank. *)
Definition search : TaskFilter :=
  mkTaskFilter (Some " RENT ") (Some "   ") (Some "") (Some "high") None None
    (Some 100) (Some 130).

Definition home_and_work : gmap Z Category :=
  {[ 1 := mkCategory "Home"; 2 := mkCategory "Work" ]}.

Definition retitle : TaskInput :=
  mkTaskInput None (Some "Updated Task") None None None None None None.

(** A new title and a description, nothing else. *)
Definition describe : TaskInput :=
  mkTaskInput None (Some "Updated Task") (Some (Some "Two bags")) None None None None None.
End RunMore.

(** * Properties *)

(** ** The object manager *)

Lemma foldr_max_bound (l : list Z) (k : Z) : k ∈ l → k ≤ foldr Z.max 0 l.
Proof.
  induction l as [|x l IH]; intros Hk.
  - by apply elem_of_nil in Hk.
  - apply elem_of_cons in Hk as [->|Hk]; simpl; [lia|].
    specialize (IH Hk). lia.
Qed.

Lemma next_pk_fresh {A} (m : gmap Z A) : m !! next_pk m = None.
Proof.
  destruct (m !! next_pk m) as [x|] eqn:Hx; [|done].
  assert (next_pk m ≤ foldr Z.max 0 (fst <$> map_to_list m)) as Hle.
  { apply foldr_max_bound, list_elem_of_fmap.
    exists (next_pk m, x). split; [done|]. by apply elem_of_map_to_list. }
  unfold next_pk in Hle. lia.
Qed.

Lemma objects_get_matches {A} (P : A → bool) (m : gmap Z A) (kv : Z * A) :
  kv ∈ filter (λ kv, P kv.2 = true) (map_to_list m) ↔ m !! kv.1 = Some kv.2 ∧ P kv.2 = true.
Proof.
  rewrite list_elem_of_filter, <- elem_of_map_to_list. destruct kv; simpl. tauto.
Qed.

Lemma objects_get_DoesNotExist {A} (P : A → bool) (m : gmap Z A) :
  (∀ pk row, m !! pk = Some row → P row = false) → objects_get P m = DoesNotExist.
Proof.
  intros Hno. unfold objects_get.
  destruct (filter _ (map_to_list m)) as [|[pk row] l] eqn:Hf; [done|].
  assert ((pk, row) ∈ filter (λ kv, P kv.2 = true) (map_to_list m)) as Hin
    by (rewrite Hf; left).
  apply objects_get_matches in Hin as [Hm HP]. simpl in *.
  rewrite (Hno _ _ Hm) in HP. done.
Qed.

Lemma objects_get_Got {A} (P : A → bool) (m : gmap Z A) pk row :
  objects_get P m = Got pk row → m !! pk = Some row ∧ P row = true.
Proof.
  unfold objects_get. intros Hg.
  destruct (filter _ (map_to_list m)) as [|[pk' row'] [|? l]] eqn:Hf; simplify_eq.
  assert ((pk, row) ∈ filter (λ kv, P kv.2 = true) (map_to_list m)) as Hin
    by (rewrite Hf; left).
  by apply objects_get_matches in Hin.
Qed.

Lemma objects_get_DoesNotExist_inv {A} (P : A → bool) (m : gmap Z A) pk row :
  objects_get P m = DoesNotExist → m !! pk = Some row → P row = false.
Proof.
  unfold objects_get. intros Hg Hm.
  destruct (P row) eqn:HP; [exfalso|done].
  assert ((pk, row) ∈ filter (λ kv, P kv.2 = true) (map_to_list m)) as Hin
    by by apply objects_get_matches.
  destruct (filter _ (map_to_list m)) as [|[] [|? l]]; simplify_eq.
  by apply elem_of_nil in Hin.
Qed.

Lemma objects_get_Multiple {A} (P : A → bool) (m : gmap Z A) n :
  objects_get P m = MultipleObjectsReturned n →
  ∃ i j x y, i ≠ j ∧ m !! i = Some x ∧ m !! j = Some y ∧ P x = true ∧ P y = true.
Proof.
  unfold objects_get. intros Hg.
  assert (NoDup (filter (λ kv, P kv.2 = true) (map_to_list m))) as Hnd
    by apply NoDup_filter, NoDup_map_to_list.
  destruct (filter _ (map_to_list m)) as [|[i x] [|[j y] l]] eqn:Hf; simplify_eq.
  assert ((i, x) ∈ filter (λ kv, P kv.2 = true) (map_to_list m)) as Hi
    by (rewrite Hf; left).
  assert ((j, y) ∈ filter (λ kv, P kv.2 = true) (map_to_list m)) as Hj
    by (rewrite Hf; right; left).
  apply objects_get_matches in Hi as [Hi Hx]. apply objects_get_matches in Hj as [Hj Hy].
  exists i, j, x, y. repeat split; try done.
  intros ->. simpl in *. simplify_eq.
  apply NoDup_cons in Hnd as [Hnotin _]. apply Hnotin. left.
Qed.

(** With at most one row that matches, [get] finds it. *)
Lemma objects_get_unique {A} (P : A → bool) (m : gmap Z A) pk row :
  m !! pk = Some row → P row = true →
  (∀ i j x y, m !! i = Some x → m !! j = Some y → P x = true → P y = true → i = j) →
  objects_get P m = Got pk row.
Proof.
  intros Hm HP Huniq. unfold objects_get.
  assert (NoDup (filter (λ kv, P kv.2 = true) (map_to_list m))) as Hnd
    by apply NoDup_filter, NoDup_map_to_list.
  assert (∀ kv, kv ∈ filter (λ kv, P kv.2 = true) (map_to_list m) → kv = (pk, row)) as Hall.
  { intros [i x] [Hi Hx]%objects_get_matches. simpl in *.
    assert (i = pk) as -> by eauto. congruence. }
  assert ((pk, row) ∈ filter (λ kv, P kv.2 = true) (map_to_list m)) as Hin
    by by apply objects_get_matches.
  destruct (filter _ (map_to_list m)) as [|kv1 [|kv2 l]].
  - by apply elem_of_nil in Hin.
  - rewrite (Hall kv1) by left. done.
  - exfalso. apply NoDup_cons in Hnd as [Hnotin _]. apply Hnotin.
    rewrite (Hall kv1) by left. rewrite <- (Hall kv2) by (right; left). left.
Qed.

Lemma name_taken_true `{NamedModel A} exclude n (m : gmap Z A) :
  name_taken exclude n m = true ↔
  ∃ pk row, m !! pk = Some row ∧ name row = n ∧ exclude ≠ Some pk.
Proof.
  unfold name_taken. rewrite existsb_exists. split.
  - intros [[pk row] [Hin Hb]]. apply list_elem_of_In, elem_of_map_to_list in Hin.
    apply andb_true_iff in Hb as [Hn Hx]. apply bool_decide_eq_true in Hn.
    apply negb_true_iff, bool_decide_eq_false in Hx. eauto.
  - intros (pk & row & Hm & Hn & Hx). exists (pk, row). split.
    + by apply list_elem_of_In, elem_of_map_to_list.
    + simpl. apply andb_true_iff. split; [by apply bool_decide_eq_true|].
      by apply negb_true_iff, bool_decide_eq_false.
Qed.

Lemma name_taken_false `{NamedModel A} exclude n (m : gmap Z A) :
  name_taken exclude n m = false ↔
  ∀ pk row, m !! pk = Some row → name row = n → exclude = Some pk.
Proof.
  rewrite <- not_true_iff_false, name_taken_true. split.
  - intros Hno pk row Hm Hn. destruct (decide (exclude = Some pk)); [done|].
    exfalso. eauto 10.
  - intros Hall (pk & row & Hm & Hn & Hx). eauto.
Qed.

(** ** Tasks: scoping, ownership, validation *)

Section TaskProperties.
Context `{Platform}.

Lemma initial_authenticated (v : View) (m : Method) (u : Z) :
  initial v m (Some u) = Return ().
Proof.
  unfold initial, check_permissions.
  destruct v; simpl; rewrite ?orb_true_r; reflexivity.
Qed.

Lemma queryset_lookup (u : Z) flt (st : State) pk t :
  filter_queryset flt (get_queryset u st) !! pk = Some t ↔
  tasks st !! pk = Some t ∧ user t = u ∧ TaskFilter_matches flt t = true.
Proof.
  unfold filter_queryset, get_queryset.
  rewrite !map_lookup_filter_Some. simpl. tauto.
Qed.

Lemma get_object_foreign (B : Z) flt pk (T : Task) (st : State) :
  tasks st !! pk = Some T → user T ≠ B → get_object B flt pk st = Raise NotFound.
Proof.
  intros HT Hne. unfold get_object.
  destruct (filter_queryset _ _ !! pk) as [t|] eqn:Hq; [|done].
  apply queryset_lookup in Hq as (Ht & Hu & _). congruence.
Qed.

Lemma get_object_own (u : Z) pk (T : Task) (st : State) :
  tasks st !! pk = Some T → user T = u → get_object u no_filter pk st = Return T.
Proof.
  intros HT Hu. unfold get_object.
  assert (filter_queryset no_filter (get_queryset u st) !! pk = Some T) as ->; [|done].
  by apply queryset_lookup.
Qed.

(** C3.  Whatever the tasks of other users are, the list that [B] gets
    holds only rows of the task table whose owner is [B], so a task [T]
    of another user is not in it, and retrieving [T] by its key is
    answered with 404 Not Found. *)
Theorem list_retrieve_scoped (B pk : Z) (T : Task) (flt : TaskFilter) (st : State) :
  tasks st !! pk = Some T → user T ≠ B →
  ∃ l, TaskViewSet_list (Some B) flt st = (mkResponse HTTP_200_OK (ManyTasks l), st)
     ∧ (∀ r, r ∈ l → r_user r = B
                   ∧ ∃ t, tasks st !! r_id r = Some t ∧ user t = B)
     ∧ (∀ r, r ∈ l → r_id r ≠ pk)
     ∧ TaskViewSet_retrieve (Some B) flt pk st = (handle_exception NotFound, st).
Proof.
  intros HT Hne. eexists. split; [|split; [|split]].
  - unfold TaskViewSet_list. rewrite initial_authenticated. reflexivity.
  - intros r [[i t] [-> Hin]]%list_elem_of_fmap.
    apply elem_of_map_to_list, queryset_lookup in Hin as (Ht & Hu & _).
    simpl. eauto.
  - intros r [[i t] [-> Hin]]%list_elem_of_fmap.
    apply elem_of_map_to_list, queryset_lookup in Hin as (Ht & Hu & _).
    simpl. intros ->. congruence.
  - unfold TaskViewSet_retrieve. rewrite initial_authenticated. simpl.
    by rewrite (get_object_foreign B flt pk T).
Qed.

(** C1, as the code has it.  A request of [B] to update or delete a task
    [T] of another user is answered with 404 Not Found and changes
    nothing, because the task is looked up among the tasks of [B];
    [perform_update] and [perform_destroy], when they are handed such a
    task, raise [PermissionDenied] and change nothing either. *)
Theorem foreign_task_untouched (B pk : Z) (T : Task) (today now : Z) (partial : bool)
    (flt : TaskFilter) (d : TaskInput) (v : TaskAttrs) (st : State) :
  tasks st !! pk = Some T → user T ≠ B →
  TaskViewSet_update today now partial (Some B) flt pk d st = (handle_exception NotFound, st)
  ∧ TaskViewSet_destroy (Some B) flt pk st = (handle_exception NotFound, st)
  ∧ perform_update now B pk T v st = Raise (PermissionDenied permission_update)
  ∧ perform_destroy B pk T st = Raise (PermissionDenied permission_destroy).
Proof.
  intros HT Hne. repeat split.
  - unfold TaskViewSet_update. rewrite initial_authenticated. simpl.
    by rewrite (get_object_foreign B flt pk T).
  - unfold TaskViewSet_destroy. rewrite initial_authenticated. simpl.
    by rewrite (get_object_foreign B flt pk T).
  - unfold perform_update. by rewrite bool_decide_eq_true_2.
  - unfold perform_destroy. by rewrite bool_decide_eq_true_2.
Qed.
End TaskProperties.

Section TaskValidation.
Context `{Platform}.

Lemma field_error_name {A} (field : string) (r : string + A) (kv : string * string) :
  kv ∈ field_error field r → kv.1 = field.
Proof.
  destruct r; simpl; [|by intros ?%elem_of_nil].
  by intros ->%list_elem_of_singleton.
Qed.

(** The serializer fails only with a [ValidationError], and then the
    errors are those of the single fields, in the order of the fields. *)
Lemma is_valid_raises today (st : State) partial (d : TaskInput) e :
  TaskSerializer_is_valid today st partial d = Raise e →
  ∃ errors, e = ValidationError errors ∧ errors ≠ [] ∧
    ∀ kv, kv ∈ errors →
      kv.1 ≠ "due_date" ∨
      kv ∈ field_error "due_date" (optional_field (validate_due_date today) (in_due_date d)).
Proof.
  unfold TaskSerializer_is_valid.
  match goal with |- context [match ?l with [] => _ | _ :: _ => _ end] =>
    remember l as errors eqn:He end.
  intros Hr. exists errors.
  destruct errors as [|kv0 rest]; [done|]. simplify_eq.
  split; [done|]. split; [done|]. rewrite He.
  intros kv Hin. rewrite !elem_of_app in Hin.
  destruct Hin as [Hin|[Hin|[Hin|[Hin|[Hin|[Hin|Hin]]]]]];
    try (by right);
    left; apply field_error_name in Hin; rewrite Hin; done.
Qed.

Lemma is_valid_past_due_date today (st : State) partial (d : TaskInput) x :
  in_due_date d = Some (Some x) → x < today →
  ∃ errors, TaskSerializer_is_valid today st partial d = Raise (ValidationError errors)
          ∧ ("due_date", due_date_in_past) ∈ errors.
Proof.
  intros Hd Hlt. unfold TaskSerializer_is_valid.
  match goal with |- context [match ?l with [] => _ | _ :: _ => _ end] =>
    set (errors := l) end.
  assert (("due_date", due_date_in_past) ∈ errors) as Hin.
  { subst errors. rewrite Hd. simpl. rewrite bool_decide_eq_true_2 by done. simpl.
    rewrite !elem_of_app, elem_of_cons. right; right; by left. }
  exists errors. split; [|done].
  clearbody errors. destruct errors; [by apply elem_of_nil in Hin|done].
Qed.

Lemma is_valid_Raise today (st : State) partial (d : TaskInput) :
  task_errors today st partial d ≠ [] →
  TaskSerializer_is_valid today st partial d
    = Raise (ValidationError (task_errors today st partial d)).
Proof.
  intros Hne. unfold TaskSerializer_is_valid. cbv zeta.
  fold (task_errors today st partial d).
  by destruct (task_errors today st partial d).
Qed.

Lemma is_valid_no_errors today (st : State) partial (d : TaskInput) :
  task_errors today st partial d = [] →
  ∃ v, TaskSerializer_is_valid today st partial d = Return v
     ∧ v_due_date v
         = field_value (optional_field (validate_due_date today) (in_due_date d)).
Proof.
  intros Hnil. unfold TaskSerializer_is_valid. cbv zeta.
  fold (task_errors today st partial d). rewrite Hnil. eauto.
Qed.

(** A due date of today or later adds nothing to the errors of a body. *)
Lemma task_errors_due_date today (st : State) partial (d : TaskInput) x :
  in_due_date d = Some (Some x) → today ≤ x →
  task_errors today st partial d = task_errors today st partial (without_due_date d).
Proof.
  intros Hd Hle. unfold task_errors. rewrite Hd. simpl.
  by rewrite bool_decide_eq_false_2 by lia.
Qed.

(** C6.  For a body that carries the due date [d].  When [d] is before
    today, [validate_due_date] rejects it, and creating a task, or
    updating a task of one's own, is answered with a [ValidationError]
    that names [due_date] and changes nothing.  When [d] is today or
    later, [validate_due_date] returns it, no error of the serializer is
    about [due_date], and the request fares as the same body without a
    due date would: if that body has errors, they are the answer, and
    if it has none, the task is created (201), or updated (200), with
    [d] as its due date.  Yesterday is rejected and tomorrow is
    accepted. *)
Theorem due_date_validation (today d : Z) (inp : TaskInput) (now u : Z) (st : State) :
  in_due_date inp = Some (Some d) →
  (d < today →
     validate_due_date today (Some d) = inl due_date_in_past
     ∧ (∃ errors,
          TaskViewSet_create today now (Some u) inp st
            = (handle_exception (ValidationError errors), st)
          ∧ ("due_date", due_date_in_past) ∈ errors)
     ∧ (∀ partial pk T, tasks st !! pk = Some T → user T = u →
          ∃ errors,
            TaskViewSet_update today now partial (Some u) no_filter pk inp st
              = (handle_exception (ValidationError errors), st)
            ∧ ("due_date", due_date_in_past) ∈ errors))
  ∧ (today ≤ d →
     validate_due_date today (Some d) = inr (Some d)
     ∧ (∀ partial errors,
          TaskSerializer_is_valid today st partial inp = Raise (ValidationError errors) →
          ∀ msg, ("due_date", msg) ∉ errors)
     ∧ match task_errors today st false (without_due_date inp) with
       | [] =>
           ∃ pk t, tasks st !! pk = None ∧ due_date t = Some d
                 ∧ TaskViewSet_create today now (Some u) inp st
                     = (mkResponse HTTP_201_CREATED
                          (OneTask (TaskSerializer_data (set_tasks (insert pk t) st) pk t)),
                        set_tasks (insert pk t) st)
       | errors =>
           TaskViewSet_create today now (Some u) inp st
             = (handle_exception (ValidationError errors), st)
       end
     ∧ (∀ partial pk T, tasks st !! pk = Some T → user T = u →
          match task_errors today st partial (without_due_date inp) with
          | [] =>
              ∃ T', due_date T' = Some d
                  ∧ TaskViewSet_update today now partial (Some u) no_filter pk inp st
                      = (mkResponse HTTP_200_OK
                           (OneTask (TaskSerializer_data (set_tasks (insert pk T') st) pk T')),
                         set_tasks (insert pk T') st)
          | errors =>
              TaskViewSet_update today now partial (Some u) no_filter pk inp st
                = (handle_exception (ValidationError errors), st)
          end))
  ∧ validate_due_date today (Some (today - 1)) = inl due_date_in_past
  ∧ validate_due_date today (Some (today + 1)) = inr (Some (today + 1)).
Proof.
  intros Hd. split; [|split; [|split]].
  - intros Hlt. split; [|split].
    + unfold validate_due_date. by rewrite bool_decide_eq_true_2.
    + destruct (is_valid_past_due_date today st false inp d Hd Hlt) as (errors & Hv & Hin).
      exists errors. split; [|done].
      unfold TaskViewSet_create. rewrite initial_authenticated. simpl. by rewrite Hv.
    + intros partial pk T HT Hu.
      destruct (is_valid_past_due_date today st partial inp d Hd Hlt) as (errors & Hv & Hin).
      exists errors. split; [|done].
      unfold TaskViewSet_update. rewrite initial_authenticated. simpl.
      rewrite (get_object_own u pk T) by done. simpl. by rewrite Hv.
  - intros Hle.
    assert (validate_due_date today (Some d) = inr (Some d)) as Hval.
    { unfold validate_due_date. by rewrite bool_decide_eq_false_2 by lia. }
    split; [done|]. split; [|split].
    + intros partial errors Hv msg Hin.
      apply is_valid_raises in Hv as (errors' & ? & _ & Hall). simplify_eq.
      destruct (Hall _ Hin) as [Hne|Hdue]; [done|].
      rewrite Hd in Hdue. simpl in Hdue.
      rewrite bool_decide_eq_false_2 in Hdue by lia. by apply elem_of_nil in Hdue.
    + rewrite <- (task_errors_due_date today st false inp d Hd Hle).
      destruct (task_errors today st false inp) as [|e errors] eqn:He.
      * destruct (is_valid_no_errors today st false inp He) as (v & Hv & Hdue).
        rewrite Hd in Hdue. cbn [optional_field] in Hdue.
        rewrite Hval in Hdue. simpl in Hdue.
        eexists (next_pk (tasks st)), _. split; [apply next_pk_fresh|].
        split; [|unfold TaskViewSet_create; rewrite initial_authenticated; simpl;
                 rewrite Hv; simpl; rewrite lookup_insert_eq; reflexivity].
        simpl. by rewrite Hdue.
      * unfold TaskViewSet_create. rewrite initial_authenticated. simpl.
        rewrite is_valid_Raise by (by rewrite He). by rewrite He.
    + intros partial pk T HT Hu.
      rewrite <- (task_errors_due_date today st partial inp d Hd Hle).
      destruct (task_errors today st partial inp) as [|e errors] eqn:He.
      * destruct (is_valid_no_errors today st partial inp He) as (v & Hv & Hdue).
        rewrite Hd in Hdue. cbn [optional_field] in Hdue.
        rewrite Hval in Hdue. simpl in Hdue.
        eexists.
        split; [|unfold TaskViewSet_update; rewrite initial_authenticated; simpl;
                 rewrite (get_object_own u pk T) by done; simpl; rewrite Hv; simpl;
                 unfold perform_update;
                 rewrite bool_decide_eq_false_2 by (intros Hne; by apply Hne); simpl;
                 rewrite lookup_insert_eq; reflexivity].
        simpl. by rewrite Hdue.
      * unfold TaskViewSet_update. rewrite initial_authenticated. simpl.
        rewrite (get_object_own u pk T) by done. simpl.
        rewrite is_valid_Raise by (by rewrite He). by rewrite He.
  - unfold validate_due_date. by rewrite bool_decide_eq_true_2 by lia.
  - unfold validate_due_date. by rewrite bool_decide_eq_false_2 by lia.
Qed.

(** C7.  When a user [u] creates a task, whatever the body says, also
    about [user], the new row is owned by [u]: it is stored under a key
    that was free, no other row changes, and the answer shows [u] as the
    owner.  The [user] value of the body has no influence at all. *)
Theorem created_task_owner (today now u : Z) (inp : TaskInput) (st st' : State)
    (r : Response) :
  TaskViewSet_create today now (Some u) inp st = (r, st') →
  status_code r = HTTP_201_CREATED →
  (∃ pk t, tasks st !! pk = None
         ∧ st' = set_tasks (insert pk t) st
         ∧ tasks st' !! pk = Some t
         ∧ user t = u
         ∧ data r = OneTask (TaskSerializer_data st' pk t)
         ∧ r_user (TaskSerializer_data st' pk t) = u)
  ∧ ∀ x, TaskViewSet_create today now (Some u) (with_user x inp) st = (r, st').
Proof.
  intros Hc Hs. split.
  - unfold TaskViewSet_create in Hc. rewrite initial_authenticated in Hc. simpl in Hc.
    destruct (TaskSerializer_is_valid today st false inp) as [v|e] eqn:Hv; simpl in Hc.
    + unfold perform_create, TaskSerializer_create in Hc.
      simpl in Hc. rewrite lookup_insert_eq in Hc. simpl in Hc. simplify_eq.
      eexists _, _. split; [apply next_pk_fresh|].
      split; [reflexivity|]. split; [apply lookup_insert_eq|]. done.
    + simplify_eq. destruct e; discriminate.
  - intros x. rewrite <- Hc. reflexivity.
Qed.
End TaskValidation.

(** ** Permissions *)

Section Access.
Context `{Platform}.

Lemma set_categories_same (st : State) : set_categories (λ _, categories st) st = st.
Proof. by destruct st. Qed.

Lemma set_tag_table_same (st : State) : set_tag_table (λ _, tag_table st) st = st.
Proof. by destruct st. Qed.

(** C8, as the code has it.  Without credentials, every request for
    tasks or for the profile is turned away, and so is every request that
    would write a category or a tag (POST, PUT, PATCH, DELETE), all with
    the state unchanged; logout, profile and change-password let no
    anonymous request pass, whatever the method.  Reading categories and
    tags (list and retrieve) needs no credentials: an anonymous GET is
    served. *)
Theorem anonymous_requests (env : Env) (rq : Request) (st : State) :
  (view_of rq ∈ [TaskViewSet; UserProfileView] ∨
   (view_of rq ∈ [CategoryViewSet; TagViewSet] ∧ method_of rq ∉ SAFE_METHODS) →
     serve env None rq st = (handle_exception NotAuthenticated, st))
  ∧ (∀ m v, v ∈ [LogoutView; UserProfileView; ChangePasswordView; TaskViewSet] →
       check_permissions v m None = false)
  ∧ (∀ m v, v ∈ [CategoryViewSet; TagViewSet] →
       check_permissions v m None = bool_decide (m ∈ SAFE_METHODS))
  ∧ CategoryViewSet_list None st
      = (mkResponse HTTP_200_OK
           (ManyNamed ((λ kv, (kv.1, category_name kv.2)) <$> map_to_list (categories st))), st)
  ∧ TagViewSet_list None st
      = (mkResponse HTTP_200_OK
           (ManyNamed ((λ kv, (kv.1, tag_name kv.2)) <$> map_to_list (tag_table st))), st)
  ∧ (∀ pk c, categories st !! pk = Some c →
       CategoryViewSet_retrieve None pk st
         = (mkResponse HTTP_200_OK (OneNamed pk (category_name c)), st))
  ∧ (∀ pk t, tag_table st !! pk = Some t →
       TagViewSet_retrieve None pk st
         = (mkResponse HTTP_200_OK (OneNamed pk (tag_name t)), st)).
Proof.
  split; [|split; [|split; [|split; [|split; [|split]]]]].
  - intros [Hv|[Hv Hm]].
    + destruct rq; try reflexivity; exfalso;
        repeat (apply elem_of_cons in Hv as [Hv|Hv]; [discriminate Hv|]);
        by apply elem_of_nil in Hv.
    + destruct rq; simpl in Hv, Hm;
        try (exfalso; apply Hm; by left);
        try (exfalso; clear Hm;
             repeat (apply elem_of_cons in Hv as [Hv|Hv]; [discriminate Hv|]);
             by apply elem_of_nil in Hv);
        try destruct partial; simpl;
        unfold CategoryViewSet_create, CategoryViewSet_update, CategoryViewSet_destroy,
          TagViewSet_create, TagViewSet_update, TagViewSet_destroy; simpl;
        by rewrite ?set_categories_same, ?set_tag_table_same.
  - intros m v Hv. repeat (apply elem_of_cons in Hv as [->|Hv]; [reflexivity|]).
    by apply elem_of_nil in Hv.
  - intros m v Hv. repeat (apply elem_of_cons in Hv as [->|Hv];
      [unfold check_permissions; simpl; by rewrite orb_false_r, andb_true_r|]).
    by apply elem_of_nil in Hv.
  - unfold CategoryViewSet_list. simpl. by rewrite set_categories_same.
  - unfold TagViewSet_list. simpl. by rewrite set_tag_table_same.
  - intros pk c Hc. unfold CategoryViewSet_retrieve, named_retrieve, lookup_or_404.
    simpl. rewrite Hc. simpl. by rewrite set_categories_same.
  - intros pk t Ht. unfold TagViewSet_retrieve, named_retrieve, lookup_or_404.
    simpl. rewrite Ht. simpl. by rewrite set_tag_table_same.
Qed.
End Access.

(** ** Categories and tags: unique names *)

Section UniqueNames.
Context `{Platform} {A : Type} `{NamedModel A}.

Lemma unique_names_insert (m : gmap Z A) pk n :
  unique_names m →
  (∀ j y, m !! j = Some y → name y = n → j = pk) →
  unique_names (<[pk := with_name n]> m).
Proof.
  intros Hu Hn i j x y Hi Hj Hxy.
  destruct (decide (i = pk)) as [->|Hip], (decide (j = pk)) as [->|Hjp]; [done|..].
  - rewrite lookup_insert_eq in Hi. rewrite lookup_insert_ne in Hj by done.
    simplify_eq. rewrite name_with_name in Hxy. symmetry. eauto.
  - rewrite lookup_insert_eq in Hj. rewrite lookup_insert_ne in Hi by done.
    simplify_eq. rewrite name_with_name in Hxy. eauto.
  - rewrite lookup_insert_ne in Hi, Hj by done. eauto.
Qed.

Lemma unique_names_delete (m : gmap Z A) pk :
  unique_names m → unique_names (delete pk m).
Proof.
  intros Hu i j x y Hi Hj. apply lookup_delete_Some in Hi as [_ Hi].
  apply lookup_delete_Some in Hj as [_ Hj]. eauto.
Qed.

(** A second row with a name that is in use is refused by the data base. *)
Lemma objects_create_duplicate (m : gmap Z A) pk row :
  m !! pk = Some row → objects_create (name row) m = inl IntegrityError.
Proof.
  intros Hm. unfold objects_create.
  assert (name_taken None (name row) m = true) as ->; [|done].
  apply name_taken_true. by exists pk, row.
Qed.

Lemma objects_create_unique n (m m' : gmap Z A) pk :
  objects_create n m = inr (pk, m') → unique_names m →
  m !! pk = None ∧ m' = <[pk := with_name n]> m ∧ unique_names m'.
Proof.
  unfold objects_create. intros Hc Hu.
  destruct (name_taken None n m) eqn:Ht; simplify_eq.
  split; [apply next_pk_fresh|]. split; [done|].
  apply unique_names_insert; [done|]. intros j y Hj Hn.
  by pose proof (proj1 (name_taken_false None n m) Ht j y Hj Hn).
Qed.

Lemma objects_save_unique pk n (m m' : gmap Z A) :
  objects_save pk n m = inr m' → unique_names m → unique_names m'.
Proof.
  unfold objects_save. intros Hs Hu.
  destruct (name_taken (Some pk) n m) eqn:Ht; simplify_eq.
  apply unique_names_insert; [done|]. intros j y Hj Hn.
  pose proof (proj1 (name_taken_false (Some pk) n m) Ht j y Hj Hn). congruence.
Qed.

(** Through the API the duplicate is caught by the validator. *)
Lemma named_create_duplicate (view : View) (u : Z) s (m : gmap Z A) pk row :
  m !! pk = Some row → char_field (Some name_max_length) false s = Some (name row) →
  named_create view (Some u) (Some s) m
    = (handle_exception (ValidationError [("name", "unique")]), m).
Proof.
  intros Hm Hs. unfold named_create. rewrite initial_authenticated. simpl.
  rewrite Hs.
  assert (name_taken None (name row) m = true) as ->; [|done].
  apply name_taken_true. by exists pk, row.
Qed.

Lemma handle_preserves {S} (P : S → Prop) (keep : S) (r : Result (Response * S)) :
  P keep → (∀ out, r = Return out → P out.2) → P (handle keep r).2.
Proof. intros Hk Hr. destruct r as [out|e]; simpl; eauto. Qed.

Lemma bind_Return {X Y} (r : Result X) (f : X → Result Y) (y : Y) :
  r ≫= f = Return y → ∃ x, r = Return x ∧ f x = Return y.
Proof. destruct r; simpl; [eauto|done]. Qed.

Lemma named_viewset_unique (view : View) requester partial pk data_name (m : gmap Z A) :
  unique_names m →
  unique_names (named_list view requester m).2
  ∧ unique_names (named_retrieve view requester pk m).2
  ∧ unique_names (named_create view requester data_name m).2
  ∧ unique_names (named_update view partial requester pk data_name m).2
  ∧ unique_names (named_destroy view requester pk m).2.
Proof.
  intros Hu. repeat split;
    unfold named_list, named_retrieve, named_create, named_update, named_destroy;
    apply (handle_preserves (λ t : gmap Z A, unique_names t)); try done;
    intros out Hout.
  - apply bind_Return in Hout as (? & _ & Hout). by simplify_eq.
  - apply bind_Return in Hout as (? & _ & Hout).
    apply bind_Return in Hout as (? & _ & Hout). by simplify_eq.
  - apply bind_Return in Hout as (? & _ & Hout).
    apply bind_Return in Hout as (v & _ & Hout).
    destruct (objects_create (default "" v) m) as [[]|[k m']] eqn:Hc; simplify_eq; [done|].
    by apply objects_create_unique in Hc as (_ & _ & ?).
  - apply bind_Return in Hout as (? & _ & Hout).
    apply bind_Return in Hout as (row & _ & Hout).
    apply bind_Return in Hout as (v & _ & Hout).
    destruct (objects_save pk (default (name row) v) m) as [[]|m'] eqn:Hs;
      simplify_eq; [done|].
    by apply objects_save_unique in Hs.
  - apply bind_Return in Hout as (? & _ & Hout).
    apply bind_Return in Hout as (? & _ & Hout). simplify_eq.
    by apply unique_names_delete.
Qed.
End UniqueNames.

Section UniqueStore.
Context `{Platform}.

Lemma handle_same_taxonomy (st : State) (r : Result (Response * State)) :
  (∀ out, r = Return out → same_taxonomy st out.2) → same_taxonomy st (handle st r).2.
Proof. intros Hr. destruct r as [out|e]; simpl; [eauto|done]. Qed.

Ltac through_the_view :=
  apply handle_same_taxonomy; intros out Hout;
  repeat (apply bind_Return in Hout as (? & ? & Hout));
  unfold perform_create, perform_update, perform_destroy, TaskSerializer_create,
    TaskSerializer_update in *;
  repeat case_match; simplify_eq; done.

Lemma list_taxonomy requester flt (st : State) :
  same_taxonomy st (TaskViewSet_list requester flt st).2.
Proof. unfold TaskViewSet_list. through_the_view. Qed.

Lemma retrieve_taxonomy requester flt pk (st : State) :
  same_taxonomy st (TaskViewSet_retrieve requester flt pk st).2.
Proof. unfold TaskViewSet_retrieve. through_the_view. Qed.

Lemma create_taxonomy today now requester d (st : State) :
  same_taxonomy st (TaskViewSet_create today now requester d st).2.
Proof. unfold TaskViewSet_create. through_the_view. Qed.

Lemma update_taxonomy today now partial requester flt pk d (st : State) :
  same_taxonomy st (TaskViewSet_update today now partial requester flt pk d st).2.
Proof. unfold TaskViewSet_update. through_the_view. Qed.

Lemma destroy_taxonomy requester flt pk (st : State) :
  same_taxonomy st (TaskViewSet_destroy requester flt pk st).2.
Proof. unfold TaskViewSet_destroy. through_the_view. Qed.

Lemma profile_taxonomy requester in_email (st : State) :
  same_taxonomy st (UserProfileView_partial_update requester in_email st).2.
Proof. unfold UserProfileView_partial_update. through_the_view. Qed.

Lemma forgot_password_taxonomy now mail_error body (st : State) :
  same_taxonomy st (forgot_password now mail_error body st).2.
Proof. unfold forgot_password, same_taxonomy. repeat case_match; done. Qed.

Lemma reset_password_taxonomy now salt body (st : State) :
  same_taxonomy st (reset_password now salt body st).2.
Proof. unfold reset_password, same_taxonomy. repeat case_match; done. Qed.

Lemma same_taxonomy_unique (st st' : State) :
  same_taxonomy st st' →
  unique_names (categories st) → unique_names (tag_table st) →
  unique_names (categories st') ∧ unique_names (tag_table st').
Proof. by intros [-> ->]. Qed.

Lemma category_views_unique requester partial pk data_name (st : State) :
  unique_names (categories st) →
  unique_names (categories (CategoryViewSet_list requester st).2)
  ∧ unique_names (categories (CategoryViewSet_retrieve requester pk st).2)
  ∧ unique_names (categories (CategoryViewSet_create requester data_name st).2)
  ∧ unique_names (categories (CategoryViewSet_update partial requester pk data_name st).2)
  ∧ unique_names (categories (CategoryViewSet_destroy requester pk st).2).
Proof.
  intros Hu.
  destruct (named_viewset_unique CategoryViewSet requester partial pk data_name
              (categories st) Hu) as (Hl & Hr & Hc & Hup & Hd).
  unfold CategoryViewSet_list, CategoryViewSet_retrieve, CategoryViewSet_create,
    CategoryViewSet_update, CategoryViewSet_destroy.
  repeat split; repeat case_match; simplify_eq; simpl in *; done.
Qed.

Lemma tag_views_unique requester partial pk data_name (st : State) :
  unique_names (tag_table st) →
  unique_names (tag_table (TagViewSet_list requester st).2)
  ∧ unique_names (tag_table (TagViewSet_retrieve requester pk st).2)
  ∧ unique_names (tag_table (TagViewSet_create requester data_name st).2)
  ∧ unique_names (tag_table (TagViewSet_update partial requester pk data_name st).2)
  ∧ unique_names (tag_table (TagViewSet_destroy requester pk st).2).
Proof.
  intros Hu.
  destruct (named_viewset_unique TagViewSet requester partial pk data_name
              (tag_table st) Hu) as (Hl & Hr & Hc & Hup & Hd).
  unfold TagViewSet_list, TagViewSet_retrieve, TagViewSet_create,
    TagViewSet_update, TagViewSet_destroy.
  repeat split; repeat case_match; simplify_eq; simpl in *; done.
Qed.

Lemma category_views_tags requester partial pk data_name (st : State) :
  tag_table (CategoryViewSet_list requester st).2 = tag_table st
  ∧ tag_table (CategoryViewSet_retrieve requester pk st).2 = tag_table st
  ∧ tag_table (CategoryViewSet_create requester data_name st).2 = tag_table st
  ∧ tag_table (CategoryViewSet_update partial requester pk data_name st).2 = tag_table st
  ∧ tag_table (CategoryViewSet_destroy requester pk st).2 = tag_table st.
Proof.
  unfold CategoryViewSet_list, CategoryViewSet_retrieve, CategoryViewSet_create,
    CategoryViewSet_update, CategoryViewSet_destroy.
  repeat split; repeat case_match; done.
Qed.

Lemma tag_views_categories requester partial pk data_name (st : State) :
  categories (TagViewSet_list requester st).2 = categories st
  ∧ categories (TagViewSet_retrieve requester pk st).2 = categories st
  ∧ categories (TagViewSet_create requester data_name st).2 = categories st
  ∧ categories (TagViewSet_update partial requester pk data_name st).2 = categories st
  ∧ categories (TagViewSet_destroy requester pk st).2 = categories st.
Proof.
  unfold TagViewSet_list, TagViewSet_retrieve, TagViewSet_create,
    TagViewSet_update, TagViewSet_destroy.
  repeat split; repeat case_match; done.
Qed.

(** C9.  From a state in which no two categories and no two tags have
    the same name, every request leads to such a state.  Creating a
    category (a tag) under a name that a category (a tag) already has is
    refused, by the data base with an [IntegrityError] and by the API
    with a [ValidationError] on [name], and the state stays as it was. *)
Theorem names_stay_unique (env : Env) (requester : option Z) (rq : Request) (st : State) :
  unique_names (categories st) → unique_names (tag_table st) →
  (unique_names (categories (serve env requester rq st).2)
   ∧ unique_names (tag_table (serve env requester rq st).2))
  ∧ (∀ pk c, categories st !! pk = Some c →
       objects_create (category_name c) (categories st) = inl IntegrityError
       ∧ ∀ u s, char_field (Some 100%nat) false s = Some (category_name c) →
           CategoryViewSet_create (Some u) (Some s) st
             = (handle_exception (ValidationError [("name", "unique")]), st))
  ∧ (∀ pk t, tag_table st !! pk = Some t →
       objects_create (tag_name t) (tag_table st) = inl IntegrityError
       ∧ ∀ u s, char_field (Some 50%nat) false s = Some (tag_name t) →
           TagViewSet_create (Some u) (Some s) st
             = (handle_exception (ValidationError [("name", "unique")]), st)).
Proof.
  intros Hc Ht. split; [|split].
  - destruct rq; unfold serve.
    1-5: eapply same_taxonomy_unique; [|done|done].
    + apply list_taxonomy.
    + apply retrieve_taxonomy.
    + apply create_taxonomy.
    + apply update_taxonomy.
    + apply destroy_taxonomy.
    + destruct (category_views_unique requester false 0 None st Hc) as (U & _),
        (category_views_tags requester false 0 None st) as (E & _).
      by rewrite E.
    + destruct (category_views_unique requester false pk None st Hc) as (_ & U & _),
        (category_views_tags requester false pk None st) as (_ & E & _).
      by rewrite E.
    + destruct (category_views_unique requester false 0 data_name st Hc) as (_ & _ & U & _),
        (category_views_tags requester false 0 data_name st) as (_ & _ & E & _).
      by rewrite E.
    + destruct (category_views_unique requester partial pk data_name st Hc) as (_ & _ & _ & U & _),
        (category_views_tags requester partial pk data_name st) as (_ & _ & _ & E & _).
      by rewrite E.
    + destruct (category_views_unique requester false pk None st Hc) as (_ & _ & _ & _ & U),
        (category_views_tags requester false pk None st) as (_ & _ & _ & _ & E).
      by rewrite E.
    + destruct (tag_views_unique requester false 0 None st Ht) as (U & _),
        (tag_views_categories requester false 0 None st) as (E & _).
      by rewrite E.
    + destruct (tag_views_unique requester false pk None st Ht) as (_ & U & _),
        (tag_views_categories requester false pk None st) as (_ & E & _).
      by rewrite E.
    + destruct (tag_views_unique requester false 0 data_name st Ht) as (_ & _ & U & _),
        (tag_views_categories requester false 0 data_name st) as (_ & _ & E & _).
      by rewrite E.
    + destruct (tag_views_unique requester partial pk data_name st Ht) as (_ & _ & _ & U & _),
        (tag_views_categories requester partial pk data_name st) as (_ & _ & _ & E & _).
      by rewrite E.
    + destruct (tag_views_unique requester false pk None st Ht) as (_ & _ & _ & _ & U),
        (tag_views_categories requester false pk None st) as (_ & _ & _ & _ & E).
      by rewrite E.
    + eapply same_taxonomy_unique; [apply profile_taxonomy|done|done].
    + eapply same_taxonomy_unique; [apply forgot_password_taxonomy|done|done].
    + eapply same_taxonomy_unique; [apply reset_password_taxonomy|done|done].
  - intros pk c Hpk. split; [exact (objects_create_duplicate (categories st) pk c Hpk)|].
    intros u s Hs. unfold CategoryViewSet_create.
    rewrite (@named_create_duplicate _ Category Category_named CategoryViewSet u s
               (categories st) pk c Hpk Hs).
    by rewrite set_categories_same.
  - intros pk t Hpk. split; [exact (objects_create_duplicate (tag_table st) pk t Hpk)|].
    intros u s Hs. unfold TagViewSet_create.
    rewrite (@named_create_duplicate _ Tag Tag_named TagViewSet u s
               (tag_table st) pk t Hpk Hs).
    by rewrite set_tag_table_same.
Qed.
End UniqueStore.

(** ** The password reset flow *)

Lemma list_ascii_of_append (a b : string) :
  list_ascii_of_string (a +:+ b) = (list_ascii_of_string a ++ list_ascii_of_string b)%list.
Proof. induction a as [|c a IH]; simpl; [done|by rewrite IH]. Qed.

Lemma append_inj_tail (a b r : string) : a +:+ r = b +:+ r → a = b.
Proof.
  intros Heq. apply (f_equal list_ascii_of_string) in Heq.
  rewrite !list_ascii_of_append in Heq. apply app_inv_tail in Heq.
  apply (f_equal string_of_list_ascii) in Heq.
  by rewrite !string_of_list_ascii_of_string in Heq.
Qed.

Section PasswordResetProperties.
Context `{Platform}.

Lemma get_forgot_body address : get "email" {[ "email" := JString address ]} = JString address.
Proof. unfold get. by rewrite lookup_singleton_eq. Qed.

Lemma get_string key (data : gmap string JsonValue) s :
  dict_get key data = Some s → get key data = JString s.
Proof. unfold dict_get. destruct (get key data); try done. by intros [= ->]. Qed.

Lemma bool_of_string (s : string) : s ≠ "" → bool_of (JString s) = true.
Proof. intros Hs. simpl. by apply negb_true_iff, String.eqb_neq. Qed.

Lemma bool_of_string_inv (s : string) : bool_of (JString s) = true → s ≠ "".
Proof. simpl. by intros Hs%negb_true_iff%String.eqb_neq. Qed.

Lemma py_eq_string (s : string) (v : JsonValue) :
  py_eq (JString s) v = true → v = JString s.
Proof. destruct v; simpl; try done. by intros ->%String.eqb_eq. Qed.

Lemma py_ne_string (s t : string) : py_ne (JString s) (JString t) = negb (String.eqb s t).
Proof. reflexivity. Qed.

(** C2, as the code has it.  For an address that is not empty and that at
    most one user has, given that the mail transport takes the message,
    [forgot_password] answers with the same success message whether a
    user has the address or not.  When no user has it, nothing is sent
    and nothing changes, whatever the transport does; when a user has
    it, one message with the reset link goes to that address. *)
Theorem forgot_password_same_answer (now : N) (address : string) (st : State) :
  address ≠ "" → at_most_one_user address st →
  (forgot_password now None (forgot_body address) st).1 = reset_mail_sent
  ∧ ((∀ pk u, users st !! pk = Some u → email u ≠ address) →
       ∀ mail_error,
         forgot_password now mail_error (forgot_body address) st = (reset_mail_sent, st))
  ∧ (∀ pk u, users st !! pk = Some u → email u = address →
       forgot_password now None (forgot_body address) st
         = (reset_mail_sent,
            set_outbox (λ box, box ++
              [reset_mail address
                 (reset_url (urlsafe_base64_encode (pretty pk)) (make_token now pk u))])%list
              st)).
Proof.
  intros Hne Hone.
  assert (∀ mail_error,
    (∀ pk u, users st !! pk = Some u → email u ≠ address) →
    forgot_password now mail_error (forgot_body address) st = (reset_mail_sent, st)) as Hnone.
  { intros mail_error Hno. unfold forgot_password, forgot_body.
    rewrite get_forgot_body, bool_of_string by done. cbn [negb value_str].
    rewrite objects_get_DoesNotExist; [done|].
    intros pk u Hu. apply String.eqb_neq. eauto. }
  assert (∀ pk u, users st !! pk = Some u → email u = address →
    forgot_password now None (forgot_body address) st
      = (reset_mail_sent,
         set_outbox (λ box, box ++
           [reset_mail address
              (reset_url (urlsafe_base64_encode (pretty pk)) (make_token now pk u))])%list
           st)) as Hsome.
  { intros pk u Hu He. unfold forgot_password, forgot_body.
    rewrite get_forgot_body, bool_of_string by done. cbn [negb value_str].
    rewrite (objects_get_unique _ _ pk u); [done|done|by apply String.eqb_eq|].
    intros i j x y Hi Hj Hx%String.eqb_eq Hy%String.eqb_eq. eauto. }
  split; [|split; [intros Hno mail_error; by apply Hnone|done]].
  destruct (objects_get (λ u, String.eqb (email u) address) (users st)) as [pk u| |n] eqn:Hg.
  - apply objects_get_Got in Hg as [Hu He%String.eqb_eq].
    by rewrite (Hsome pk u).
  - rewrite Hnone; [done|]. intros pk u Hu.
    apply String.eqb_neq.
    exact (objects_get_DoesNotExist_inv _ _ pk u Hg Hu).
  - apply objects_get_Multiple in Hg
      as (i & j & x & y & Hij & Hi & Hj & Hx%String.eqb_eq & Hy%String.eqb_eq).
    destruct Hij. eauto.
Qed.

Lemma resolve_user_Some uidb64 (st : State) pk u :
  resolve_user uidb64 st = Some (pk, u) ↔
  ∃ raw uid, urlsafe_base64_decode uidb64 = Some raw ∧ force_str raw = Some uid
           ∧ pk_of_str uid = Some pk ∧ users st !! pk = Some u.
Proof.
  unfold resolve_user. split.
  - intros Hr. destruct (urlsafe_base64_decode uidb64) as [raw|] eqn:Hd; [|done].
    simpl in Hr. destruct (force_str raw) as [uid|] eqn:Hf; [|done].
    simpl in Hr. destruct (pk_of_str uid) as [k|] eqn:Hp; [|done].
    simpl in Hr. destruct (users st !! k) as [x|] eqn:Hk; [|done].
    simpl in Hr. simplify_eq. eauto 10.
  - intros (raw & uid & -> & Hf & Hp & Hu). simpl. rewrite Hf. simpl. rewrite Hp. simpl.
    by rewrite Hu.
Qed.

(** With all four members there and the two passwords equal, all that
    is left to decide is whether the link resolves to a user whose token
    checks. *)
Lemma reset_password_link now salt data (st : State) uidb64 token pw :
  dict_get "uidb64" data = Some uidb64 → dict_get "token" data = Some token →
  dict_get "new_password" data = Some pw → dict_get "confirm_password" data = Some pw →
  uidb64 ≠ "" → token ≠ "" → pw ≠ "" →
  reset_password now salt (JsonObject data) st =
    match resolve_user uidb64 st with
    | Some (pk, u) =>
        if check_token now pk u token
        then (password_reset_done (access_token_for pk),
              set_users (insert pk (set_password salt pw u)) st)
        else (invalid_link, st)
    | None => (invalid_link, st)
    end.
Proof.
  intros H1%get_string H2%get_string H3%get_string H4%get_string Hu Ht Hp.
  unfold reset_password. rewrite H1, H2, H3, H4.
  cbn [forallb]. rewrite !bool_of_string by done.
  rewrite py_ne_string, String.eqb_refl. reflexivity.
Qed.

(** With all four members present, each of them a string, and the
    passwords equal, a link whose identifier does not decode, or decodes
    to a key that no user has, or whose token does not check against the
    user it names, gets one and the same answer: status 400 with the
    text of the invalid link, and nothing changes. *)
Lemma invalid_link_uniform (now : N) (salt : string) (data : gmap string JsonValue)
    (st : State) (uidb64 token pw : string) :
  dict_get "uidb64" data = Some uidb64 → dict_get "token" data = Some token →
  dict_get "new_password" data = Some pw → dict_get "confirm_password" data = Some pw →
  uidb64 ≠ "" → token ≠ "" → pw ≠ "" →
  (urlsafe_base64_decode uidb64 ≫= force_str) = None
  ∨ (∃ uid, urlsafe_base64_decode uidb64 ≫= force_str = Some uid
          ∧ (pk_of_str uid ≫= λ pk, users st !! pk) = None)
  ∨ (∃ pk u, resolve_user uidb64 st = Some (pk, u) ∧ check_token now pk u token = false) →
  reset_password now salt (JsonObject data) st = (invalid_link, st).
Proof.
  intros Hd1 Hd2 Hd3 Hd4 Hu Ht Hp Hbad.
  rewrite (reset_password_link now salt data st uidb64 token pw) by done.
  destruct Hbad as [Hdec|[(uid & Hdec & Hget)|(pk & u & Hr & Hc)]].
  - unfold resolve_user.
    destruct (urlsafe_base64_decode uidb64) as [raw|]; [|done]. simpl in *.
    by rewrite Hdec.
  - unfold resolve_user.
    destruct (urlsafe_base64_decode uidb64) as [raw|]; [|done]. simpl in *.
    rewrite Hdec. simpl.
    destruct (pk_of_str uid) as [pk|]; [|done]. simpl in *. by rewrite Hget.
  - by rewrite Hr, Hc.
Qed.

(** The same link with a token that is not a string.  The identifier
    is looked up first; only for a user that was found is the token
    asked for its [split], which it does not have.  So the answer is the
    invalid link when the identifier names nobody, and the 500 of the
    view's last [except] when it names a user. *)
Lemma reset_password_token_not_text now salt (data : gmap string JsonValue) (st : State)
    (uidb64 : string) :
  get "uidb64" data = JString uidb64 → uidb64 ≠ "" →
  (∀ t, get "token" data ≠ JString t) → bool_of (get "token" data) = true →
  bool_of (get "new_password" data) = true →
  bool_of (get "confirm_password" data) = true →
  py_ne (get "new_password" data) (get "confirm_password" data) = false →
  reset_password now salt (JsonObject data) st =
    match resolve_user uidb64 st with
    | Some _ => (unexpected (no_attribute (type_name (get "token" data)) "split"), st)
    | None => (invalid_link, st)
    end.
Proof.
  intros H1 Hu Htok T2 T3 T4 Hne. unfold reset_password.
  rewrite H1. cbn [forallb]. rewrite bool_of_string, T2, T3, T4, Hne by done.
  cbn [andb negb].
  destruct (resolve_user uidb64 st) as [[pk u]|]; [|done].
  destruct (get "token" data) as [| | | |t| |]; try done. by destruct (Htok t).
Qed.

(** An identifier that is not a string is answered with the 500 of the
    view's last [except], whatever else the body holds: [encode] is
    asked of it outside the exceptions that the inner [try] catches. *)
Lemma reset_password_uid_not_text now salt (data : gmap string JsonValue) (st : State) :
  (∀ s, get "uidb64" data ≠ JString s) → bool_of (get "uidb64" data) = true →
  bool_of (get "token" data) = true →
  bool_of (get "new_password" data) = true →
  bool_of (get "confirm_password" data) = true →
  py_ne (get "new_password" data) (get "confirm_password" data) = false →
  reset_password now salt (JsonObject data) st =
    (unexpected (no_attribute (type_name (get "uidb64" data)) "encode"), st).
Proof.
  intros Huid T1 T2 T3 T4 Hne. unfold reset_password.
  cbn [forallb]. rewrite T1, T2, T3, T4, Hne. cbn [andb negb].
  destruct (get "uidb64" data) as [| | | |s| |]; try done. by destruct (Huid s).
Qed.

Lemma issued_token_error code msg : issued_token (error_response code msg) = None.
Proof. reflexivity. Qed.

(** C10.  Whenever [reset_password] answers with anything but 200, the
    state after the call is the state before it (no password hash, and
    nothing else, was written) and the answer carries no access token. *)
Theorem reset_password_atomic (now : N) (salt : string) (body : Body) (st : State) :
  status_code (reset_password now salt body st).1 ≠ HTTP_200_OK →
  (reset_password now salt body st).2 = st
  ∧ issued_token (reset_password now salt body st).1 = None.
Proof.
  unfold reset_password. intros Hs.
  repeat case_match; simpl in *; try done.
Qed.

Lemma reset_body_members uidb64 token pw pw' :
  ∃ data, reset_body uidb64 token pw pw' = JsonObject data
        ∧ dict_get "uidb64" data = Some uidb64 ∧ dict_get "token" data = Some token
        ∧ dict_get "new_password" data = Some pw
        ∧ dict_get "confirm_password" data = Some pw'.
Proof. eexists. split; [reflexivity|]. repeat split. Qed.

Lemma reset_body_get uidb64 token pw pw' :
  ∃ data, reset_body uidb64 token pw pw' = JsonObject data
        ∧ get "uidb64" data = JString uidb64 ∧ get "token" data = JString token
        ∧ get "new_password" data = JString pw
        ∧ get "confirm_password" data = JString pw'.
Proof. eexists. split; [reflexivity|]. repeat split. Qed.

Lemma check_token_true now pk (u : User) token :
  check_token now pk u token = true →
  ∃ ts, token_timestamp token = Some ts ∧ token = make_token_with_timestamp pk u ts.
Proof.
  unfold check_token. intros Hc.
  destruct (String.eqb token ""); [done|].
  destruct (token_timestamp token) as [ts|]; [|done].
  destruct (String.eqb (make_token_with_timestamp pk u ts) token) eqn:He; [|done].
  apply String.eqb_eq in He. eauto.
Qed.

(** A token that checks for a user does not check for the same user
    under another password hash, as long as the MAC has no collisions. *)
Lemma check_token_other_password now now' pk (u u' : User) token :
  Inj (=) (=) salted_hmac →
  check_token now pk u token = true →
  password u' ≠ password u → last_login u' = last_login u → email u' = email u →
  check_token now' pk u' token = false.
Proof.
  intros Hinj (ts & Hts & Htok)%check_token_true Hpw Hll Hem.
  unfold check_token. destruct (String.eqb token ""); [done|]. rewrite Hts.
  destruct (String.eqb (make_token_with_timestamp pk u' ts) token) eqn:He; [|done].
  exfalso. apply String.eqb_eq in He. rewrite Htok in He.
  unfold make_token_with_timestamp in He.
  apply String.app_inj in He. injection He as He. apply Hinj in He.
  unfold make_hash_value in He. rewrite Hll, Hem in He.
  apply String.app_inj in He. by apply append_inj_tail in He.
Qed.

Lemma reset_password_done now salt uidb64 token pw pw' (st st' : State) r :
  reset_password now salt (reset_body uidb64 token pw pw') st = (r, st') →
  status_code r = HTTP_200_OK →
  uidb64 ≠ "" ∧ token ≠ "" ∧ pw ≠ "" ∧ pw' = pw ∧
  ∃ pk u, resolve_user uidb64 st = Some (pk, u) ∧ check_token now pk u token = true
        ∧ r = password_reset_done (access_token_for pk)
        ∧ st' = set_users (insert pk (set_password salt pw u)) st.
Proof.
  destruct (reset_body_get uidb64 token pw pw') as (data & -> & H1 & H2 & H3 & H4).
  unfold reset_password. rewrite H1, H2, H3, H4. cbn [forallb].
  destruct (bool_of (JString uidb64)) eqn:T1; [|by intros [= <- <-]].
  destruct (bool_of (JString token)) eqn:T2; [|by intros [= <- <-]].
  destruct (bool_of (JString pw)) eqn:T3; [|by intros [= <- <-]].
  destruct (bool_of (JString pw')) eqn:T4; [|by intros [= <- <-]].
  apply bool_of_string_inv in T1. apply bool_of_string_inv in T2.
  apply bool_of_string_inv in T3. cbn [andb negb]. rewrite py_ne_string.
  destruct (String.eqb pw pw') eqn:Hpw; cbn [negb]; [|by intros [= <- <-]].
  apply String.eqb_eq in Hpw as <-.
  destruct (resolve_user uidb64 st) as [[pk u]|]; [|by intros [= <- <-]].
  destruct (check_token now pk u token) eqn:Hc; [|by intros [= <- <-]].
  intros [= <- <-] _. eauto 12.
Qed.

(** C4.  Take a reset link for a user [u] (key [pk]) and a call of
    [reset_password] with it that succeeds and leaves [u] with another
    password hash.  If the MAC of the token generator has no collisions,
    every later call with the same identifier and token is answered with
    the invalid link and changes nothing; and the token checks for no
    state of this user that differs from [u] in the password hash. *)
Theorem token_spent (now : N) (salt uidb64 token pw pw' : string) (st st' : State)
    (r : Response) (pk : Z) (u u' : User) :
  Inj (=) (=) salted_hmac →
  resolve_user uidb64 st = Some (pk, u) →
  reset_password now salt (reset_body uidb64 token pw pw') st = (r, st') →
  status_code r = HTTP_200_OK →
  users st' !! pk = Some u' → password u' ≠ password u →
  (∀ now2 salt2 pw2, pw2 ≠ "" →
     reset_password now2 salt2 (reset_body uidb64 token pw2 pw2) st' = (invalid_link, st'))
  ∧ (∀ now2 u2, password u2 ≠ password u → last_login u2 = last_login u →
       email u2 = email u → check_token now2 pk u2 token = false).
Proof.
  intros Hinj Hres Hcall Hok Hu' Hpw.
  apply reset_password_done in Hcall
    as (Hn1 & Hn2 & Hn3 & -> & pk0 & u0 & Hres0 & Hcheck & -> & ->); [|done].
  rewrite Hres in Hres0. simplify_eq.
  simpl in Hu'. rewrite lookup_insert_eq in Hu'. simplify_eq.
  split.
  - intros now2 salt2 pw2 Hpw2.
    destruct (reset_body_members uidb64 token pw2 pw2) as (data & -> & H1 & H2 & H3 & H4).
    rewrite (reset_password_link now2 salt2 data _ uidb64 token pw2) by done.
    apply resolve_user_Some in Hres as (raw & uid & Hd & Hf & Hp & Hu).
    assert (resolve_user uidb64
              (set_users (insert pk0 (set_password salt pw u0)) st)
            = Some (pk0, set_password salt pw u0)) as ->.
    { apply resolve_user_Some. exists raw, uid. repeat split; try done.
      simpl. apply lookup_insert_eq. }
    by rewrite (check_token_other_password now now2 pk0 u0).
  - intros now2 u2 Hp2 Hl2 He2.
    by apply (check_token_other_password now now2 pk0 u0).
Qed.
End PasswordResetProperties.

(** ** Checking the side conditions by counting *)

Lemma two_members_length {A} (l : list A) (a b : A) :
  NoDup l → a ∈ l → b ∈ l → a ≠ b → (2 ≤ length l)%nat.
Proof.
  intros Hnd Ha Hb Hab.
  assert ([a; b] ⊆+ l) as Hsub.
  { apply NoDup_submseteq.
    - apply NoDup_cons. split; [by intros ->%list_elem_of_singleton|].
      apply NoDup_singleton.
    - intros x [->|[->|[]%elem_of_nil]%elem_of_cons]%elem_of_cons; done. }
  by apply submseteq_length in Hsub.
Qed.

Lemma at_most_one_user_count (address : string) (st : State) :
  (length (filter (λ kv, email kv.2 = address) (map_to_list (users st))) ≤ 1)%nat →
  at_most_one_user address st.
Proof.
  intros Hlen i j x y Hi Hj Hx Hy.
  destruct (decide (i = j)) as [|Hij]; [done|exfalso].
  assert (2 ≤ length (filter (λ kv, email kv.2 = address) (map_to_list (users st))))%nat;
    [|lia].
  apply (two_members_length _ (i, x) (j, y)).
  - apply NoDup_filter, NoDup_map_to_list.
  - apply list_elem_of_filter. split; [done|]. by apply elem_of_map_to_list.
  - apply list_elem_of_filter. split; [done|]. by apply elem_of_map_to_list.
  - congruence.
Qed.

Lemma unique_names_NoDup `{NamedModel A} (m : gmap Z A) :
  NoDup ((λ kv, name kv.2) <$> map_to_list m) → unique_names m.
Proof.
  intros Hnd i j x y Hi Hj Hxy.
  apply elem_of_map_to_list, list_elem_of_lookup in Hi as [a Ha].
  apply elem_of_map_to_list, list_elem_of_lookup in Hj as [b Hb].
  assert (a = b) as ->.
  { apply (NoDup_lookup _ a b (name x) Hnd).
    - by rewrite list_lookup_fmap, Ha.
    - rewrite list_lookup_fmap, Hb. simpl. by rewrite Hxy. }
  congruence.
Qed.

(** ** The views at work

    The statements above, and what the code does where it departs from
    what one might expect, on the state [Run.st0]: Alice (key 1) and Bob
    (key 2), one task each, the category "Home" and the tag "Shopping". *)

Section Runs.
#[local] Existing Instance Run.platform.
Import Run.

(** C1 fails as stated: Bob's PATCH and DELETE of Alice's task are
    answered with 404 Not Found, not with a [PermissionDenied]. *)
Lemma foreign_update_is_not_found :
  tasks st0 !! 1 = Some groceries ∧ user groceries ≠ 2
  ∧ TaskViewSet_update 100 50 true (Some 2) no_filter 1 (new_task None) st0
      = (mkResponse HTTP_404_NOT_FOUND (Failure NotFound), st0)
  ∧ TaskViewSet_destroy (Some 2) no_filter 1 st0
      = (mkResponse HTTP_404_NOT_FOUND (Failure NotFound), st0)
  ∧ ∀ detail,
      (TaskViewSet_update 100 50 true (Some 2) no_filter 1 (new_task None) st0).1
        ≠ handle_exception (PermissionDenied detail)
      ∧ (TaskViewSet_destroy (Some 2) no_filter 1 st0).1
        ≠ handle_exception (PermissionDenied detail).
Proof. repeat split; try reflexivity; by vm_compute. Qed.

Lemma foreign_task_untouched_witness :
  TaskViewSet_update 100 50 true (Some 2) no_filter 1 (new_task None) st0
    = (handle_exception NotFound, st0)
  ∧ TaskViewSet_destroy (Some 2) no_filter 1 st0 = (handle_exception NotFound, st0)
  ∧ perform_update 50 2 1 groceries (mkTaskAttrs (Some "Mine") None None None None None None) st0
      = Raise (PermissionDenied permission_update)
  ∧ perform_destroy 2 1 groceries st0 = Raise (PermissionDenied permission_destroy).
Proof.
  apply (foreign_task_untouched 2 1 groceries 100 50 true no_filter (new_task None)).
  - reflexivity.
  - vm_compute. discriminate.
Defined.

Lemma list_retrieve_scoped_witness :
  ∃ l, TaskViewSet_list (Some 2) no_filter st0 = (mkResponse HTTP_200_OK (ManyTasks l), st0)
     ∧ (∀ r, r ∈ l → r_user r = 2 ∧ ∃ t, tasks st0 !! r_id r = Some t ∧ user t = 2)
     ∧ (∀ r, r ∈ l → r_id r ≠ 1)
     ∧ TaskViewSet_retrieve (Some 2) no_filter 1 st0 = (handle_exception NotFound, st0).
Proof.
  apply (list_retrieve_scoped 2 1 groceries no_filter st0).
  - reflexivity.
  - vm_compute. discriminate.
Defined.

(** C2 fails as stated, in three ways: an empty address gets a 400; an
    address that two users have (Carol has set hers to Alice's through her
    profile) gets a 500, while an unknown address gets the success message
    in the same state; and when the mail transport raises, the address of
    a user gets a 500 while an unknown address still gets the success
    message. *)
Lemma forgot_password_answers_differ :
  ((forgot_password 1000 None (forgot_body "") st0).1 = email_required
   ∧ email_required ≠ reset_mail_sent)
  ∧ ((UserProfileView_partial_update (Some 3) (Some "alice@example.com") st_carol).2
       = st_shared_email
     ∧ (forgot_password 1000 None (forgot_body "alice@example.com") st_shared_email).1
       = unexpected (multiple_objects 2)
     ∧ (forgot_password 1000 None (forgot_body "nobody@example.com") st_shared_email).1
       = reset_mail_sent
     ∧ unexpected (multiple_objects 2) ≠ reset_mail_sent)
  ∧ ((forgot_password 1000 (Some "Connection refused") (forgot_body "alice@example.com") st0).1
       = unexpected "Connection refused"
     ∧ (forgot_password 1000 (Some "Connection refused") (forgot_body "nobody@example.com") st0).1
       = reset_mail_sent
     ∧ unexpected "Connection refused" ≠ reset_mail_sent).
Proof. repeat split; try reflexivity; by vm_compute. Qed.

Lemma forgot_password_same_answer_witness :
  (forgot_password 1000 None (forgot_body "alice@example.com") st0).1 = reset_mail_sent
  ∧ ((∀ pk u, users st0 !! pk = Some u → email u ≠ "alice@example.com") →
       ∀ mail_error,
         forgot_password 1000 mail_error (forgot_body "alice@example.com") st0
           = (reset_mail_sent, st0))
  ∧ (∀ pk u, users st0 !! pk = Some u → email u = "alice@example.com" →
       forgot_password 1000 None (forgot_body "alice@example.com") st0
         = (reset_mail_sent,
            set_outbox (λ box, box ++
              [reset_mail "alice@example.com"
                 (reset_url (urlsafe_base64_encode (pretty pk)) (make_token 1000 pk u))])%list
              st0)).
Proof.
  apply (forgot_password_same_answer 1000 "alice@example.com" st0).
  - discriminate.
  - apply at_most_one_user_count. vm_compute. lia.
Defined.

Lemma token_spent_witness :
  let out := reset_password 1500 "s9" (reset_body "MQ" alice_token "newpw" "newpw") st0 in
  (∀ now2 salt2 pw2, pw2 ≠ "" →
     reset_password now2 salt2 (reset_body "MQ" alice_token pw2 pw2) out.2
       = (invalid_link, out.2))
  ∧ (∀ now2 u2, password u2 ≠ password alice → last_login u2 = last_login alice →
       email u2 = email alice → check_token now2 1 u2 alice_token = false).
Proof.
  intros out.
  apply (token_spent 1500 "s9" "MQ" alice_token "newpw" "newpw" st0 out.2 out.1 1 alice
           (set_password "s9" "newpw" alice)).
  - intros x y Hxy. exact Hxy.
  - reflexivity.
  - reflexivity.
  - reflexivity.
  - reflexivity.
  - vm_compute. discriminate.
Defined.

(** Three links of text that are of no use: an identifier that does not
    decode, one that names nobody, and a token that does not check. *)
Example invalid_links_of_text :
  reset_password 1500 "s9" (reset_body "invalid-uidb64" alice_token "newpw" "newpw") st0
    = (invalid_link, st0)
  ∧ reset_password 1500 "s9" (reset_body "Mw" alice_token "newpw" "newpw") st0
    = (invalid_link, st0)
  ∧ reset_password 1500 "s9" (reset_body "MQ" "invalid-token" "newpw" "newpw") st0
    = (invalid_link, st0).
Proof.
  split; [|split].
  - apply (invalid_link_uniform 1500 "s9" _ st0 "invalid-uidb64" alice_token "newpw");
      try reflexivity; try discriminate.
    left. reflexivity.
  - apply (invalid_link_uniform 1500 "s9" _ st0 "Mw" alice_token "newpw");
      try reflexivity; try discriminate.
    right; left. exists "3". split; reflexivity.
  - apply (invalid_link_uniform 1500 "s9" _ st0 "MQ" "invalid-token" "newpw");
      try reflexivity; try discriminate.
    right; right. exists 1, alice. split; reflexivity.
Qed.

(** C5.  The answers to a link that is of no use are not all the same.
    When the token of the body is a number and not a string, a link
    whose identifier names a user is answered with 500 and the text of
    the [AttributeError] that [token.split] raises in [check_token],
    while the same body with an identifier that names nobody is answered
    with the 400 of the invalid link: the answer tells whether the
    identifier names a user.  An identifier that is a number is answered
    with 500 as well, for its missing [encode]. *)
Theorem invalid_link_not_uniform :
  let link (uidb64 token : JsonValue) : Body :=
    JsonObject (list_to_map
      [("uidb64", uidb64); ("token", token);
       ("new_password", JString "newpw"); ("confirm_password", JString "newpw")]) in
  reset_password 1500 "s9" (link (JString "MQ") (JInt 123)) st0
    = (unexpected "'int' object has no attribute 'split'", st0)
  ∧ reset_password 1500 "s9" (link (JString "Mw") (JInt 123)) st0 = (invalid_link, st0)
  ∧ reset_password 1500 "s9" (link (JInt 1) (JString alice_token)) st0
    = (unexpected "'int' object has no attribute 'encode'", st0)
  ∧ resolve_user "MQ" st0 = Some (1, alice) ∧ resolve_user "Mw" st0 = None
  ∧ status_code (unexpected "'int' object has no attribute 'split'")
      = HTTP_500_INTERNAL_SERVER_ERROR
  ∧ status_code invalid_link = HTTP_400_BAD_REQUEST.
Proof. repeat split; reflexivity. Qed.

Lemma due_date_validation_witness :
  (validate_due_date 100 (Some 99) = inl due_date_in_past
   ∧ (∃ errors,
        TaskViewSet_create 100 50 (Some 1) (new_task (Some 99)) st0
          = (handle_exception (ValidationError errors), st0)
        ∧ ("due_date", due_date_in_past) ∈ errors)
   ∧ (∀ partial pk T, tasks st0 !! pk = Some T → user T = 1 →
        ∃ errors,
          TaskViewSet_update 100 50 partial (Some 1) no_filter pk (new_task (Some 99)) st0
            = (handle_exception (ValidationError errors), st0)
          ∧ ("due_date", due_date_in_past) ∈ errors))
  ∧ (validate_due_date 100 (Some 101) = inr (Some 101)
     ∧ (∃ pk t, tasks st0 !! pk = None ∧ due_date t = Some 101
              ∧ TaskViewSet_create 100 50 (Some 1) (new_task (Some 101)) st0
                  = (mkResponse HTTP_201_CREATED
                       (OneTask (TaskSerializer_data (set_tasks (insert pk t) st0) pk t)),
                     set_tasks (insert pk t) st0))
     ∧ (∀ partial pk T, tasks st0 !! pk = Some T → user T = 1 →
          ∃ T', due_date T' = Some 101
              ∧ TaskViewSet_update 100 50 partial (Some 1) no_filter pk
                  (new_task (Some 101)) st0
                  = (mkResponse HTTP_200_OK
                       (OneTask (TaskSerializer_data (set_tasks (insert pk T') st0) pk T')),
                     set_tasks (insert pk T') st0))).
Proof.
  split.
  - destruct (due_date_validation 100 99 (new_task (Some 99)) 50 1 st0 eq_refl)
      as (Hpast & _).
    apply Hpast. lia.
  - destruct (due_date_validation 100 101 (new_task (Some 101)) 50 1 st0 eq_refl)
      as (_ & Hok & _).
    destruct Hok as (Hv & _ & Hc & Hu); [lia|].
    split; [exact Hv|]. split; [exact Hc|].
    intros partial pk T HT HuT. exact (Hu partial pk T HT HuT).
Defined.

Lemma created_task_owner_witness :
  let out := TaskViewSet_create 100 50 (Some 1) (new_task (Some 101)) st0 in
  (∃ pk t, tasks st0 !! pk = None
         ∧ out.2 = set_tasks (insert pk t) st0
         ∧ tasks out.2 !! pk = Some t
         ∧ user t = 1
         ∧ data out.1 = OneTask (TaskSerializer_data out.2 pk t)
         ∧ r_user (TaskSerializer_data out.2 pk t) = 1)
  ∧ ∀ x, TaskViewSet_create 100 50 (Some 1) (with_user x (new_task (Some 101))) st0
           = (out.1, out.2).
Proof.
  intros out.
  apply (created_task_owner 100 50 1 (new_task (Some 101)) st0 out.2 out.1).
  - reflexivity.
  - reflexivity.
Defined.

(** C8 fails as stated: without credentials, the list of categories and
    a single tag are served. *)
Lemma anonymous_read_is_served :
  CategoryViewSet_list None st0 = (mkResponse HTTP_200_OK (ManyNamed [(1, "Home")]), st0)
  ∧ CategoryViewSet_retrieve None 1 st0 = (mkResponse HTTP_200_OK (OneNamed 1 "Home"), st0)
  ∧ TagViewSet_list None st0 = (mkResponse HTTP_200_OK (ManyNamed [(1, "Shopping")]), st0)
  ∧ TagViewSet_retrieve None 1 st0 = (mkResponse HTTP_200_OK (OneNamed 1 "Shopping"), st0)
  ∧ check_permissions CategoryViewSet GET None = true
  ∧ check_permissions TagViewSet GET None = true.
Proof. repeat split; reflexivity. Qed.

Lemma anonymous_requests_witness :
  serve env0 None (CategoryCreate (Some "Work")) st0 = (handle_exception NotAuthenticated, st0)
  ∧ serve env0 None (TagDestroy 1) st0 = (handle_exception NotAuthenticated, st0)
  ∧ serve env0 None (TaskList no_filter) st0 = (handle_exception NotAuthenticated, st0)
  ∧ CategoryViewSet_retrieve None 1 st0
      = (mkResponse HTTP_200_OK (OneNamed 1 "Home"), st0).
Proof.
  split; [|split; [|split]].
  - apply (anonymous_requests env0 (CategoryCreate (Some "Work")) st0).
    right. split; [left|compute_done].
  - apply (anonymous_requests env0 (TagDestroy 1) st0).
    right. split; [right; left|compute_done].
  - apply (anonymous_requests env0 (TaskList no_filter) st0). left. left.
  - destruct (anonymous_requests env0 CategoryList st0) as (_ & _ & _ & _ & _ & Hr & _).
    apply (Hr 1 (mkCategory "Home")). reflexivity.
Defined.

Lemma names_stay_unique_witness :
  (unique_names (categories (serve env0 (Some 1) (CategoryCreate (Some "Work")) st0).2)
   ∧ unique_names (tag_table (serve env0 (Some 1) (CategoryCreate (Some "Work")) st0).2))
  ∧ (∀ pk c, categories st0 !! pk = Some c →
       objects_create (category_name c) (categories st0) = inl IntegrityError
       ∧ ∀ u s, char_field (Some 100%nat) false s = Some (category_name c) →
           CategoryViewSet_create (Some u) (Some s) st0
             = (handle_exception (ValidationError [("name", "unique")]), st0))
  ∧ (∀ pk t, tag_table st0 !! pk = Some t →
       objects_create (tag_name t) (tag_table st0) = inl IntegrityError
       ∧ ∀ u s, char_field (Some 50%nat) false s = Some (tag_name t) →
           TagViewSet_create (Some u) (Some s) st0
             = (handle_exception (ValidationError [("name", "unique")]), st0)).
Proof.
  apply (names_stay_unique env0 (Some 1) (CategoryCreate (Some "Work")) st0).
  - apply unique_names_NoDup. compute_done.
  - apply unique_names_NoDup. compute_done.
Defined.

Lemma reset_password_atomic_witness :
  (reset_password 1500 "s9" (reset_body "MQ" alice_token "newpw" "other") st0).2 = st0
  ∧ issued_token
      (reset_password 1500 "s9" (reset_body "MQ" alice_token "newpw" "other") st0).1 = None.
Proof.
  apply (reset_password_atomic 1500 "s9" (reset_body "MQ" alice_token "newpw" "other") st0).
  vm_compute. discriminate.
Defined.

(** *** The tests of the repository, replayed *)

(** [test_forgot_password_valid_email], [..._invalid_email], [..._no_email] *)
Example test_forgot_password :
  (let out := forgot_password 1000 None (forgot_body "alice@example.com") st0 in
   status_code out.1 = HTTP_200_OK
   ∧ mail_to <$> outbox out.2 = [["alice@example.com"]]
   ∧ ∃ link, mail_message <$> outbox out.2
       = ["Por favor, haz clic en el siguiente enlace para restablecer tu contraseña: "
          +:+ FRONTEND_URL +:+ "/reset-password" +:+ link])
  ∧ (let out := forgot_password 1000 None (forgot_body "nonexistent@example.com") st0 in
     out.1 = reset_mail_sent ∧ outbox out.2 = [])
  ∧ forgot_password 1000 None (JsonObject ∅) st0 = (email_required, st0).
Proof. repeat split; try reflexivity. eexists. reflexivity. Qed.

(** [test_reset_password_success], [..._password_mismatch],
    [..._invalid_token], [..._invalid_uidb64] *)
Example test_reset_password :
  (let out := reset_password 1500 "s9" (reset_body "MQ" alice_token "newsecurepassword"
                                          "newsecurepassword") st0 in
   out.1 = password_reset_done "access.1"
   ∧ password <$> users out.2 !! 1 = Some (make_password "s9" "newsecurepassword")
   ∧ users out.2 !! 2 = Some bob)
  ∧ reset_password 1500 "s9" (reset_body "MQ" alice_token "newsecurepassword"
                                "differentpassword") st0 = (passwords_differ, st0)
  ∧ reset_password 1500 "s9" (reset_body "MQ" "invalid-token" "newsecurepassword"
                                "newsecurepassword") st0 = (invalid_link, st0)
  ∧ reset_password 1500 "s9" (reset_body "invalid-uidb64" alice_token "newsecurepassword"
                                "newsecurepassword") st0 = (invalid_link, st0).
Proof. repeat split; reflexivity. Qed.

(** A token is good for [PASSWORD_RESET_TIMEOUT] seconds and no longer. *)
Example test_token_expiry :
  check_token (1000 + 259200) 1 alice alice_token = true
  ∧ check_token (1000 + 259201) 1 alice alice_token = false
  ∧ reset_password (1000 + 259201) "s9" (reset_body "MQ" alice_token "newpw" "newpw") st0
      = (invalid_link, st0).
Proof. repeat split; reflexivity. Qed.

(** [test_get_task_list], [test_create_task], [test_update_task],
    [test_delete_task] of [TaskViewSetTests], for Alice *)
Example test_task_viewset :
  (∃ t, (TaskViewSet_list (Some 1) no_filter st0).1
          = mkResponse HTTP_200_OK (ManyTasks [t])
        ∧ r_title t = "Buy groceries" ∧ r_category_name t = Some "Home"
        ∧ r_tags_names t = ["Shopping"])
  ∧ (let out := TaskViewSet_create 100 50 (Some 1)
                  (mkTaskInput None (Some "New Task") None None None None (Some (Some 1))
                     (Some [1])) st0 in
     status_code out.1 = HTTP_201_CREATED
     ∧ size (tasks out.2) = 3%nat
     ∧ tasks out.2 !! 3
         = Some (mkTask 1 "New Task" None None "medium" "pending" (Some 1) {[1]} 50 50))
  ∧ (let out := TaskViewSet_update 100 50 true (Some 1) no_filter 1
                  (mkTaskInput None (Some "Updated Task") None None None None None None) st0 in
     status_code out.1 = HTTP_200_OK
     ∧ title <$> tasks out.2 !! 1 = Some "Updated Task"
     ∧ user <$> tasks out.2 !! 1 = Some 1)
  ∧ (let out := TaskViewSet_destroy (Some 1) no_filter 1 st0 in
     status_code out.1 = HTTP_204_NO_CONTENT ∧ size (tasks out.2) = 1%nat).
Proof. repeat split; try reflexivity. eexists. repeat split. Qed.

(** [test_create_category], [test_update_category], [test_delete_category],
    and [test_category_name_unique] of the model tests *)
Example test_category_viewset :
  (let out := CategoryViewSet_create (Some 1) (Some "New Category") st0 in
   out.1 = mkResponse HTTP_201_CREATED (OneNamed 2 "New Category")
   ∧ size (categories out.2) = 2%nat)
  ∧ (let out := CategoryViewSet_update false (Some 1) 1 (Some "Updated Category") st0 in
     out.1 = mkResponse HTTP_200_OK (OneNamed 1 "Updated Category")
     ∧ categories out.2 !! 1 = Some (mkCategory "Updated Category"))
  ∧ (let out := CategoryViewSet_destroy (Some 1) 1 st0 in
     status_code out.1 = HTTP_204_NO_CONTENT
     ∧ categories out.2 = ∅
     ∧ category <$> tasks out.2 !! 1 = Some None)
  ∧ objects_create "Home" (categories st0) = inl IntegrityError.
Proof. repeat split; reflexivity. Qed.

(** A due date is compared with today: yesterday is refused, today and
    tomorrow pass ([test_task_serializer_validate_due_date]). *)
Example test_validate_due_date :
  status_code (TaskViewSet_create 100 50 (Some 1) (new_task (Some 99)) st0).1
    = HTTP_400_BAD_REQUEST
  ∧ status_code (TaskViewSet_create 100 50 (Some 1) (new_task (Some 100)) st0).1
    = HTTP_201_CREATED
  ∧ status_code (TaskViewSet_create 100 50 (Some 1) (new_task (Some 101)) st0).1
    = HTTP_201_CREATED.
Proof. repeat split; reflexivity. Qed.
End Runs.

(** ** What comes out of the task serializer *)

Lemma optional_field_inr {A B} (check : A → string + B) (x : option A) (r : option B) :
  optional_field check x = inr r →
  (x = None ∧ r = None) ∨ (∃ a b, x = Some a ∧ check a = inr b ∧ r = Some b).
Proof.
  destruct x as [a|]; simpl; [|intros [= <-]; by left].
  destruct (check a) as [e|b] eqn:Hc; [done|]. intros [= <-]. right. eauto.
Qed.

Lemma choice_field_inr (choices : list string) (s p : string) :
  choice_field choices s = inr p → p = s ∧ s ∈ choices.
Proof.
  unfold choice_field. case_bool_decide; [|done]. by intros [= <-].
Qed.

Lemma related_field_inr {A} (table : gmap Z A) (pk c : Z) :
  related_field table pk = inr c → c = pk ∧ is_Some (table !! pk).
Proof.
  unfold related_field. case_bool_decide; [|done]. by intros [= <-].
Qed.

Section SerializerOutput.
Context `{Platform}.

Lemma many_related_inr {A} (table : gmap Z A) (l l' : list Z) :
  many (related_field table) l = inr l' →
  l' = l ∧ ∀ x, x ∈ l → is_Some (table !! x).
Proof.
  revert l'. induction l as [|a l IH]; intros l'; simpl.
  - intros [= <-]. split; [done|]. by intros x ?%elem_of_nil.
  - destruct (related_field table a) as [e|c] eqn:Ha; [done|].
    destruct (many (related_field table) l) as [e|bs] eqn:Hl; [done|].
    intros [= <-]. apply related_field_inr in Ha as [-> Ha].
    destruct (IH bs eq_refl) as [-> Hall]. split; [done|].
    intros x [->|Hx]%elem_of_cons; eauto.
Qed.

(** A serializer that does not raise has accepted every field. *)
Lemma is_valid_Return today (st : State) partial (d : TaskInput) (v : TaskAttrs) :
  TaskSerializer_is_valid today st partial d = Return v →
  title_field partial (in_title d) = inr (v_title v)
  ∧ optional_field (nullable (char_field_checked None true)) (in_description d)
      = inr (v_description v)
  ∧ optional_field (validate_due_date today) (in_due_date d) = inr (v_due_date v)
  ∧ optional_field (choice_field priority_choices) (in_priority d) = inr (v_priority v)
  ∧ optional_field (choice_field status_choices) (in_status d) = inr (v_status v)
  ∧ optional_field (nullable (related_field (categories st))) (in_category d)
      = inr (v_category v)
  ∧ optional_field (many (related_field (tag_table st))) (in_tags d) = inr (v_tags v).
Proof.
  unfold TaskSerializer_is_valid.
  destruct (title_field partial (in_title d)) as [?|t]; [done|].
  destruct (optional_field _ (in_description d)) as [?|de]; [done|].
  destruct (optional_field _ (in_due_date d)) as [?|du]; [done|].
  destruct (optional_field _ (in_priority d)) as [?|pr]; [done|].
  destruct (optional_field _ (in_status d)) as [?|sa]; [done|].
  destruct (optional_field _ (in_category d)) as [?|ca]; [done|].
  destruct (optional_field _ (in_tags d)) as [?|ta]; [done|].
  simpl. by intros [= <-].
Qed.

Lemma validated_refs (st : State) (v : TaskAttrs) :
  validated st v →
  (∀ c, v_category v = Some (Some c) → is_Some (categories st !! c))
  ∧ (∀ l x, v_tags v = Some l → x ∈ l → is_Some (tag_table st !! x))
  ∧ (∀ p, v_priority v = Some p → p ∈ priority_choices)
  ∧ (∀ s, v_status v = Some s → s ∈ status_choices).
Proof.
  intros (today & partial & d & Hv).
  apply is_valid_Return in Hv as (_ & _ & _ & Hpr & Hsa & Hca & Hta).
  repeat split.
  - intros c Hc. rewrite Hc in Hca.
    apply optional_field_inr in Hca as [[_ [=]]|(a & b & _ & Hn & [= <-])].
    apply optional_field_inr in Hn as [[_ [=]]|(a' & b' & _ & Hr & [= <-])].
    by apply related_field_inr in Hr as [-> ?].
  - intros l x Hl Hx. rewrite Hl in Hta.
    apply optional_field_inr in Hta as [[_ [=]]|(a & b & _ & Hm & [= <-])].
    apply many_related_inr in Hm as [-> Hall]. eauto.
  - intros p Hp. rewrite Hp in Hpr.
    apply optional_field_inr in Hpr as [[_ [=]]|(a & b & _ & Hc & [= <-])].
    by apply choice_field_inr in Hc as [-> ?].
  - intros s Hs. rewrite Hs in Hsa.
    apply optional_field_inr in Hsa as [[_ [=]]|(a & b & _ & Hc & [= <-])].
    by apply choice_field_inr in Hc as [-> ?].
Qed.
End SerializerOutput.

(** ** Every request is one of the steps *)

Lemma request_user_Return (requester : option Z) (u : Z) :
  request_user requester = Return u → requester = Some u.
Proof. destruct requester; simpl; [by intros [= ->]|done]. Qed.

Lemma initial_unsafe (v : View) (m : Method) (requester : option Z) :
  initial v m requester = Return () → v = CategoryViewSet ∨ v = TagViewSet →
  m ∉ SAFE_METHODS → is_Some requester.
Proof.
  intros Hi Hv Hm. destruct requester as [u|]; [eauto|exfalso].
  destruct Hv as [-> | ->]; destruct m; try discriminate Hi;
    apply Hm; unfold SAFE_METHODS; set_solver.
Qed.

Lemma unsafe_methods (partial : bool) :
  (POST ∉ SAFE_METHODS) ∧ (DELETE ∉ SAFE_METHODS)
  ∧ ((if partial then PATCH else PUT) ∉ SAFE_METHODS).
Proof.
  repeat split; try destruct partial; intros Hin;
    repeat (apply elem_of_cons in Hin as [Hin|Hin]; [discriminate Hin|]);
    by apply elem_of_nil in Hin.
Qed.

Section NamedCases.
Context `{Platform} {A : Type} `{NamedModel A}.

Lemma named_is_valid_create data_name (m : gmap Z A) v :
  named_is_valid None false data_name m = Return v →
  ∃ s n, data_name = Some s ∧ char_field (Some name_max_length) false s = Some n
       ∧ name_taken None n m = false ∧ v = Some n.
Proof.
  unfold named_is_valid. destruct data_name as [s|]; [|done].
  destruct (char_field _ _ s) as [n|] eqn:Hc; [|done].
  destruct (name_taken None n m) eqn:Ht; [done|]. intros [= <-]. eauto 10.
Qed.

(** A create either leaves the table alone or adds one row, under a key
    that was free and a name that no row had. *)
Lemma named_create_cases view requester data_name (m m' : gmap Z A) r :
  named_create view requester data_name m = (r, m') →
  (m' = m ∧ status_code r ≠ HTTP_201_CREATED)
  ∨ (∃ s n, initial view POST requester = Return ()
          ∧ data_name = Some s ∧ char_field (Some name_max_length) false s = Some n
          ∧ name_taken None n m = false
          ∧ m' = <[next_pk m := with_name n]> m
          ∧ r = mkResponse HTTP_201_CREATED (OneNamed (next_pk m) n)).
Proof.
  unfold named_create. destruct (initial view POST requester) as [[]|e] eqn:Hi; simpl.
  - destruct (named_is_valid None false data_name m) as [v|e] eqn:Hv; simpl.
    + apply named_is_valid_create in Hv as (s & n & -> & Hc & Ht & ->). simpl.
      unfold objects_create. rewrite Ht. intros [= <- <-]. right. eauto 10.
    + intros [= <- <-]. left. split; [done|]. by destruct e.
  - intros [= <- <-]. left. split; [done|]. by destruct e.
Qed.

Lemma named_update_cases view partial requester pk data_name (m m' : gmap Z A) r :
  named_update view partial requester pk data_name m = (r, m') →
  m' = m
  ∨ (∃ n row, initial view (if partial then PATCH else PUT) requester = Return ()
          ∧ m !! pk = Some row
          ∧ name_taken (Some pk) n m = false
          ∧ m' = <[pk := with_name n]> m
          ∧ r = mkResponse HTTP_200_OK (OneNamed pk n)).
Proof.
  unfold named_update.
  destruct (initial view _ requester) as [[]|e] eqn:Hi; simpl; [|intros [= <- <-]; by left].
  unfold lookup_or_404. destruct (m !! pk) as [row|] eqn:Hm; simpl;
    [|intros [= <- <-]; by left].
  destruct (named_is_valid (Some pk) partial data_name m) as [v|e]; simpl;
    [|intros [= <- <-]; by left].
  unfold objects_save.
  destruct (name_taken (Some pk) (default (name row) v) m) eqn:Ht;
    intros [= <- <-]; [by left|]. right. eauto 10.
Qed.

Lemma named_destroy_cases view requester pk (m m' : gmap Z A) r :
  named_destroy view requester pk m = (r, m') →
  (status_code r ≠ HTTP_204_NO_CONTENT ∧ m' = m)
  ∨ (r = mkResponse HTTP_204_NO_CONTENT Empty
     ∧ initial view DELETE requester = Return () ∧ is_Some (m !! pk) ∧ m' = delete pk m).
Proof.
  unfold named_destroy.
  destruct (initial view _ requester) as [[]|e] eqn:Hi; simpl;
    [|intros [= <- <-]; left; split; [by destruct e|done]].
  unfold lookup_or_404. destruct (m !! pk) as [row|] eqn:Hm; simpl;
    intros [= <- <-]; [right; eauto|left; done].
Qed.

Lemma named_read_cases view requester pk (m : gmap Z A) :
  (named_list view requester m).2 = m ∧ (named_retrieve view requester pk m).2 = m.
Proof.
  unfold named_list, named_retrieve, lookup_or_404. split.
  - by destruct (initial view GET requester).
  - destruct (initial view GET requester); simpl; [|done]. by destruct (m !! pk).
Qed.

Lemma name_taken_free exclude pk n (m : gmap Z A) :
  name_taken exclude n m = false → (exclude = None ∨ exclude = Some pk) →
  name_free pk n m.
Proof.
  intros Ht Hex j row Hj Hn.
  pose proof (proj1 (name_taken_false exclude n m) Ht j row Hj Hn) as He.
  destruct Hex as [->| ->]; [done|congruence].
Qed.
End NamedCases.

Section Steps.
Context `{Platform} `{Accounts}.

Lemma handle_step now requester (st : State) (r : Result (Response * State)) :
  (∀ out, r = Return out → Step now requester st out.2) →
  Step now requester st (handle st r).2.
Proof. intros Hr. destruct r as [out|e]; simpl; [eauto|constructor]. Qed.

Lemma task_create_cases today now requester d (st st' : State) r :
  TaskViewSet_create today now requester d st = (r, st') →
  (st' = st ∧ status_code r ≠ HTTP_201_CREATED)
  ∨ (∃ u v t, requester = Some u ∧ TaskSerializer_is_valid today st false d = Return v
          ∧ st' = (TaskSerializer_create now u v st).2
          ∧ tasks st' !! next_pk (tasks st) = Some t
          ∧ r = mkResponse HTTP_201_CREATED
                  (OneTask (TaskSerializer_data st' (next_pk (tasks st)) t))).
Proof.
  unfold TaskViewSet_create.
  destruct (initial TaskViewSet POST requester) as [[]|e]; simpl;
    [|intros [= <- <-]; left; split; [done|by destruct e]].
  destruct requester as [u|]; simpl; [|intros [= <- <-]; by left].
  destruct (TaskSerializer_is_valid today st false d) as [v|e] eqn:Hv; simpl;
    [|intros [= <- <-]; left; split; [done|by destruct e]].
  rewrite lookup_insert_eq. simpl. intros [= <- <-]. right. eexists u, v, _.
  repeat split; try done. simpl. by rewrite lookup_insert_eq.
Qed.

Lemma task_update_cases today now partial requester flt pk d (st st' : State) r :
  TaskViewSet_update today now partial requester flt pk d st = (r, st') →
  (st' = st ∧ status_code r ≠ HTTP_200_OK)
  ∨ (∃ u T v, requester = Some u ∧ tasks st !! pk = Some T ∧ user T = u
            ∧ TaskFilter_matches flt T = true
            ∧ TaskSerializer_is_valid today st partial d = Return v
            ∧ st' = TaskSerializer_update now pk T v st
            ∧ status_code r = HTTP_200_OK).
Proof.
  unfold TaskViewSet_update.
  destruct (initial TaskViewSet _ requester) as [[]|e]; simpl;
    [|intros [= <- <-]; left; split; [done|by destruct e]].
  destruct requester as [u|]; simpl; [|intros [= <- <-]; by left].
  unfold get_object.
  destruct (filter_queryset flt (get_queryset u st) !! pk) as [T|] eqn:HT; simpl;
    [|intros [= <- <-]; by left].
  apply queryset_lookup in HT as (HT & Hu & Hf).
  destruct (TaskSerializer_is_valid today st partial d) as [v|e] eqn:Hv; simpl;
    [|intros [= <- <-]; left; split; [done|by destruct e]].
  unfold perform_update. rewrite bool_decide_eq_false_2 by (intros ?; done). simpl.
  intros [= <- <-]. right. exists u, T, v. done.
Qed.

Lemma task_destroy_cases requester flt pk (st st' : State) r :
  TaskViewSet_destroy requester flt pk st = (r, st') →
  (st' = st ∧ status_code r ≠ HTTP_204_NO_CONTENT)
  ∨ (∃ u T, requester = Some u ∧ tasks st !! pk = Some T ∧ user T = u
          ∧ TaskFilter_matches flt T = true
          ∧ st' = set_tasks (delete pk) st
          ∧ r = mkResponse HTTP_204_NO_CONTENT Empty).
Proof.
  unfold TaskViewSet_destroy.
  destruct (initial TaskViewSet _ requester) as [[]|e]; simpl;
    [|intros [= <- <-]; left; split; [done|by destruct e]].
  destruct requester as [u|]; simpl; [|intros [= <- <-]; by left].
  unfold get_object.
  destruct (filter_queryset flt (get_queryset u st) !! pk) as [T|] eqn:HT; simpl;
    [|intros [= <- <-]; by left].
  apply queryset_lookup in HT as (HT & Hu & Hf).
  unfold perform_destroy. rewrite bool_decide_eq_false_2 by (intros ?; done). simpl.
  intros [= <- <-]. right. exists u, T. done.
Qed.

Lemma task_read_cases requester flt pk (st : State) :
  (TaskViewSet_list requester flt st).2 = st
  ∧ (TaskViewSet_retrieve requester flt pk st).2 = st.
Proof.
  unfold TaskViewSet_list, TaskViewSet_retrieve, get_object. split.
  - destruct (initial TaskViewSet GET requester); simpl; [|done]. by destruct requester.
  - destruct (initial TaskViewSet GET requester); simpl; [|done].
    destruct requester; simpl; [|done]. by case_match.
Qed.

Lemma objects_exists_false {A} (P : A → bool) (m : gmap Z A) :
  objects_exists P m = false ↔ ∀ pk row, m !! pk = Some row → P row = false.
Proof.
  unfold objects_exists. rewrite <- not_true_iff_false, existsb_exists. split.
  - intros Hno pk row Hm. destruct (P row) eqn:HP; [|done]. exfalso. apply Hno.
    exists (pk, row). split; [|done]. by apply list_elem_of_In, elem_of_map_to_list.
  - intros Hall [[pk row] [Hin HP]]. apply list_elem_of_In, elem_of_map_to_list in Hin.
    simpl in HP. by rewrite (Hall pk row Hin) in HP.
Qed.

Lemma objects_exists_true {A} (P : A → bool) (m : gmap Z A) pk row :
  m !! pk = Some row → P row = true → objects_exists P m = true.
Proof.
  intros Hm HP. unfold objects_exists. apply existsb_exists.
  exists (pk, row). split; [|done]. by apply list_elem_of_In, elem_of_map_to_list.
Qed.

Lemma registration_is_valid_raises d (st : State) e :
  UserRegistrationSerializer_is_valid d st = Raise e → ∃ errors, e = ValidationError errors.
Proof. unfold UserRegistrationSerializer_is_valid. case_match; [done|]. intros [= <-]. eauto. Qed.

Lemma registration_is_valid_Return d (st : State) v :
  UserRegistrationSerializer_is_valid d st = Return v →
  (∃ s, reg_username d = Some s ∧ username_field s = Some (va_username v)
      ∧ objects_exists (λ u, String.eqb (username u) (va_username v)) (users st) = false)
  ∧ optional_field email_checked (reg_email d) = inr (va_email v)
  ∧ (∃ s, reg_password d = Some s ∧ char_field None false s = Some (va_password v)).
Proof.
  unfold UserRegistrationSerializer_is_valid.
  destruct (reg_username d) as [s|]; simpl; [|done].
  unfold username_checked. destruct (username_field s) as [n|] eqn:Hn; simpl; [|done].
  destruct (objects_exists _ (users st)) eqn:Hex; simpl; [done|].
  destruct (optional_field email_checked (reg_email d)) as [?|em]; simpl; [done|].
  destruct (reg_password d) as [p|]; simpl; [|done].
  unfold char_field_checked. destruct (char_field None false p) as [p'|] eqn:Hp; simpl; [|done].
  intros [= <-]. simpl. eauto 10.
Qed.

(** A registration either writes nothing and answers 400, or adds one
    account under a username, and an address if one was sent, that no
    account had. *)
Lemma register_cases salt requester d (st st' : State) r :
  UserRegistrationView_create salt requester d st = (r, st') →
  (status_code r = HTTP_400_BAD_REQUEST ∧ st' = st)
  ∨ (∃ v, UserRegistrationSerializer_is_valid d st = Return v
        ∧ (∀ j x, users st !! j = Some x → username x ≠ va_username v)
        ∧ (∀ e j x, va_email v = Some e → users st !! j = Some x → email x ≠ e)
        ∧ st' = (UserRegistrationSerializer_create salt v st).2
        ∧ r = mkResponse HTTP_201_CREATED
                (Dict [("username", va_username v); ("email", default "" (va_email v))])).
Proof.
  unfold UserRegistrationView_create.
  assert (initial UserRegistrationView POST requester = Return ()) as -> by done. simpl.
  destruct (UserRegistrationSerializer_is_valid d st) as [v|e] eqn:Hv; simpl.
  - destruct (objects_exists (λ u, String.eqb (username u) (va_username v)) (users st))
      eqn:Hu; simpl; [intros [= <- <-]; by left|].
    destruct (from_option _ false (va_email v)) eqn:He; simpl; [intros [= <- <-]; by left|].
    intros [= <- <-]. right. exists v. repeat split; try done.
    + intros j x Hj Hx. pose proof (proj1 (objects_exists_false _ _) Hu j x Hj) as Hne.
      simpl in Hne. by apply String.eqb_neq in Hne.
    + intros e j x Hve Hj Hx. rewrite Hve in He. simpl in He.
      pose proof (proj1 (objects_exists_false _ _) He j x Hj) as Hne.
      simpl in Hne. by apply String.eqb_neq in Hne.
  - apply registration_is_valid_raises in Hv as [errors ->].
    intros [= <- <-]. by left.
Qed.

Lemma change_password_cases salt partial requester d (st st' : State) r :
  ChangePasswordView_update salt partial requester d st = (r, st') →
  (status_code r ≠ HTTP_200_OK ∧ st' = st)
  ∨ (∃ pk u old new, requester = Some pk ∧ users st !! pk = Some u
        ∧ ChangePasswordSerializer_is_valid d = Return (old, new)
        ∧ check_password old (password u) = true
        ∧ st' = set_users (insert pk (set_password salt new u)) st
        ∧ r = password_changed).
Proof.
  unfold ChangePasswordView_update.
  destruct (initial ChangePasswordView _ requester) as [[]|e]; simpl;
    [|intros [= <- <-]; left; split; [by destruct e|done]].
  destruct (ChangePasswordSerializer_is_valid d) as [[old new]|e] eqn:Hv; simpl;
    [|intros [= <- <-]; left; split; [by destruct e|done]].
  destruct requester as [pk|]; simpl; [|intros [= <- <-]; by left].
  destruct (users st !! pk) as [u|] eqn:Hu; simpl; [|intros [= <- <-]; by left].
  destruct (check_password old (password u)) eqn:Hc; simpl; intros [= <- <-].
  - right. exists pk, u, old, new. done.
  - by left.
Qed.

Lemma profile_cases requester in_email (st st' : State) r :
  UserProfileView_partial_update requester in_email st = (r, st') →
  st' = st
  ∨ (∃ pk u e e', requester = Some pk ∧ users st !! pk = Some u
        ∧ in_email = Some e ∧ email_field e = Some e'
        ∧ st' = set_users
                  (insert pk (mkUser (username u) e' (password u) (last_login u)
                                (first_name u) (last_name u))) st).
Proof.
  unfold UserProfileView_partial_update.
  destruct (initial UserProfileView PATCH requester) as [[]|e]; simpl;
    [|intros [= <- <-]; by left].
  destruct requester as [pk|]; simpl; [|intros [= <- <-]; by left].
  destruct (users st !! pk) as [u|] eqn:Hu; simpl; [|intros [= <- <-]; by left].
  destruct in_email as [e|]; simpl; [|intros [= <- <-]; by left].
  destruct (email_field e) as [e'|] eqn:He; simpl; intros [= <- <-]; [|by left].
  right. exists pk, u, e, e'. done.
Qed.

Lemma username_taken_false pk n (m : gmap Z User) :
  username_taken pk n m = false ↔ ∀ j x, m !! j = Some x → username x = n → j = pk.
Proof.
  unfold username_taken. rewrite <- not_true_iff_false, existsb_exists. split.
  - intros Hno j x Hj Hx. destruct (decide (j = pk)) as [|Hne]; [done|].
    exfalso. apply Hno. exists (j, x). split.
    + by apply list_elem_of_In, elem_of_map_to_list.
    + simpl. rewrite (proj2 (String.eqb_eq _ _) Hx).
      by rewrite bool_decide_eq_false_2.
  - intros Hall [[j x] [Hin Hb]]. apply list_elem_of_In, elem_of_map_to_list in Hin.
    simpl in Hb.
    apply andb_true_iff in Hb as [Hx%String.eqb_eq Hne%negb_true_iff].
    apply bool_decide_eq_false in Hne. apply Hne. by apply (Hall j x).
Qed.

Lemma profile_is_valid_raises pk partial d (st : State) e :
  UserSerializer_is_valid pk partial d st = Raise e → ∃ errors, e = ValidationError errors.
Proof. unfold UserSerializer_is_valid. case_match; [done|]. intros [= <-]. eauto. Qed.

Lemma profile_is_valid_Return pk partial d (st : State) v :
  UserSerializer_is_valid pk partial d st = Return v →
  username_member partial pk st (pf_username d) = inr (vp_username v)
  ∧ optional_field email_checked (pf_email d) = inr (vp_email v)
  ∧ optional_field (char_field_checked (Some 150%nat) true) (pf_first_name d)
      = inr (vp_first_name v)
  ∧ optional_field (char_field_checked (Some 150%nat) true) (pf_last_name d)
      = inr (vp_last_name v).
Proof.
  unfold UserSerializer_is_valid.
  destruct (username_member _ _ _ _) as [?|un]; [done|].
  destruct (optional_field _ (pf_email d)) as [?|em]; [done|].
  destruct (optional_field _ (pf_first_name d)) as [?|fn]; [done|].
  destruct (optional_field _ (pf_last_name d)) as [?|ln]; [done|].
  simpl. by intros [= <-].
Qed.

(** A username that came out of the serializer of the profile is the
    cleaned form of the one sent, and no other account has it. *)
Lemma username_member_inr partial pk (st : State) x r :
  username_member partial pk st x = inr r →
  (x = None ∧ r = None ∧ partial = true)
  ∨ (∃ s n, x = Some s ∧ r = Some n ∧ username_field s = Some n
          ∧ ∀ j y, users st !! j = Some y → username y = n → j = pk).
Proof.
  destruct x as [s|]; simpl.
  - unfold username_checked_for. destruct (username_field s) as [n|] eqn:Hn; [|done].
    destruct (username_taken pk n (users st)) eqn:Ht; [done|].
    intros [= <-]. right. exists s, n. repeat split; try done.
    by apply username_taken_false.
  - destruct partial; [|done]. intros [= <-]. by left.
Qed.

Lemma profile_update_cases partial requester d (st st' : State) r :
  UserProfileView_update partial requester d st = (r, st') →
  (status_code r ≠ HTTP_200_OK ∧ st' = st)
  ∨ (∃ pk u v, requester = Some pk ∧ users st !! pk = Some u
        ∧ UserSerializer_is_valid pk partial d st = Return v
        ∧ st' = set_users (insert pk (UserSerializer_update u v)) st
        ∧ r = mkResponse HTTP_200_OK (UserSerializer_data pk (UserSerializer_update u v))).
Proof.
  unfold UserProfileView_update.
  destruct (initial UserProfileView _ requester) as [[]|e]; simpl;
    [|intros [= <- <-]; left; split; [by destruct e|done]].
  destruct requester as [pk|]; simpl; [|intros [= <- <-]; by left].
  destruct (users st !! pk) as [u|] eqn:Hu; simpl; [|intros [= <- <-]; by left].
  destruct (UserSerializer_is_valid pk partial d st) as [v|e] eqn:Hv; simpl.
  - intros [= <- <-]. right. exists pk, u, v. done.
  - apply profile_is_valid_raises in Hv as [errors ->]. intros [= <- <-]. by left.
Qed.

(** The view for a PATCH of the address alone is the view in full, on a
    body that carries at most the address. *)
Lemma profile_patch_email_only requester in_email (st : State) :
  UserProfileView_partial_update requester in_email st
    = UserProfileView_update true requester (mkProfileInput None in_email None None) st.
Proof.
  unfold UserProfileView_partial_update, UserProfileView_update.
  destruct (initial UserProfileView PATCH requester) as [[]|e]; simpl; [|done].
  destruct requester as [pk|]; simpl; [|done].
  destruct (users st !! pk) as [u|] eqn:Hu; simpl; [|done].
  unfold UserSerializer_is_valid. simpl.
  destruct in_email as [e|]; simpl.
  - unfold email_checked. by destruct (email_field e).
  - unfold UserSerializer_update. simpl. destruct u. simpl.
    unfold set_users. rewrite insert_id by done. by destruct st.
Qed.

Lemma profile_retrieve_same requester (st : State) :
  (UserProfileView_retrieve requester st).2 = st.
Proof.
  unfold UserProfileView_retrieve.
  destruct (initial UserProfileView GET requester) as [[]|e]; simpl; [|done].
  destruct requester as [pk|]; simpl; [|done].
  by destruct (users st !! pk).
Qed.

Lemma forgot_password_cases now mail_error body (st st' : State) r :
  forgot_password now mail_error body st = (r, st') →
  st' = st
  ∨ (∃ pk u m, users st !! pk = Some u ∧ mail_to m = [email u]
        ∧ mail_from m = DEFAULT_FROM_EMAIL ∧ mail_error = None
        ∧ m = reset_mail (email u)
                (reset_url (urlsafe_base64_encode (pretty pk)) (make_token now pk u))
        ∧ r = reset_mail_sent
        ∧ st' = set_outbox (λ box, box ++ [m])%list st).
Proof.
  unfold forgot_password.
  destruct body as [|?|?|data]; [intros [= <- <-]; by left..|].
  destruct (bool_of (get "email" data)) eqn:Ht; cbn [negb]; [|intros [= <- <-]; by left].
  cbv zeta.
  destruct (objects_get _ (users st)) as [pk u| |n] eqn:Hg; [|intros [= <- <-]; by left..].
  apply objects_get_Got in Hg as [Hu He%String.eqb_eq].
  destruct mail_error; intros [= <- <-]; [by left|]. right.
  eexists pk, u, _. rewrite <- He. repeat split; done.
Qed.

Lemma reset_password_cases now salt body (st st' : State) r :
  reset_password now salt body st = (r, st') →
  (status_code r ≠ HTTP_200_OK ∧ st' = st)
  ∨ (∃ data uidb64 token pw pk u,
        body = JsonObject data
        ∧ dict_get "uidb64" data = Some uidb64 ∧ dict_get "token" data = Some token
        ∧ dict_get "new_password" data = Some pw ∧ dict_get "confirm_password" data = Some pw
        ∧ pw ≠ ""
        ∧ resolve_user uidb64 st = Some (pk, u) ∧ users st !! pk = Some u
        ∧ check_token now pk u token = true
        ∧ st' = set_users (insert pk (set_password salt pw u)) st
        ∧ r = password_reset_done (access_token_for pk)).
Proof.
  unfold reset_password.
  destruct body as [|?|?|data]; [intros [= <- <-]; by left..|].
  cbn [forallb].
  destruct (bool_of (get "uidb64" data)) eqn:T1; cbn [andb negb];
    [|intros [= <- <-]; by left].
  destruct (bool_of (get "token" data)) eqn:T2; cbn [andb negb];
    [|intros [= <- <-]; by left].
  destruct (bool_of (get "new_password" data)) eqn:T3; cbn [andb negb];
    [|intros [= <- <-]; by left].
  destruct (bool_of (get "confirm_password" data)) eqn:T4; cbn [andb negb];
    [|intros [= <- <-]; by left].
  destruct (py_ne _ _) eqn:Hne; [intros [= <- <-]; by left|].
  destruct (get "uidb64" data) as [| | | |uidb64| |] eqn:E1;
    try (intros [= <- <-]; by left).
  destruct (resolve_user uidb64 st) as [[pk u]|] eqn:Hr; [|intros [= <- <-]; by left].
  destruct (get "token" data) as [| | | |token| |] eqn:E2;
    try (intros [= <- <-]; by left).
  destruct (check_token now pk u token) eqn:Hc; [|intros [= <- <-]; by left].
  destruct (get "new_password" data) as [| | | |pw| |] eqn:E3;
    try (intros [= <- <-]; by left).
  apply negb_false_iff, py_eq_string in Hne.
  intros [= <- <-].
  right. exists data, uidb64, token, pw, pk, u. unfold dict_get.
  rewrite E1, E2, E3, Hne. repeat split; try done.
  - by apply bool_of_string_inv.
  - by apply resolve_user_Some in Hr as (? & ? & _ & _ & _ & ?).
Qed.

Lemma category_view_steps now requester partial pk data_name (st : State) :
  Step now requester st (CategoryViewSet_list requester st).2
  ∧ Step now requester st (CategoryViewSet_retrieve requester pk st).2
  ∧ Step now requester st (CategoryViewSet_create requester data_name st).2
  ∧ Step now requester st (CategoryViewSet_update partial requester pk data_name st).2
  ∧ Step now requester st (CategoryViewSet_destroy requester pk st).2.
Proof.
  destruct (unsafe_methods partial) as (Hpost & Hdel & Hput).
  split; [|split; [|split; [|split]]].
  - unfold CategoryViewSet_list.
    destruct (named_list _ _ _) as [r m] eqn:E.
    pose proof (proj1 (named_read_cases CategoryViewSet requester 0 (categories st))) as Hm.
    rewrite E in Hm. simpl in *. subst m. rewrite set_categories_same. constructor.
  - unfold CategoryViewSet_retrieve.
    destruct (named_retrieve _ _ _ _) as [r m] eqn:E.
    pose proof (proj2 (named_read_cases CategoryViewSet requester pk (categories st))) as Hm.
    rewrite E in Hm. simpl in *. subst m. rewrite set_categories_same. constructor.
  - unfold CategoryViewSet_create.
    destruct (named_create _ _ _ _) as [r m] eqn:E. simpl.
    apply named_create_cases in E
      as [[-> _]|(s & n & Hi & _ & _ & Ht & -> & _)].
    + rewrite set_categories_same. constructor.
    + apply (step_category_written now requester st (next_pk (categories st)) n).
      * by apply (initial_unsafe CategoryViewSet POST); [|left|].
      * apply (name_taken_free None); [done|by left].
      * right. split; [apply next_pk_fresh|done].
  - unfold CategoryViewSet_update.
    destruct (named_update _ _ _ _ _ _) as [r m] eqn:E. simpl.
    apply named_update_cases in E as [->|(n & row & Hi & Hrow & Ht & -> & _)].
    + rewrite set_categories_same. constructor.
    + apply (step_category_written now requester st pk n).
      * by apply (initial_unsafe CategoryViewSet (if partial then PATCH else PUT)); [|left|].
      * apply (name_taken_free (Some pk)); [done|by right].
      * left. eauto.
  - unfold CategoryViewSet_destroy.
    destruct (named_destroy _ _ _ _) as [r m] eqn:E. simpl.
    apply named_destroy_cases in E as [[Hs ->]|(-> & Hi & Hpk & ->)].
    + rewrite bool_decide_eq_false_2 by done. constructor.
    + rewrite bool_decide_eq_true_2 by done.
      apply step_category_deleted; [|done].
      by apply (initial_unsafe CategoryViewSet DELETE); [|left|].
Qed.

Lemma tag_view_steps now requester partial pk data_name (st : State) :
  Step now requester st (TagViewSet_list requester st).2
  ∧ Step now requester st (TagViewSet_retrieve requester pk st).2
  ∧ Step now requester st (TagViewSet_create requester data_name st).2
  ∧ Step now requester st (TagViewSet_update partial requester pk data_name st).2
  ∧ Step now requester st (TagViewSet_destroy requester pk st).2.
Proof.
  destruct (unsafe_methods partial) as (Hpost & Hdel & Hput).
  split; [|split; [|split; [|split]]].
  - unfold TagViewSet_list.
    destruct (named_list _ _ _) as [r m] eqn:E.
    pose proof (proj1 (named_read_cases TagViewSet requester 0 (tag_table st))) as Hm.
    rewrite E in Hm. simpl in *. subst m. rewrite set_tag_table_same. constructor.
  - unfold TagViewSet_retrieve.
    destruct (named_retrieve _ _ _ _) as [r m] eqn:E.
    pose proof (proj2 (named_read_cases TagViewSet requester pk (tag_table st))) as Hm.
    rewrite E in Hm. simpl in *. subst m. rewrite set_tag_table_same. constructor.
  - unfold TagViewSet_create.
    destruct (named_create _ _ _ _) as [r m] eqn:E. simpl.
    apply named_create_cases in E
      as [[-> _]|(s & n & Hi & _ & _ & Ht & -> & _)].
    + rewrite set_tag_table_same. constructor.
    + apply (step_tag_written now requester st (next_pk (tag_table st)) n).
      * by apply (initial_unsafe TagViewSet POST); [|right|].
      * apply (name_taken_free None); [done|by left].
      * right. split; [apply next_pk_fresh|done].
  - unfold TagViewSet_update.
    destruct (named_update _ _ _ _ _ _) as [r m] eqn:E. simpl.
    apply named_update_cases in E as [->|(n & row & Hi & Hrow & Ht & -> & _)].
    + rewrite set_tag_table_same. constructor.
    + apply (step_tag_written now requester st pk n).
      * by apply (initial_unsafe TagViewSet (if partial then PATCH else PUT)); [|right|].
      * apply (name_taken_free (Some pk)); [done|by right].
      * left. eauto.
  - unfold TagViewSet_destroy.
    destruct (named_destroy _ _ _ _) as [r m] eqn:E. simpl.
    apply named_destroy_cases in E as [[Hs ->]|(-> & Hi & Hpk & ->)].
    + rewrite bool_decide_eq_false_2 by done. constructor.
    + rewrite bool_decide_eq_true_2 by done.
      apply step_tag_deleted; [|done].
      by apply (initial_unsafe TagViewSet DELETE); [|right|].
Qed.

(** Whatever the request, the state after it is the state before it or
    comes from it by one of the writes of [Step]. *)
Lemma serve_any_step (env : Env) (requester : option Z) (rq : AnyRequest) (st : State) :
  Step (env_now env) requester st (serve_any env requester rq st).2.
Proof.
  destruct rq as [rq|d|partial d| |partial d]; simpl.
  - destruct rq; simpl.
    + rewrite (proj1 (task_read_cases requester flt 0 st)). constructor.
    + rewrite (proj2 (task_read_cases requester flt pk st)). constructor.
    + destruct (TaskViewSet_create _ _ _ _ _) as [r st'] eqn:E.
      apply task_create_cases in E as [[-> _]|(u & v & t & -> & Hv & -> & _)];
        [constructor|].
      apply step_task_created; [done|]. by exists (env_today env), false, d.
    + destruct (TaskViewSet_update _ _ _ _ _ _ _ _) as [r st'] eqn:E.
      apply task_update_cases in E as [[-> _]|(u & T & v & -> & HT & Hu & _ & Hv & -> & _)];
        [constructor|].
      apply (step_task_updated _ _ _ u); try done. by exists (env_today env), partial, d.
    + destruct (TaskViewSet_destroy _ _ _ _) as [r st'] eqn:E.
      apply task_destroy_cases in E as [[-> _]|(u & T & -> & HT & Hu & _ & -> & _)];
        [constructor|].
      by apply (step_task_deleted _ _ _ u pk T).
    + apply (category_view_steps _ requester false 0 None st).
    + apply (category_view_steps _ requester false pk None st).
    + apply (category_view_steps _ requester false 0 data_name st).
    + apply (category_view_steps _ requester partial pk data_name st).
    + apply (category_view_steps _ requester false pk None st).
    + apply (tag_view_steps _ requester false 0 None st).
    + apply (tag_view_steps _ requester false pk None st).
    + apply (tag_view_steps _ requester false 0 data_name st).
    + apply (tag_view_steps _ requester partial pk data_name st).
    + apply (tag_view_steps _ requester false pk None st).
    + destruct (UserProfileView_partial_update _ _ _) as [r st'] eqn:E.
      apply profile_cases in E as [->|(pk & u & e & e' & -> & Hu & _ & _ & ->)];
        [constructor|].
      apply (step_user_changed _ _ _ pk u); try done; [by left|by right].
    + destruct (forgot_password _ _ _ _) as [r st'] eqn:E.
      apply forgot_password_cases in E as [->|(pk & u & m & Hu & Hm & _ & _ & _ & _ & ->)];
        [constructor|].
      by apply (step_mail_sent _ _ _ pk u).
    + destruct (reset_password _ _ _ _) as [r st'] eqn:E.
      apply reset_password_cases in E
        as [[_ ->]|(? & ? & ? & pw & pk & u & _ & _ & _ & _ & _ & _ & _ & Hu & _ & -> & _)];
        [constructor|].
      apply (step_user_changed _ _ _ pk u); try done; by left.
  - destruct (UserRegistrationView_create _ _ _ _) as [r st'] eqn:E.
    apply register_cases in E as [[_ ->]|(v & Hv & Hun & Hem & -> & _)]; [constructor|].
    apply step_user_registered; try done.
    + apply next_pk_fresh.
    + simpl. intros j x Hj Hx. destruct (va_email v) as [e|] eqn:He; [|done].
      exfalso. by apply (Hem e j x).
  - destruct (ChangePasswordView_update _ _ _ _ _) as [r st'] eqn:E.
    apply change_password_cases in E
      as [[_ ->]|(pk & u & old & new & -> & Hu & _ & _ & -> & _)]; [constructor|].
    apply (step_user_changed _ _ _ pk u); try done; by left.
  - rewrite profile_retrieve_same. constructor.
  - destruct (UserProfileView_update _ _ _ _) as [r st'] eqn:E.
    apply profile_update_cases in E as [[_ ->]|(pk & u & v & -> & Hu & Hv & -> & _)];
      [constructor|].
    apply (step_user_changed _ _ _ pk u); try done; [|by right].
    apply profile_is_valid_Return in Hv as (Hun & _).
    apply username_member_inr in Hun as [(_ & Hn & _)|(s & n & _ & Hn & _ & Hfree)];
      simpl; rewrite Hn; simpl; [by left|right; eauto].
Qed.
End Steps.

(** ** What no request does *)

Section Invariants.
Context `{Platform} `{Accounts}.

Lemma step_owner now requester (st st' : State) k (T T' : Task) :
  Step now requester st st' →
  tasks st !! k = Some T → tasks st' !! k = Some T' →
  user T' = user T ∧ created_at T' = created_at T.
Proof.
  intros Hstep HT HT'. destruct Hstep; simpl in HT'; simplify_eq; try done.
  - rewrite lookup_insert_ne in HT' by (intros <-; by rewrite next_pk_fresh in HT).
    by simplify_eq.
  - destruct (decide (pk = k)) as [->|Hne].
    + rewrite lookup_insert_eq in HT'. by simplify_eq.
    + rewrite lookup_insert_ne in HT' by done. by simplify_eq.
  - apply lookup_delete_Some in HT' as [_ HT']. by simplify_eq.
  - rewrite lookup_fmap, HT in HT'. by injection HT' as <-.
  - rewrite lookup_fmap, HT in HT'. by injection HT' as <-.
Qed.

Lemma step_foreign now requester (st st' : State) k (T : Task) :
  Step now requester st st' →
  tasks st !! k = Some T → requester ≠ Some (user T) →
  tasks st' !! k = Some T
  ∨ (∃ pk, is_Some (categories st !! pk) ∧ categories st' = delete pk (categories st)
         ∧ tasks st' !! k = Some (clear_category pk T))
  ∨ (∃ pk, is_Some (tag_table st !! pk) ∧ tag_table st' = delete pk (tag_table st)
         ∧ tasks st' !! k = Some (drop_tag pk T)).
Proof.
  intros Hstep HT Hreq. destruct Hstep; simpl; try by left.
  - left. rewrite lookup_insert_ne; [done|]. intros <-. by rewrite next_pk_fresh in HT.
  - left. rewrite lookup_insert_ne; [done|]. intros <-. simplify_eq.
  - left. rewrite lookup_delete_ne; [done|]. intros <-. simplify_eq.
  - right; left. exists pk. split; [done|]. split; [done|]. by rewrite lookup_fmap, HT.
  - right; right. exists pk. split; [done|]. split; [done|]. by rewrite lookup_fmap, HT.
Qed.

Lemma step_anonymous now (st st' : State) :
  Step now None st st' →
  tasks st' = tasks st ∧ categories st' = categories st ∧ tag_table st' = tag_table st.
Proof.
  intros Hstep. destruct Hstep; simpl; try done;
    match goal with Hs : is_Some None |- _ => by destruct Hs end.
Qed.

Lemma step_usernames now requester (st st' : State) :
  Step now requester st st' → unique_usernames st → unique_usernames st'.
Proof.
  intros Hstep Hu.
  destruct Hstep as [| | | | | | | | pk u u' Hpk Hun Hll Hem|u Hfresh Hnames Hemail Hll ? ?|];
    try done.
  - intros i j x y Hi Hj Hxy. simpl in Hi, Hj.
    destruct (decide (i = pk)) as [->|Hip], (decide (j = pk)) as [->|Hjp]; [done|..].
    + rewrite lookup_insert_eq in Hi. rewrite lookup_insert_ne in Hj by done.
      simplify_eq. symmetry. destruct Hun as [Hun|[_ Hfree]].
      * apply (Hu j pk y u); congruence.
      * by apply (Hfree j y).
    + rewrite lookup_insert_eq in Hj. rewrite lookup_insert_ne in Hi by done.
      simplify_eq. destruct Hun as [Hun|[_ Hfree]].
      * apply (Hu i pk x u); congruence.
      * by apply (Hfree i x).
    + rewrite lookup_insert_ne in Hi, Hj by done. eauto.
  - intros i j x y Hi Hj Hxy. simpl in Hi, Hj.
    destruct (decide (i = next_pk (users st))) as [->|Hip],
      (decide (j = next_pk (users st))) as [->|Hjp]; [done|..].
    + rewrite lookup_insert_eq in Hi. rewrite lookup_insert_ne in Hj by done.
      simplify_eq. exfalso. by apply (Hnames j y).
    + rewrite lookup_insert_eq in Hj. rewrite lookup_insert_ne in Hi by done.
      simplify_eq. exfalso. by apply (Hnames i x).
    + rewrite lookup_insert_ne in Hi, Hj by done. eauto.
Qed.

Lemma task_well_formed_tables (st st' : State) (t : Task) :
  task_well_formed st t →
  (∀ c, is_Some (categories st !! c) → is_Some (categories st' !! c)) →
  (∀ x, is_Some (tag_table st !! x) → is_Some (tag_table st' !! x)) →
  task_well_formed st' t.
Proof. intros (Hc & Ht & Hp & Hs) Hcs Hts. repeat split; eauto. Qed.

Lemma created_well_formed now u (v : TaskAttrs) (st : State) t :
  validated st v →
  tasks (TaskSerializer_create now u v st).2 !! next_pk (tasks st) = Some t →
  task_well_formed st t.
Proof.
  intros (Hc & Ht & Hp & Hs)%validated_refs. simpl. rewrite lookup_insert_eq.
  intros [= <-]. repeat split; simpl.
  - intros c. destruct (v_category v) as [x|] eqn:E; simpl; [|done]. intros ->. eauto.
  - intros x Hx%elem_of_list_to_set.
    destruct (v_tags v) as [l|] eqn:E; simpl in Hx; [eauto|by apply elem_of_nil in Hx].
  - destruct (v_priority v) as [p|] eqn:E; simpl; [eauto|]. unfold priority_choices. set_solver.
  - destruct (v_status v) as [s|] eqn:E; simpl; [eauto|]. unfold status_choices. set_solver.
Qed.

Lemma updated_well_formed now pk (T : Task) (v : TaskAttrs) (st : State) t :
  validated st v → task_well_formed st T →
  tasks (TaskSerializer_update now pk T v st) !! pk = Some t →
  task_well_formed st t.
Proof.
  intros (Hc & Ht & Hp & Hs)%validated_refs (Tc & Tt & Tp & Ts). simpl.
  rewrite lookup_insert_eq. intros [= <-]. repeat split; simpl.
  - intros c. destruct (v_category v) as [x|] eqn:E; simpl; [|eauto]. intros ->. eauto.
  - intros x. destruct (v_tags v) as [l|] eqn:E; [|eauto].
    intros Hx%elem_of_list_to_set. eauto.
  - destruct (v_priority v) as [p|] eqn:E; simpl; eauto.
  - destruct (v_status v) as [s|] eqn:E; simpl; eauto.
Qed.

Lemma step_well_formed now requester (st st' : State) :
  Step now requester st st' → tasks_well_formed st → tasks_well_formed st'.
Proof.
  intros Hstep Hwf.
  destruct Hstep as [|u v Hreq Hv|u pk T v Hreq HT Hu Hv|u pk T Hreq HT Hu
                    |pk n Hreq Hfree Hkey|pk Hreq Hpk|pk n Hreq Hfree Hkey|pk Hreq Hpk
                    | | |]; try done.
  - intros k t Hk. destruct (decide (k = next_pk (tasks st))) as [->|Hne].
    + apply (task_well_formed_tables st); [|done..].
      by apply (created_well_formed now u v st).
    + simpl in Hk. rewrite lookup_insert_ne in Hk by done.
      apply (task_well_formed_tables st); [by apply (Hwf k)|done..].
  - intros k t Hk. destruct (decide (k = pk)) as [->|Hne].
    + apply (task_well_formed_tables st); [|done..].
      apply (updated_well_formed now pk T v st); [done|by apply (Hwf pk)|done].
    + simpl in Hk. rewrite lookup_insert_ne in Hk by done.
      apply (task_well_formed_tables st); [by apply (Hwf k)|done..].
  - intros k t Hk. simpl in Hk. apply lookup_delete_Some in Hk as [_ Hk].
    apply (task_well_formed_tables st); [by apply (Hwf k)|done..].
  - intros k t Hk. simpl in Hk.
    apply (task_well_formed_tables st); [by apply (Hwf k)| |done].
    intros c Hc. simpl. destruct (decide (pk = c)) as [->|Hne].
    + rewrite lookup_insert_eq. eauto.
    + by rewrite lookup_insert_ne.
  - intros k t Hk. simpl in Hk. rewrite lookup_fmap in Hk.
    destruct (tasks st !! k) as [T|] eqn:HT; [|done]. injection Hk as <-.
    destruct (Hwf k T HT) as (Tc & Tt & Tp & Ts). repeat split; simpl; try done.
    intros c. case_bool_decide as Hcat; [done|]. intros Hc.
    rewrite lookup_delete_ne; [eauto|]. intros ->. done.
  - intros k t Hk. simpl in Hk.
    apply (task_well_formed_tables st); [by apply (Hwf k)|done|].
    intros x Hx. simpl. destruct (decide (pk = x)) as [->|Hne].
    + rewrite lookup_insert_eq. eauto.
    + by rewrite lookup_insert_ne.
  - intros k t Hk. simpl in Hk. rewrite lookup_fmap in Hk.
    destruct (tasks st !! k) as [T|] eqn:HT; [|done]. injection Hk as <-.
    destruct (Hwf k T HT) as (Tc & Tt & Tp & Ts). repeat split; simpl; try done.
    intros x [Hx Hne]%elem_of_difference.
    rewrite lookup_delete_ne; [eauto|]. intros ->. apply Hne. by apply elem_of_singleton.
Qed.
End Invariants.

(** ** Guarantees for every request *)

Section Guarantees.
Context `{Platform} `{Accounts}.

(** X1.  No request changes the owner or the creation time of a task: a
    task that is there before and after a request has the same [user]
    and the same [created_at]. *)
Theorem owner_never_changes (env : Env) (requester : option Z) (rq : AnyRequest)
    (st : State) (k : Z) (T T' : Task) :
  tasks st !! k = Some T →
  tasks (serve_any env requester rq st).2 !! k = Some T' →
  user T' = user T ∧ created_at T' = created_at T.
Proof.
  intros HT HT'.
  exact (step_owner _ _ _ _ k T T' (serve_any_step env requester rq st) HT HT').
Qed.

(** X2.  A request leaves the tasks of everybody but the requester as
    they are, with one exception: when the request deletes a category or
    a tag, the tasks of other users lose their reference to it, and
    nothing else. *)
Theorem other_users_tasks_kept (env : Env) (requester : option Z) (rq : AnyRequest)
    (st : State) (k : Z) (T : Task) :
  tasks st !! k = Some T → requester ≠ Some (user T) →
  let st' := (serve_any env requester rq st).2 in
  tasks st' !! k = Some T
  ∨ (∃ pk, is_Some (categories st !! pk) ∧ categories st' = delete pk (categories st)
         ∧ tasks st' !! k = Some (clear_category pk T))
  ∨ (∃ pk, is_Some (tag_table st !! pk) ∧ tag_table st' = delete pk (tag_table st)
         ∧ tasks st' !! k = Some (drop_tag pk T)).
Proof.
  intros HT Hreq st'.
  exact (step_foreign _ _ _ _ k T (serve_any_step env requester rq st) HT Hreq).
Qed.

(** X3.  If every task refers to a category and to tags that exist and
    has a priority and a status among the choices of the model, the same
    holds after any request. *)
Theorem tasks_stay_well_formed (env : Env) (requester : option Z) (rq : AnyRequest)
    (st : State) :
  tasks_well_formed st → tasks_well_formed (serve_any env requester rq st).2.
Proof. apply step_well_formed with (env_now env) requester. apply serve_any_step. Qed.

(** X4.  If no two accounts have the same username, the same holds after
    any request. *)
Theorem usernames_stay_unique (env : Env) (requester : option Z) (rq : AnyRequest)
    (st : State) :
  unique_usernames st → unique_usernames (serve_any env requester rq st).2.
Proof. apply step_usernames with (env_now env) requester. apply serve_any_step. Qed.

(** X5.  A request without credentials changes no task, no category and
    no tag, whatever it is. *)
Theorem anonymous_writes_nothing (env : Env) (rq : AnyRequest) (st : State) :
  tasks (serve_any env None rq st).2 = tasks st
  ∧ categories (serve_any env None rq st).2 = categories st
  ∧ tag_table (serve_any env None rq st).2 = tag_table st.
Proof. apply step_anonymous with (env_now env). apply serve_any_step. Qed.

(** X6.  A request with a safe method (the lists and the retrievals)
    leaves the state as it is, whoever sends it. *)
Theorem safe_methods_write_nothing (env : Env) (requester : option Z) (rq : Request)
    (st : State) :
  method_of rq ∈ SAFE_METHODS → (serve env requester rq st).2 = st.
Proof.
  intros Hsafe. destruct (unsafe_methods false) as (Hpost & Hdel & Hput).
  destruct (unsafe_methods true) as (_ & _ & Hpatch).
  destruct rq; simpl in Hsafe; unfold serve;
    try (by destruct Hpost); try (by destruct Hdel);
    try (destruct partial; [by destruct Hpatch|by destruct Hput]).
  - apply (task_read_cases requester flt 0 st).
  - apply task_read_cases.
  - unfold CategoryViewSet_list. destruct (named_list _ _ _) as [r m] eqn:E.
    pose proof (proj1 (named_read_cases CategoryViewSet requester 0 (categories st))) as Hm.
    rewrite E in Hm. simpl in *. subst. apply set_categories_same.
  - unfold CategoryViewSet_retrieve. destruct (named_retrieve _ _ _ _) as [r m] eqn:E.
    pose proof (proj2 (named_read_cases CategoryViewSet requester pk (categories st))) as Hm.
    rewrite E in Hm. simpl in *. subst. apply set_categories_same.
  - unfold TagViewSet_list. destruct (named_list _ _ _) as [r m] eqn:E.
    pose proof (proj1 (named_read_cases TagViewSet requester 0 (tag_table st))) as Hm.
    rewrite E in Hm. simpl in *. subst. apply set_tag_table_same.
  - unfold TagViewSet_retrieve. destruct (named_retrieve _ _ _ _) as [r m] eqn:E.
    pose proof (proj2 (named_read_cases TagViewSet requester pk (tag_table st))) as Hm.
    rewrite E in Hm. simpl in *. subst. apply set_tag_table_same.
Qed.
End Guarantees.

(** ** Tasks: lists, filters, round trips *)

Section TaskGuarantees.
Context `{Platform}.

Lemma get_object_missing (u : Z) flt pk (st : State) :
  tasks st !! pk = None → get_object u flt pk st = Raise NotFound.
Proof.
  intros Hnone. unfold get_object.
  destruct (filter_queryset _ _ !! pk) as [t|] eqn:Hq; [|done].
  apply queryset_lookup in Hq as (Ht & _). congruence.
Qed.

Lemma lookup_expr_true {A B} (test : B → A → bool) (param : option A) (column : option B) p :
  lookup_expr test param column = true → param = Some p →
  ∃ c, column = Some c ∧ test c p = true.
Proof. intros Hl ->. destruct column as [c|]; simpl in Hl; [eauto|done]. Qed.

Lemma text_param_Some (x : option string) (s : string) :
  x = Some s → strip s ≠ "" → text_param x = Some (strip s).
Proof. intros -> Hs. unfold text_param. simpl. by rewrite bool_decide_eq_false_2. Qed.

Lemma text_param_None (x : option string) :
  text_param x = None ↔ x = None ∨ ∃ s, x = Some s ∧ strip s = "".
Proof.
  unfold text_param. destruct x as [s|]; simpl; [|by split; [left|]].
  case_bool_decide as Hs; split; try done.
  - intros _. right. eauto.
  - intros [[=]|(s' & [= <-] & Hs')]. done.
Qed.

(** What a task that passes the filter looks like. *)
Lemma TaskFilter_matches_inv (flt : TaskFilter) (t : Task) :
  TaskFilter_matches flt t = true →
  (∀ s, f_title flt = Some s → strip s ≠ "" → icontains (title t) (strip s) = true)
  ∧ (∀ s, f_description flt = Some s → strip s ≠ "" →
       ∃ d, description t = Some d ∧ icontains d (strip s) = true)
  ∧ (∀ s, f_status flt = Some s → strip s ≠ "" → status t = strip s)
  ∧ (∀ p, f_priority flt = Some p → strip p ≠ "" → priority t = strip p)
  ∧ (∀ c, f_category flt = Some c → category t = Some c)
  ∧ (∀ d, f_due_date flt = Some d → due_date t = Some d)
  ∧ (∀ a, f_due_date_after flt = Some a → ∃ d, due_date t = Some d ∧ a ≤ d)
  ∧ (∀ b, f_due_date_before flt = Some b → ∃ d, due_date t = Some d ∧ d ≤ b).
Proof.
  unfold TaskFilter_matches. rewrite !andb_true_iff.
  intros (((((((H1 & H2) & H3) & H4) & H5) & H6) & H7) & H8). repeat split.
  - intros s Hs Hne. pose proof (text_param_Some _ _ Hs Hne) as Hp.
    by destruct (lookup_expr_true _ _ _ _ H1 Hp) as (c & [= <-] & ?).
  - intros s Hs Hne. pose proof (text_param_Some _ _ Hs Hne) as Hp.
    destruct (lookup_expr_true _ _ _ _ H2 Hp) as (c & ? & ?). eauto.
  - intros s Hs Hne. pose proof (text_param_Some _ _ Hs Hne) as Hp.
    destruct (lookup_expr_true _ _ _ _ H3 Hp) as (c & [= <-] & Hc).
    by apply String.eqb_eq in Hc.
  - intros s Hs Hne. pose proof (text_param_Some _ _ Hs Hne) as Hp.
    destruct (lookup_expr_true _ _ _ _ H4 Hp) as (c & [= <-] & Hc).
    by apply String.eqb_eq in Hc.
  - intros s Hs. destruct (lookup_expr_true _ _ _ s H5 Hs) as (c & -> & Hc).
    apply Z.eqb_eq in Hc. by subst.
  - intros s Hs. destruct (lookup_expr_true _ _ _ s H6 Hs) as (c & -> & Hc).
    apply Z.eqb_eq in Hc. by subst.
  - intros s Hs. destruct (lookup_expr_true _ _ _ s H7 Hs) as (c & -> & Hc).
    exists c. split; [done|]. apply Z.geb_le in Hc. lia.
  - intros s Hs. destruct (lookup_expr_true _ _ _ s H8 Hs) as (c & -> & Hc).
    exists c. split; [done|]. by apply Z.leb_le in Hc.
Qed.

Lemma task_list_cases (u : Z) (flt : TaskFilter) (st : State) :
  ∃ l, TaskViewSet_list (Some u) flt st = (mkResponse HTTP_200_OK (ManyTasks l), st)
     ∧ (∀ r, r ∈ l ↔ ∃ k T, tasks st !! k = Some T ∧ user T = u
                          ∧ TaskFilter_matches flt T = true
                          ∧ r = TaskSerializer_data st k T).
Proof.
  eexists. split.
  - unfold TaskViewSet_list. rewrite initial_authenticated. reflexivity.
  - intros r. rewrite list_elem_of_fmap. split.
    + intros [[k T] [-> Hin]]. apply elem_of_map_to_list, queryset_lookup in Hin.
      exists k, T. tauto.
    + intros (k & T & HT & Hu & Hf & ->). exists (k, T). split; [done|].
      apply elem_of_map_to_list, queryset_lookup. done.
Qed.

(** A parameter that was not given, or that is blank once it is
    stripped, filters nothing out. *)
Lemma TaskFilter_matches_blank (flt : TaskFilter) (t : Task) :
  (∀ s, f_title flt = Some s → strip s = "") →
  (∀ s, f_description flt = Some s → strip s = "") →
  (∀ s, f_status flt = Some s → strip s = "") →
  (∀ s, f_priority flt = Some s → strip s = "") →
  f_category flt = None → f_due_date flt = None →
  f_due_date_after flt = None → f_due_date_before flt = None →
  TaskFilter_matches flt t = true.
Proof.
  intros H1 H2 H3 H4 H5 H6 H7 H8. unfold TaskFilter_matches.
  assert (∀ x, (∀ s, x = Some s → strip s = "") → text_param x = None) as Hblank.
  { intros x Hx. apply text_param_None. destruct x as [s|]; [right|by left]. eauto. }
  by rewrite (Hblank _ H1), (Hblank _ H2), (Hblank _ H3), (Hblank _ H4), H5, H6, H7, H8.
Qed.

(** X7.  The list a user gets holds exactly the user's own tasks that pass
    the filter, each of them once.  A text parameter counts as it is
    after stripping, and a parameter that is blank then counts as not
    given: when every parameter is blank or missing, the list holds
    every task of the user. *)
Theorem task_list_exact (u : Z) (flt : TaskFilter) (st : State) :
  ∃ l, TaskViewSet_list (Some u) flt st = (mkResponse HTTP_200_OK (ManyTasks l), st)
     ∧ (∀ r, r ∈ l ↔ ∃ k T, tasks st !! k = Some T ∧ user T = u
                          ∧ TaskFilter_matches flt T = true
                          ∧ r = TaskSerializer_data st k T)
     ∧ NoDup (r_id <$> l)
     ∧ ((∀ s, f_title flt = Some s → strip s = "") →
        (∀ s, f_description flt = Some s → strip s = "") →
        (∀ s, f_status flt = Some s → strip s = "") →
        (∀ s, f_priority flt = Some s → strip s = "") →
        f_category flt = None → f_due_date flt = None →
        f_due_date_after flt = None → f_due_date_before flt = None →
        ∀ k T, tasks st !! k = Some T → user T = u → TaskSerializer_data st k T ∈ l).
Proof.
  eexists. split; [|split; [|split]].
  - unfold TaskViewSet_list. rewrite initial_authenticated. reflexivity.
  - intros r. rewrite list_elem_of_fmap. split.
    + intros [[k T] [-> Hin]]. apply elem_of_map_to_list, queryset_lookup in Hin.
      exists k, T. tauto.
    + intros (k & T & HT & Hu & Hf & ->). exists (k, T). split; [done|].
      apply elem_of_map_to_list, queryset_lookup. done.
  - rewrite <- list_fmap_compose.
    rewrite (list_fmap_ext _ fst (map_to_list (filter_queryset flt (get_queryset u st))))
      by (by intros ? []).
    apply NoDup_fst_map_to_list.
  - intros H1 H2 H3 H4 H5 H6 H7 H8 k T HT Hu. apply list_elem_of_fmap.
    exists (k, T). split; [done|]. apply elem_of_map_to_list, queryset_lookup.
    split; [done|]. split; [done|]. by apply TaskFilter_matches_blank.
Qed.

(** X8.  Every task in a filtered list meets every filter that was given
    and is not blank: status and priority are the ones asked for, once
    stripped; title and description contain the stripped text asked for;
    the due date is the one asked for and lies in the window given by
    [due_date_after] and [due_date_before]; and the stored task has the
    category asked for.  A task without a due date is left out by any
    filter on that column, and a task without a description by a filter
    on the description that is not blank. *)
Theorem filters_bound_results (u : Z) (flt : TaskFilter) (st : State)
    (l : list TaskRepr) (r : TaskRepr) :
  (TaskViewSet_list (Some u) flt st).1 = mkResponse HTTP_200_OK (ManyTasks l) →
  r ∈ l →
  (∀ s, f_title flt = Some s → strip s ≠ "" → icontains (r_title r) (strip s) = true)
  ∧ (∀ s, f_description flt = Some s → strip s ≠ "" →
       ∃ d, r_description r = Some d ∧ icontains d (strip s) = true)
  ∧ (∀ s, f_status flt = Some s → strip s ≠ "" → r_status r = strip s)
  ∧ (∀ p, f_priority flt = Some p → strip p ≠ "" → r_priority r = strip p)
  ∧ (∀ c, f_category flt = Some c →
       ∃ T, tasks st !! r_id r = Some T ∧ category T = Some c)
  ∧ (∀ d, f_due_date flt = Some d → r_due_date r = Some d)
  ∧ (∀ a, f_due_date_after flt = Some a → ∃ d, r_due_date r = Some d ∧ a ≤ d)
  ∧ (∀ b, f_due_date_before flt = Some b → ∃ d, r_due_date r = Some d ∧ d ≤ b).
Proof.
  intros Hl Hr.
  destruct (task_list_cases u flt st) as (l' & Hl' & Hall).
  rewrite Hl' in Hl. simpl in Hl. injection Hl as <-.
  apply Hall in Hr as (k & T & HT & _ & Hf & ->).
  apply TaskFilter_matches_inv in Hf as (F1 & F2 & F3 & F4 & F5 & F6 & F7 & F8).
  repeat split; simpl; eauto.
Qed.

(** X9.  A task that was created can be read back: after a 201, the
    creator retrieves, under the key of the answer, exactly what the
    answer showed, and finds it in the list; any other user gets 404 for
    that key. *)
Theorem create_then_retrieve (today now u : Z) (d : TaskInput) (st st' : State)
    (r : Response) :
  TaskViewSet_create today now (Some u) d st = (r, st') →
  status_code r = HTTP_201_CREATED →
  ∃ repr, data r = OneTask repr
        ∧ r_user repr = u
        ∧ TaskViewSet_retrieve (Some u) no_filter (r_id repr) st'
            = (mkResponse HTTP_200_OK (OneTask repr), st')
        ∧ (∃ l, TaskViewSet_list (Some u) no_filter st'
                  = (mkResponse HTTP_200_OK (ManyTasks l), st')
              ∧ repr ∈ l)
        ∧ (∀ B, B ≠ u →
             TaskViewSet_retrieve (Some B) no_filter (r_id repr) st'
               = (handle_exception NotFound, st')).
Proof.
  intros Hc Hs.
  apply task_create_cases in Hc as [[_ Hne]|(u' & v & t & [= <-] & Hv & -> & Ht & ->)];
    [done|].
  assert (user t = u) as Hu.
  { simpl in Ht. rewrite lookup_insert_eq in Ht. by injection Ht as <-. }
  eexists. split; [reflexivity|]. split; [done|]. simpl r_id. split; [|split].
  - unfold TaskViewSet_retrieve. rewrite initial_authenticated. simpl.
    by rewrite (get_object_own u _ t).
  - destruct (task_list_cases u no_filter (TaskSerializer_create now u v st).2)
      as (l & Hl & Hall).
    exists l. split; [done|]. apply Hall. eexists _, t. done.
  - intros B HB. unfold TaskViewSet_retrieve. rewrite initial_authenticated. simpl.
    rewrite (get_object_foreign B no_filter _ t); [done|done|congruence].
Qed.

(** X10.  The owner's delete removes the task and nothing else: the
    answer is 204, every other task stays as it is, and from then on
    retrieving or deleting the same key is answered with 404. *)
Theorem destroy_then_gone (u pk : Z) (T : Task) (st : State) :
  tasks st !! pk = Some T → user T = u →
  let st' := set_tasks (delete pk) st in
  TaskViewSet_destroy (Some u) no_filter pk st = (mkResponse HTTP_204_NO_CONTENT Empty, st')
  ∧ (∀ k, k ≠ pk → tasks st' !! k = tasks st !! k)
  ∧ TaskViewSet_retrieve (Some u) no_filter pk st' = (handle_exception NotFound, st')
  ∧ TaskViewSet_destroy (Some u) no_filter pk st' = (handle_exception NotFound, st').
Proof.
  intros HT Hu st'. split; [|split; [|split]].
  - unfold TaskViewSet_destroy. rewrite initial_authenticated. simpl.
    rewrite (get_object_own u pk T) by done. simpl.
    unfold perform_destroy. by rewrite bool_decide_eq_false_2 by (intros ?; done).
  - intros k Hk. simpl. by rewrite lookup_delete_ne.
  - unfold TaskViewSet_retrieve. rewrite initial_authenticated. simpl.
    rewrite get_object_missing; [done|]. simpl. apply lookup_delete_eq.
  - unfold TaskViewSet_destroy. rewrite initial_authenticated. simpl.
    rewrite get_object_missing; [done|]. simpl. apply lookup_delete_eq.
Qed.

Lemma title_field_inr partial (x r : option string) :
  title_field partial x = inr r →
  (x = None ∧ r = None ∧ partial = true)
  ∨ (∃ s s', x = Some s ∧ char_field (Some 200%nat) false s = Some s' ∧ r = Some s').
Proof.
  destruct x as [s|]; simpl.
  - unfold char_field_checked. destruct (char_field _ _ s) as [s'|] eqn:Hc; [|done].
    intros [= <-]. right. eauto.
  - destruct partial; [|done]. intros [= <-]. by left.
Qed.

(** X11.  An update that the owner gets through (200) writes the fields
    the body carries and keeps the others: a field that was not sent
    keeps its stored value, on PUT as on PATCH; a sent priority, status,
    due date, category or set of tags is stored as sent, a sent title
    and a sent description in their cleaned form, and a description sent
    as [null] is stored as NULL.  The owner stays, [updated_at] becomes
    the time of the request and no other task changes. *)
Theorem update_keeps_unsent_fields (today now u pk : Z) (partial : bool) (d : TaskInput)
    (T : Task) (st st' : State) (r : Response) :
  tasks st !! pk = Some T →
  TaskViewSet_update today now partial (Some u) no_filter pk d st = (r, st') →
  status_code r = HTTP_200_OK →
  ∃ T', tasks st' !! pk = Some T'
      ∧ user T' = user T ∧ user T = u ∧ created_at T' = created_at T ∧ updated_at T' = now
      ∧ match in_title d with
        | None => title T' = title T
        | Some s => char_field (Some 200%nat) false s = Some (title T')
        end
      ∧ match in_description d with
        | None => description T' = description T
        | Some None => description T' = None
        | Some (Some s) =>
            ∃ s', char_field None true s = Some s' ∧ description T' = Some s'
        end
      ∧ due_date T' = default (due_date T) (in_due_date d)
      ∧ priority T' = default (priority T) (in_priority d)
      ∧ status T' = default (status T) (in_status d)
      ∧ category T' = default (category T) (in_category d)
      ∧ tags T' = from_option list_to_set (tags T) (in_tags d)
      ∧ ∀ k, k ≠ pk → tasks st' !! k = tasks st !! k.
Proof.
  intros HT Hup Hs.
  apply task_update_cases in Hup
    as [[_ Hne]|(u' & T0 & v & [= <-] & HT0 & Hu & _ & Hv & -> & _)]; [done|].
  simplify_eq.
  apply is_valid_Return in Hv as (Hti & Hde & Hdu & Hpr & Hsa & Hca & Hta).
  eexists. split; [simpl; apply lookup_insert_eq|]. simpl.
  repeat split.
  - apply title_field_inr in Hti as [(-> & -> & _)|(s & s' & -> & Hc & ->)]; done.
  - apply optional_field_inr in Hde as [[-> ->]|(a & b & -> & Hc & ->)]; [done|].
    simpl. apply optional_field_inr in Hc as [[-> ->]|(s & s' & -> & Hc & ->)]; [done|].
    unfold char_field_checked in Hc.
    destruct (char_field None true s) as [c|]; [|done]. injection Hc as <-. eauto.
  - apply optional_field_inr in Hdu as [[-> ->]|(a & b & -> & Hc & ->)]; [done|].
    simpl. unfold validate_due_date in Hc. destruct a as [x|]; [|by injection Hc as <-].
    case_bool_decide; [done|]. by injection Hc as <-.
  - apply optional_field_inr in Hpr as [[-> ->]|(a & b & -> & Hc & ->)]; [done|].
    by apply choice_field_inr in Hc as [-> _].
  - apply optional_field_inr in Hsa as [[-> ->]|(a & b & -> & Hc & ->)]; [done|].
    by apply choice_field_inr in Hc as [-> _].
  - apply optional_field_inr in Hca as [[-> ->]|(a & b & -> & Hc & ->)]; [done|].
    simpl. apply optional_field_inr in Hc as [[-> ->]|(a' & b' & -> & Hc & ->)]; [done|].
    by apply related_field_inr in Hc as [-> _].
  - apply optional_field_inr in Hta as [[-> ->]|(a & b & -> & Hc & ->)]; [done|].
    by apply many_related_inr in Hc as [-> _].
  - intros k Hk. by rewrite lookup_insert_ne.
Qed.
End TaskGuarantees.

(** ** Accounts: registration and change of password *)

Section AccountGuarantees.
Context `{Platform} `{Accounts}.

(** X12.  A registration is answered with 400 and writes nothing, or with
    201 and adds exactly one account: under a key that was free, with the
    cleaned username of the body, which no account had, with the address
    of the body (or the empty address when none was sent), which no
    account had if one was sent, with the hash of the cleaned password
    and without a last login.  The answer shows username and address and
    nothing else. *)
Theorem registration_outcome (salt : string) (requester : option Z)
    (d : RegistrationInput) (st st' : State) (r : Response) :
  UserRegistrationView_create salt requester d st = (r, st') →
  (status_code r = HTTP_400_BAD_REQUEST ∧ st' = st)
  ∨ (status_code r = HTTP_201_CREATED
     ∧ ∃ pk u, users st !! pk = None
        ∧ st' = set_users (insert pk u) st
        ∧ (∃ s, reg_username d = Some s ∧ username_field s = Some (username u))
        ∧ match reg_email d with
          | Some e => email_field e = Some (email u)
          | None => email u = ""
          end
        ∧ (∃ s p, reg_password d = Some s ∧ char_field None false s = Some p
                ∧ password u = make_password salt p)
        ∧ last_login u = None
        ∧ (∀ j x, users st !! j = Some x → username x ≠ username u)
        ∧ (∀ j x, users st !! j = Some x → is_Some (reg_email d) → email x ≠ email u)
        ∧ data r = Dict [("username", username u); ("email", email u)]).
Proof.
  intros Hc. apply register_cases in Hc as [?|(v & Hv & Hun & Hem & -> & ->)]; [by left|].
  right. split; [done|].
  apply registration_is_valid_Return in Hv as ((s & Hs & Hf & _) & Hopt & (p & Hp & Hcf)).
  eexists _, _. split; [apply next_pk_fresh|]. split; [reflexivity|]. simpl.
  repeat split; eauto.
  - apply optional_field_inr in Hopt as [[-> ->]|(a & b & -> & Hc & ->)]; [done|].
    unfold email_checked in Hc. destruct (email_field a); by simplify_eq.
  - intros j x Hj [e He] Hx.
    apply optional_field_inr in Hopt as [[Hn _]|(a & b & _ & _ & Hb)]; [congruence|].
    rewrite Hb in *. simpl in Hx. by apply (Hem b j x).
Qed.

(** X13.  A registration under the username of an account is refused by
    the serializer, with a [ValidationError] on [username]; one under a
    free username and the address of an account is refused by the view,
    with its message on [email].  Either way the answer is 400 and nothing
    is written. *)
Theorem registration_refuses_duplicates (salt : string) (requester : option Z)
    (d : RegistrationInput) (st : State) (j : Z) (x : User) (s : string) :
  users st !! j = Some x →
  (reg_username d = Some s → username_field s = Some (username x) →
     ∃ errors, UserRegistrationView_create salt requester d st
                 = (handle_exception (ValidationError errors), st)
             ∧ ("username", "unique") ∈ errors)
  ∧ (reg_email d = Some s → email_field s = Some (email x) →
     ∀ v, UserRegistrationSerializer_is_valid d st = Return v →
       UserRegistrationView_create salt requester d st
         = (mkResponse HTTP_400_BAD_REQUEST (Dict [("email", email_exists_msg)]), st)).
Proof.
  intros Hj. split.
  - intros Hs Hf. unfold UserRegistrationView_create.
    assert (initial UserRegistrationView POST requester = Return ()) as -> by done. simpl.
    unfold UserRegistrationSerializer_is_valid. rewrite Hs. simpl.
    unfold username_checked. rewrite Hf.
    rewrite (objects_exists_true _ _ j x Hj) by apply String.eqb_refl. simpl.
    eexists. split; [reflexivity|]. left.
  - intros Hs Hf v Hv. unfold UserRegistrationView_create.
    assert (initial UserRegistrationView POST requester = Return ()) as -> by done. simpl.
    rewrite Hv. simpl.
    apply registration_is_valid_Return in Hv as ((? & _ & _ & ->) & Hopt & _).
    rewrite Hs in Hopt. simpl in Hopt. unfold email_checked in Hopt. rewrite Hf in Hopt.
    injection Hopt as <-. simpl.
    by rewrite (objects_exists_true _ _ j x Hj) by apply String.eqb_refl.
Qed.

(** X14.  A change of password is answered with 200 only for an
    authenticated user whose old password checks against the stored hash,
    and then the hash of the new password replaces the old hash of that
    user and nothing else changes; every other answer, the 400 for a
    wrong old password among them, leaves the state as it was. *)
Theorem change_password_outcome (salt : string) (partial : bool) (requester : option Z)
    (d : ChangePasswordInput) (st st' : State) (r : Response) :
  ChangePasswordView_update salt partial requester d st = (r, st') →
  ((status_code r ≠ HTTP_200_OK ∧ st' = st)
   ∨ (r = password_changed
      ∧ ∃ pk u s_old s_new old new,
          requester = Some pk ∧ users st !! pk = Some u
          ∧ in_old_password d = Some s_old ∧ char_field None false s_old = Some old
          ∧ in_new_password d = Some s_new ∧ char_field None false s_new = Some new
          ∧ check_password old (password u) = true
          ∧ st' = set_users
                    (insert pk (mkUser (username u) (email u) (make_password salt new)
                                  (last_login u) (first_name u) (last_name u))) st))
  ∧ (∀ pk u old new, requester = Some pk → users st !! pk = Some u →
       ChangePasswordSerializer_is_valid d = Return (old, new) →
       check_password old (password u) = false → r = wrong_old_password ∧ st' = st).
Proof.
  intros Hc. split.
  - apply change_password_cases in Hc
      as [?|(pk & u & old & new & -> & Hu & Hv & Hck & -> & ->)]; [by left|].
    right. split; [done|].
    unfold ChangePasswordSerializer_is_valid, char_field_checked in Hv.
    destruct (in_old_password d) as [s_old|]; simpl in Hv; [|done].
    destruct (char_field None false s_old) as [o|] eqn:Ho; simpl in Hv; [|done].
    destruct (in_new_password d) as [s_new|]; simpl in Hv; [|done].
    destruct (char_field None false s_new) as [n|] eqn:Hn; simpl in Hv; [|done].
    simplify_eq. exists pk, u, s_old, s_new, old, new. done.
  - intros pk u old new -> Hu Hv Hck. unfold ChangePasswordView_update in Hc.
    rewrite initial_authenticated, Hv in Hc. simpl in Hc. rewrite Hu, Hck in Hc.
    simpl in Hc. by simplify_eq.
Qed.

(** X15.  A reset token that checks for a user no longer does once the
    user has changed the password through [ChangePasswordView] and the
    stored hash is another: with a MAC free of collisions, any later
    [reset_password] with that token is answered with the invalid link
    and writes nothing. *)
Theorem change_password_spends_tokens (now : N) (salt uidb64 token : string)
    (partial : bool) (d : ChangePasswordInput) (st st' : State) (r : Response)
    (pk : Z) (u u' : User) :
  Inj (=) (=) salted_hmac →
  uidb64 ≠ "" → resolve_user uidb64 st = Some (pk, u) →
  check_token now pk u token = true →
  ChangePasswordView_update salt partial (Some pk) d st = (r, st') →
  status_code r = HTTP_200_OK →
  users st' !! pk = Some u' → password u' ≠ password u →
  ∀ now2 salt2 pw2, pw2 ≠ "" →
    reset_password now2 salt2 (reset_body uidb64 token pw2 pw2) st' = (invalid_link, st').
Proof.
  intros Hinj Hne Hres Hck Hc Hs Hu' Hpw now2 salt2 pw2 Hpw2.
  apply change_password_cases in Hc
    as [[Hbad _]|(pk0 & u0 & old & new & [= <-] & Hu & _ & _ & -> & _)]; [done|].
  pose proof Hres as Hres0.
  apply resolve_user_Some in Hres as (raw & uid & Hd & Hf & Hp & Hu0). simplify_eq.
  simpl in Hu'. rewrite lookup_insert_eq in Hu'. simplify_eq.
  assert (token ≠ "") as Htok.
  { intros ->. unfold check_token in Hck. by rewrite String.eqb_refl in Hck. }
  destruct (reset_body_members uidb64 token pw2 pw2) as (data & -> & H1 & H2 & H3 & H4).
  rewrite (reset_password_link now2 salt2 data _ uidb64 token pw2) by done.
  assert (resolve_user uidb64 (set_users (insert pk (set_password salt new u)) st)
          = Some (pk, set_password salt new u)) as ->.
  { apply resolve_user_Some. exists raw, uid. repeat split; try done.
    simpl. apply lookup_insert_eq. }
  by rewrite (check_token_other_password now now2 pk u).
Qed.
End AccountGuarantees.

(** ** The password reset flow, end to end *)

Section PasswordGuarantees.
Context `{Platform}.

Lemma make_token_not_empty now pk (u : User) : make_token now pk u ≠ "".
Proof.
  unfold make_token, make_token_with_timestamp.
  by destruct (int_to_base36 now).
Qed.

Lemma check_token_fresh now now' pk (u : User) :
  token_timestamp (make_token now pk u) = Some now →
  check_token now' pk u (make_token now pk u)
    = negb (Z.of_N now' - Z.of_N now >? PASSWORD_RESET_TIMEOUT).
Proof.
  intros Hts. unfold check_token.
  rewrite (proj2 (String.eqb_neq _ _) (make_token_not_empty now pk u)), Hts.
  unfold make_token at 1. by rewrite String.eqb_refl.
Qed.

(** X16.  The link that [forgot_password] mails works.  For a user who
    alone has a non-empty address, with a mail transport that takes the
    message and a codec that brings the identifier and the time stamp of
    the link back, the message in the outbox carries an identifier and a
    token with which [reset_password] sets the new password and answers
    200 as long as the age of the link is within [PASSWORD_RESET_TIMEOUT];
    after that it answers with the invalid link and writes nothing. *)
Theorem mailed_link_resets_password (t t' : N) (salt address pw : string) (st : State)
    (pk : Z) (u : User) :
  let uidb64 := urlsafe_base64_encode (pretty pk) in
  let token := make_token t pk u in
  let st1 := (forgot_password t None (forgot_body address) st).2 in
  address ≠ "" → at_most_one_user address st →
  users st !! pk = Some u → email u = address →
  uidb64 ≠ "" → resolve_user uidb64 st = Some (pk, u) →
  token_timestamp token = Some t →
  pw ≠ "" →
  outbox st1 = (outbox st ++ [reset_mail address (reset_url uidb64 token)])%list
  ∧ (Z.of_N t' - Z.of_N t ≤ PASSWORD_RESET_TIMEOUT →
       reset_password t' salt (reset_body uidb64 token pw pw) st1
         = (password_reset_done (access_token_for pk),
            set_users (insert pk (set_password salt pw u)) st1))
  ∧ (PASSWORD_RESET_TIMEOUT < Z.of_N t' - Z.of_N t →
       reset_password t' salt (reset_body uidb64 token pw pw) st1 = (invalid_link, st1)).
Proof.
  intros uidb64 token st1 Hadr Hone Hu He Hne Hres Hts Hpw.
  assert (st1 = set_outbox (λ box, box ++ [reset_mail address (reset_url uidb64 token)])%list st)
    as Hst1.
  { subst st1. unfold forgot_password, forgot_body.
    rewrite get_forgot_body, bool_of_string by done. cbn [negb value_str].
    rewrite (objects_get_unique _ _ pk u); [done|done|by apply String.eqb_eq|].
    intros i j x y Hi Hj Hx%String.eqb_eq Hy%String.eqb_eq. eauto. }
  assert (resolve_user uidb64 st1 = Some (pk, u)) as Hres1.
  { rewrite Hst1. apply resolve_user_Some.
    apply resolve_user_Some in Hres as (raw & uid & ? & ? & ? & ?). exists raw, uid. done. }
  split; [by rewrite Hst1|].
  destruct (reset_body_members uidb64 token pw pw) as (data & -> & H1 & H2 & H3 & H4).
  rewrite (reset_password_link t' salt data st1 uidb64 token pw H1 H2 H3 H4 Hne
             (make_token_not_empty t pk u) Hpw).
  rewrite Hres1. unfold token. rewrite (check_token_fresh t t' pk u Hts).
  split; intros Hage.
  - assert ((Z.of_N t' - Z.of_N t >? PASSWORD_RESET_TIMEOUT) = false) as ->; [|done].
    rewrite Z.gtb_ltb. by apply Z.ltb_ge.
  - assert ((Z.of_N t' - Z.of_N t >? PASSWORD_RESET_TIMEOUT) = true) as ->; [|done].
    rewrite Z.gtb_ltb. by apply Z.ltb_lt.
Qed.

(** X17.  [forgot_password] writes to no table and sends at most one
    message: either the outbox is as before, or just one message was
    added, from [DEFAULT_FROM_EMAIL], to the address of the body (the
    text of its member [email], whatever JSON value that is) and to
    nobody else, and that address is the address of an account. *)
Theorem forgot_password_only_mails (now : N) (mail_error : option string) (body : Body)
    (st : State) :
  let st' := (forgot_password now mail_error body st).2 in
  users st' = users st ∧ tasks st' = tasks st
  ∧ categories st' = categories st ∧ tag_table st' = tag_table st
  ∧ (outbox st' = outbox st
     ∨ ∃ data pk u m, body = JsonObject data
          ∧ value_str (get "email" data) = email u
          ∧ users st !! pk = Some u
          ∧ mail_to m = [email u] ∧ mail_from m = DEFAULT_FROM_EMAIL
          ∧ outbox st' = (outbox st ++ [m])%list).
Proof.
  intros st'. subst st'. unfold forgot_password.
  destruct body as [|?|?|data]; [by repeat split; try left..|].
  destruct (bool_of (get "email" data)) eqn:Ht; cbn [negb]; [|by repeat split; try left].
  cbv zeta.
  destruct (objects_get _ (users st)) as [pk u| |n] eqn:Hg; [|by repeat split; try left..].
  apply objects_get_Got in Hg as [Hu He%String.eqb_eq].
  destruct mail_error; [by repeat split; try left|]. cbn [snd].
  repeat split. right. eexists data, pk, u, _. rewrite <- He. repeat split; done.
Qed.

(** X18.  A [reset_password] that answers 200 has written one thing: the
    hash of the new password of the body, into the row of the user the
    link names.  Username, address and last login of that user, every
    other user, the tasks, the categories, the tags and the outbox are as
    before, and the token of the answer is the one issued for that user. *)
Theorem reset_password_success_frame (now : N) (salt : string) (body : Body)
    (st st' : State) (r : Response) :
  reset_password now salt body st = (r, st') →
  status_code r = HTTP_200_OK →
  ∃ data pk u pw,
    body = JsonObject data ∧ dict_get "new_password" data = Some pw
    ∧ users st !! pk = Some u
    ∧ users st' = <[pk := mkUser (username u) (email u) (make_password salt pw)
                             (last_login u) (first_name u) (last_name u)]> (users st)
    ∧ (∀ j, j ≠ pk → users st' !! j = users st !! j)
    ∧ tasks st' = tasks st ∧ categories st' = categories st
    ∧ tag_table st' = tag_table st ∧ outbox st' = outbox st
    ∧ issued_token r = Some (access_token_for pk).
Proof.
  intros Hr Hs.
  apply reset_password_cases in Hr
    as [[Hbad _]|(data & uidb64 & token & pw & pk & u & -> & _ & _ & Hpw & _ & _ & _
                  & Hu & _ & -> & ->)]; [done|].
  exists data, pk, u, pw. repeat split; try done.
  intros j Hj. simpl. by rewrite lookup_insert_ne.
Qed.
End PasswordGuarantees.

(** ** Categories and tags: creating and renaming *)

Section NamedGuarantees.
Context `{Platform} {A : Type} `{NamedModel A}.

Lemma initial_read (view : View) (anyone : option Z) :
  view = CategoryViewSet ∨ view = TagViewSet → initial view GET anyone = Return ().
Proof. by intros [-> | ->]. Qed.

(** X19.  Renaming a category or a tag, in a table with unique names: to
    the name it has, the request passes (the row is left out of the
    uniqueness check) and stores that name again; to the name of another
    row, it is refused with a [ValidationError] on [name] and nothing
    changes.  A PATCH without a name passes and keeps the name, a PUT
    without a name is refused. *)
Theorem rename_edge_cases (view : View) (u : Z) (partial : bool) (pk : Z) (s : string)
    (m : gmap Z A) (row : A) :
  unique_names m → m !! pk = Some row →
  (char_field (Some name_max_length) false s = Some (name row) →
     named_update view partial (Some u) pk (Some s) m
       = (mkResponse HTTP_200_OK (OneNamed pk (name row)), <[pk := with_name (name row)]> m))
  ∧ (∀ j other, j ≠ pk → m !! j = Some other →
       char_field (Some name_max_length) false s = Some (name other) →
       named_update view partial (Some u) pk (Some s) m
         = (handle_exception (ValidationError [("name", "unique")]), m))
  ∧ named_update view true (Some u) pk None m
      = (mkResponse HTTP_200_OK (OneNamed pk (name row)), <[pk := with_name (name row)]> m)
  ∧ named_update view false (Some u) pk None m
      = (handle_exception (ValidationError [("name", "required")]), m).
Proof.
  intros Huniq Hrow.
  assert (name_taken (Some pk) (name row) m = false) as Hfree.
  { apply name_taken_false. intros j other Hj Hn. f_equal. symmetry. eauto. }
  split; [|split; [|split]].
  - intros Hs. unfold named_update, lookup_or_404, named_is_valid, objects_save.
    rewrite initial_authenticated. simpl. rewrite Hrow. simpl. rewrite Hs, Hfree. simpl.
    by rewrite Hfree.
  - intros j other Hj Hother Hs.
    unfold named_update, lookup_or_404, named_is_valid.
    rewrite initial_authenticated. simpl. rewrite Hrow. simpl. rewrite Hs.
    assert (name_taken (Some pk) (name other) m = true) as ->; [|done].
    apply name_taken_true. exists j, other. repeat split; [done|congruence].
  - unfold named_update, lookup_or_404, named_is_valid, objects_save.
    rewrite initial_authenticated. simpl. rewrite Hrow. simpl. by rewrite Hfree.
  - unfold named_update, lookup_or_404, named_is_valid.
    rewrite initial_authenticated. simpl. by rewrite Hrow.
Qed.

(** X20.  A category or a tag that was created (201) is a new row under a
    key that was free, with the cleaned name of the body, which no row
    had; only an authenticated request gets that far.  From then on
    anyone, with or without credentials, retrieves that name under the
    key of the answer, and the same body sent again is refused with a
    [ValidationError] on [name]. *)
Theorem created_name_readable (view : View) (requester : option Z)
    (data_name : option string) (m m' : gmap Z A) (r : Response) :
  view = CategoryViewSet ∨ view = TagViewSet →
  named_create view requester data_name m = (r, m') →
  status_code r = HTTP_201_CREATED →
  ∃ pk n s,
    is_Some requester
    ∧ data_name = Some s ∧ char_field (Some name_max_length) false s = Some n
    ∧ m !! pk = None ∧ m' = <[pk := with_name n]> m
    ∧ r = mkResponse HTTP_201_CREATED (OneNamed pk n)
    ∧ (∀ j row, m !! j = Some row → name row ≠ n)
    ∧ (∀ anyone, named_retrieve view anyone pk m'
                   = (mkResponse HTTP_200_OK (OneNamed pk n), m'))
    ∧ named_create view requester data_name m'
        = (handle_exception (ValidationError [("name", "unique")]), m').
Proof.
  intros Hview Hc Hs.
  apply named_create_cases in Hc as [[_ Hne]|(s & n & Hi & -> & Hcf & Ht & -> & ->)];
    [done|].
  exists (next_pk m), n, s.
  assert (is_Some requester) as Hreq.
  { apply (initial_unsafe view POST); [done|done|]. apply (unsafe_methods false). }
  split; [done|]. split; [done|]. split; [done|]. split; [apply next_pk_fresh|].
  split; [done|]. split; [done|]. split; [|split].
  - intros j row Hj Hn.
    pose proof (proj1 (name_taken_false None n m) Ht j row Hj Hn). done.
  - intros anyone. unfold named_retrieve, lookup_or_404.
    rewrite (initial_read view anyone Hview). simpl. rewrite lookup_insert_eq. simpl.
    by rewrite name_with_name.
  - unfold named_create, named_is_valid. rewrite Hi. simpl. rewrite Hcf.
    assert (name_taken None n (<[next_pk m := with_name n]> m) = true) as ->; [|done].
    apply name_taken_true. exists (next_pk m), (with_name n).
    split; [apply lookup_insert_eq|]. split; [apply name_with_name|done].
Qed.
End NamedGuarantees.

(** ** More about the task views, the taxonomy and the profile *)

Section FurtherGuarantees.
Context `{Platform}.

Lemma check_token_other_email now now' pk (u u' : User) token :
  Inj (=) (=) salted_hmac →
  check_token now pk u token = true →
  password u' = password u → last_login u' = last_login u → email u' ≠ email u →
  check_token now' pk u' token = false.
Proof.
  intros Hinj (ts & Hts & Htok)%check_token_true Hpw Hll Hem.
  unfold check_token. destruct (String.eqb token ""); [done|]. rewrite Hts.
  destruct (String.eqb (make_token_with_timestamp pk u' ts) token) eqn:He; [|done].
  exfalso. apply String.eqb_eq in He. rewrite Htok in He.
  unfold make_token_with_timestamp in He.
  apply String.app_inj in He. injection He as He. apply Hinj in He.
  unfold make_hash_value in He. rewrite Hll, Hpw in He.
  by do 4 apply String.app_inj in He.
Qed.

Lemma many_related_inl {A} (table : gmap Z A) (l : list Z) (e : string) :
  many (related_field table) l = inl e → e = "does_not_exist".
Proof.
  induction l as [|a l IH]; simpl; [done|].
  unfold related_field at 1. case_bool_decide.
  - destruct (many (related_field table) l) as [e'|bs]; [|done].
    intros [= <-]. by apply IH.
  - by intros [= <-].
Qed.

Lemma many_related_missing {A} (table : gmap Z A) (l : list Z) (t : Z) :
  t ∈ l → table !! t = None → many (related_field table) l = inl "does_not_exist".
Proof.
  intros Hin Hnone.
  destruct (many (related_field table) l) as [e|l'] eqn:Hm.
  - by rewrite (many_related_inl _ _ _ Hm).
  - apply many_related_inr in Hm as [_ Hall]. apply Hall in Hin as [? ?]. congruence.
Qed.

Lemma omap_length_total {A B} (f : A → option B) (l : list A) :
  (∀ x, x ∈ l → is_Some (f x)) → length (omap f l) = length l.
Proof.
  induction l as [|a l IH]; intros Hall; simpl; [done|].
  destruct (Hall a) as [b Hb]; [left|]. rewrite Hb. simpl. f_equal.
  apply IH. intros x Hx. apply Hall. by right.
Qed.

(** X21.  A change of the address in the profile answers 200, writes the
    new address to the account of the requester and to nothing else, and
    spends the reset tokens of that account: with a MAC free of
    collisions, a token that checked before is answered with the invalid
    link afterwards. *)
Theorem email_change_spends_tokens (now : N) (uidb64 token e e' : string)
    (st : State) (pk : Z) (u : User) :
  Inj (=) (=) salted_hmac →
  uidb64 ≠ "" → resolve_user uidb64 st = Some (pk, u) →
  check_token now pk u token = true →
  email_field e = Some e' → e' ≠ email u →
  let u' := mkUser (username u) e' (password u) (last_login u)
              (first_name u) (last_name u) in
  let out := UserProfileView_partial_update (Some pk) (Some e) st in
  out.1 = mkResponse HTTP_200_OK (UserSerializer_data pk u')
  ∧ out.2 = set_users (insert pk u') st
  ∧ ∀ now2 salt2 pw2, pw2 ≠ "" →
      reset_password now2 salt2 (reset_body uidb64 token pw2 pw2) out.2
        = (invalid_link, out.2).
Proof.
  intros Hinj Hne Hres Hck He Hem u' out.
  pose proof Hres as Hres0.
  apply resolve_user_Some in Hres0 as (raw & uid & Hd & Hf & Hp & Hu).
  assert (out = (mkResponse HTTP_200_OK (UserSerializer_data pk u'),
                 set_users (insert pk u') st)) as Hout.
  { unfold out, UserProfileView_partial_update.
    rewrite initial_authenticated. simpl. rewrite Hu, He. done. }
  rewrite Hout. split; [done|]. split; [done|].
  intros now2 salt2 pw2 Hpw2. cbn [fst snd].
  assert (token ≠ "") as Htok.
  { intros ->. unfold check_token in Hck. by rewrite String.eqb_refl in Hck. }
  destruct (reset_body_members uidb64 token pw2 pw2) as (data & -> & H1 & H2 & H3 & H4).
  rewrite (reset_password_link now2 salt2 data _ uidb64 token pw2) by done.
  assert (resolve_user uidb64 (set_users (insert pk u') st) = Some (pk, u')) as ->.
  { apply resolve_user_Some. exists raw, uid. repeat split; try done.
    simpl. apply lookup_insert_eq. }
  by rewrite (check_token_other_email now now2 pk u u').
Qed.

(** X22.  The owner checks of [perform_update] and [perform_destroy]
    never fire: the row [get_object] hands them is always a task of the
    requester, so no update and no delete of a task is answered with
    403 Forbidden. *)
Theorem task_views_never_forbid (today now : Z) (partial : bool)
    (requester : option Z) (flt : TaskFilter) (pk : Z) (d : TaskInput) (st : State) :
  (∀ u instance v, get_object u flt pk st = Return instance →
     user instance = u
     ∧ perform_update now u pk instance v st
         = Return (TaskSerializer_update now pk instance v st)
     ∧ perform_destroy u pk instance st = Return (set_tasks (delete pk) st))
  ∧ status_code (TaskViewSet_update today now partial requester flt pk d st).1
      ≠ HTTP_403_FORBIDDEN
  ∧ status_code (TaskViewSet_destroy requester flt pk st).1 ≠ HTTP_403_FORBIDDEN.
Proof.
  assert (∀ u instance, get_object u flt pk st = Return instance → user instance = u)
    as Hown.
  { intros u instance. unfold get_object.
    destruct (filter_queryset flt (get_queryset u st) !! pk) as [T|] eqn:HT; [|done].
    intros [= <-]. by apply queryset_lookup in HT as (_ & ? & _). }
  split; [|split].
  - intros u instance v Hg. pose proof (Hown _ _ Hg) as Hu.
    unfold perform_update, perform_destroy.
    rewrite !bool_decide_eq_false_2 by (intros Hne; by apply Hne). done.
  - unfold TaskViewSet_update.
    unfold initial. destruct (check_permissions TaskViewSet _ requester); simpl; [|done].
    destruct requester as [u|]; simpl; [|done].
    destruct (get_object u flt pk st) as [T|e] eqn:Hg; simpl.
    + destruct (TaskSerializer_is_valid today st partial d) as [v|e] eqn:Hv; simpl.
      2:{ unfold TaskSerializer_is_valid in Hv. cbv zeta in Hv.
          by case_match; simplify_eq. }
      unfold perform_update. rewrite bool_decide_eq_false_2; [done|].
      intros Hne. apply Hne. by apply Hown.
    + unfold get_object in Hg. by case_match; simplify_eq.
  - unfold TaskViewSet_destroy.
    unfold initial. destruct (check_permissions TaskViewSet _ requester); simpl; [|done].
    destruct requester as [u|]; simpl; [|done].
    destruct (get_object u flt pk st) as [T|e] eqn:Hg; simpl.
    + unfold perform_destroy. rewrite bool_decide_eq_false_2; [done|].
      intros Hne. apply Hne. by apply Hown.
    + unfold get_object in Hg. by case_match; simplify_eq.
Qed.

(** X23.  Deleting a category (204) needs credentials and an existing
    category, removes that one row, and sets the category of every task
    that had it to NULL, whoever owns the task; the other tasks and the
    other fields stay as they are, and afterwards no task refers to the
    deleted category. *)
Theorem category_delete_sets_null (requester : option Z) (pk : Z) (st st' : State)
    (r : Response) :
  CategoryViewSet_destroy requester pk st = (r, st') →
  status_code r = HTTP_204_NO_CONTENT →
  is_Some requester ∧ is_Some (categories st !! pk)
  ∧ categories st' = delete pk (categories st)
  ∧ tag_table st' = tag_table st ∧ users st' = users st ∧ outbox st' = outbox st
  ∧ (∀ k, tasks st !! k = None → tasks st' !! k = None)
  ∧ (∀ k T, tasks st !! k = Some T →
       ∃ T', tasks st' !! k = Some T'
           ∧ category T' = (if bool_decide (category T = Some pk) then None else category T)
           ∧ (category T ≠ Some pk → T' = T)
           ∧ user T' = user T ∧ title T' = title T ∧ description T' = description T
           ∧ due_date T' = due_date T ∧ priority T' = priority T ∧ status T' = status T
           ∧ tags T' = tags T ∧ created_at T' = created_at T
           ∧ updated_at T' = updated_at T)
  ∧ (∀ k T', tasks st' !! k = Some T' → category T' ≠ Some pk).
Proof.
  unfold CategoryViewSet_destroy.
  destruct (named_destroy CategoryViewSet requester pk (categories st)) as [r0 m] eqn:Hd.
  intros [= <- <-] Hs.
  apply named_destroy_cases in Hd as [[Hne _]|(-> & Hi & Hsome & ->)]; [done|].
  rewrite bool_decide_eq_true_2 by done. simpl.
  split.
  { apply (initial_unsafe CategoryViewSet DELETE); [done|by left|].
    apply (unsafe_methods false). }
  do 5 (split; [done|]). split; [|split].
  - intros k Hk. by rewrite lookup_fmap, Hk.
  - intros k T HT. exists (clear_category pk T). rewrite lookup_fmap, HT. simpl.
    split; [done|]. split; [done|]. split; [|done].
    intros Hne. unfold clear_category. rewrite bool_decide_eq_false_2 by done.
    by destruct T.
  - intros k T'. rewrite lookup_fmap. destruct (tasks st !! k) as [T|]; [|done].
    simpl. intros [= <-]. simpl. case_bool_decide; congruence.
Qed.

(** X24.  Deleting a tag (204) needs credentials and an existing tag,
    removes that one row, and takes the tag out of the tag set of every
    task, whoever owns the task; tasks that did not carry the tag stay as
    they are, and afterwards no task carries it. *)
Theorem tag_delete_drops_tag (requester : option Z) (pk : Z) (st st' : State)
    (r : Response) :
  TagViewSet_destroy requester pk st = (r, st') →
  status_code r = HTTP_204_NO_CONTENT →
  is_Some requester ∧ is_Some (tag_table st !! pk)
  ∧ tag_table st' = delete pk (tag_table st)
  ∧ categories st' = categories st ∧ users st' = users st ∧ outbox st' = outbox st
  ∧ (∀ k, tasks st !! k = None → tasks st' !! k = None)
  ∧ (∀ k T, tasks st !! k = Some T →
       ∃ T', tasks st' !! k = Some T'
           ∧ (∀ x, x ∈ tags T' ↔ x ∈ tags T ∧ x ≠ pk)
           ∧ (pk ∉ tags T → T' = T)
           ∧ user T' = user T ∧ title T' = title T ∧ description T' = description T
           ∧ due_date T' = due_date T ∧ priority T' = priority T ∧ status T' = status T
           ∧ category T' = category T ∧ created_at T' = created_at T
           ∧ updated_at T' = updated_at T)
  ∧ (∀ k T', tasks st' !! k = Some T' → pk ∉ tags T').
Proof.
  unfold TagViewSet_destroy.
  destruct (named_destroy TagViewSet requester pk (tag_table st)) as [r0 m] eqn:Hd.
  intros [= <- <-] Hs.
  apply named_destroy_cases in Hd as [[Hne _]|(-> & Hi & Hsome & ->)]; [done|].
  rewrite bool_decide_eq_true_2 by done. simpl.
  split.
  { apply (initial_unsafe TagViewSet DELETE); [done|by right|].
    apply (unsafe_methods false). }
  do 5 (split; [done|]). split; [|split].
  - intros k Hk. by rewrite lookup_fmap, Hk.
  - intros k T HT. exists (drop_tag pk T). rewrite lookup_fmap, HT. simpl.
    split; [done|]. split; [|split; [|done]].
    + intros x. rewrite elem_of_difference, elem_of_singleton. done.
    + intros Hnot. unfold drop_tag.
      assert (tags T ∖ {[pk]} = tags T) as ->.
      { apply set_eq. intros x. rewrite elem_of_difference, elem_of_singleton.
        split; [by intros [? _]|]. intros Hx. split; [done|]. by intros ->. }
      by destruct T.
  - intros k T'. rewrite lookup_fmap. destruct (tasks st !! k) as [T|]; [|done].
    simpl. intros [= <-]. simpl. rewrite elem_of_difference, elem_of_singleton.
    by intros [_ Hn].
Qed.

(** X25.  In a state whose tasks refer to tags and categories that
    exist, the representation of a task names every one of its tags: the
    list [tags_names] is as long as the tag set, it holds exactly the
    names of the tags of the task, and [category_name] is the name of the
    category of the task, or NULL when it has none. *)
Theorem names_in_representation (st : State) (k : Z) (T : Task) :
  tasks_well_formed st → tasks st !! k = Some T →
  let r := TaskSerializer_data st k T in
  length (r_tags_names r) = size (tags T)
  ∧ (∀ n, n ∈ r_tags_names r ↔
          ∃ pk tag, pk ∈ tags T ∧ tag_table st !! pk = Some tag ∧ tag_name tag = n)
  ∧ match category T with
    | Some c => ∃ row, categories st !! c = Some row
                     ∧ r_category_name r = Some (category_name row)
    | None => r_category_name r = None
    end.
Proof.
  intros Hwf HT r. destruct (Hwf k T HT) as (Hcat & Htags & _ & _).
  split; [|split].
  - simpl. unfold get_tags_names. rewrite omap_length_total; [done|].
    intros x Hx%elem_of_elements. destruct (Htags x Hx) as [tag ->]. by eexists.
  - intros n. simpl. unfold get_tags_names. rewrite list_elem_of_omap. split.
    + intros (pk & Hpk%elem_of_elements & Hn).
      destruct (tag_table st !! pk) as [tag|] eqn:Ht; [|done].
      injection Hn as <-. eauto.
    + intros (pk & tag & Hpk & Ht & <-). exists pk. rewrite elem_of_elements, Ht. done.
  - destruct (category T) as [c|] eqn:Hc; simpl; rewrite Hc; [|done].
    destruct (Hcat c eq_refl) as [row Hrow]. exists row. simpl. by rewrite Hrow.
Qed.

(** X26.  A new task whose body has no title, a priority or a status
    outside the choices of the model, or a category or a tag that does
    not exist, is answered with 400 and written nowhere; the answer
    names every such field, not only the first. *)
Theorem bad_task_input_rejected (today now u : Z) (d : TaskInput) (st : State) :
  in_title d = None
  ∨ (∃ p, in_priority d = Some p ∧ p ∉ priority_choices)
  ∨ (∃ s, in_status d = Some s ∧ s ∉ status_choices)
  ∨ (∃ c, in_category d = Some (Some c) ∧ categories st !! c = None)
  ∨ (∃ l t, in_tags d = Some l ∧ t ∈ l ∧ tag_table st !! t = None) →
  ∃ errors,
    TaskViewSet_create today now (Some u) d st
      = (mkResponse HTTP_400_BAD_REQUEST (Failure (ValidationError errors)), st)
    ∧ (in_title d = None → ("title", "required") ∈ errors)
    ∧ (∀ p, in_priority d = Some p → p ∉ priority_choices →
         ("priority", "invalid_choice") ∈ errors)
    ∧ (∀ s, in_status d = Some s → s ∉ status_choices →
         ("status", "invalid_choice") ∈ errors)
    ∧ (∀ c, in_category d = Some (Some c) → categories st !! c = None →
         ("category", "does_not_exist") ∈ errors)
    ∧ (∀ l t, in_tags d = Some l → t ∈ l → tag_table st !! t = None →
         ("tags", "does_not_exist") ∈ errors).
Proof.
  intros Hbad. exists (task_errors today st false d).
  assert (in_title d = None → ("title", "required") ∈ task_errors today st false d) as H1.
  { intros Ht. unfold task_errors. rewrite Ht. simpl. left. }
  assert (∀ p, in_priority d = Some p → p ∉ priority_choices →
            ("priority", "invalid_choice") ∈ task_errors today st false d) as H2.
  { intros p Hp Hn. unfold task_errors. do 3 (apply elem_of_app; right).
    apply elem_of_app; left. rewrite Hp. simpl. unfold choice_field.
    rewrite bool_decide_eq_false_2 by done. left. }
  assert (∀ s, in_status d = Some s → s ∉ status_choices →
            ("status", "invalid_choice") ∈ task_errors today st false d) as H3.
  { intros s Hs Hn. unfold task_errors. do 4 (apply elem_of_app; right).
    apply elem_of_app; left. rewrite Hs. simpl. unfold choice_field.
    rewrite bool_decide_eq_false_2 by done. left. }
  assert (∀ c, in_category d = Some (Some c) → categories st !! c = None →
            ("category", "does_not_exist") ∈ task_errors today st false d) as H4.
  { intros c Hc Hn. unfold task_errors. do 5 (apply elem_of_app; right).
    apply elem_of_app; left. rewrite Hc. simpl. unfold related_field.
    rewrite bool_decide_eq_false_2; [left|]. rewrite Hn. by intros [? ?]. }
  assert (∀ l t, in_tags d = Some l → t ∈ l → tag_table st !! t = None →
            ("tags", "does_not_exist") ∈ task_errors today st false d) as H5.
  { intros l t Hl Hin Hn. unfold task_errors. do 6 (apply elem_of_app; right).
    rewrite Hl. simpl. rewrite (many_related_missing _ l t Hin Hn). left. }
  split; [|done].
  unfold TaskViewSet_create. rewrite initial_authenticated. simpl.
  rewrite is_valid_Raise; [done|].
  intros Hnil. rewrite Hnil in H1, H2, H3, H4, H5.
  destruct Hbad as [Ht|[(p & Hp & Hn)|[(s & Hs & Hn)|[(c & Hc & Hn)|(l & t & Hl & Hin & Hn)]]]].
  - by apply H1, elem_of_nil in Ht.
  - by apply (H2 p Hp), elem_of_nil in Hn.
  - by apply (H3 s Hs), elem_of_nil in Hn.
  - by apply (H4 c Hc), elem_of_nil in Hn.
  - by apply (H5 l t Hl Hin), elem_of_nil in Hn.
Qed.
End FurtherGuarantees.

(** ** More of the views at work *)

Lemma unique_usernames_NoDup (st : State) :
  NoDup ((λ kv, username kv.2) <$> map_to_list (users st)) → unique_usernames st.
Proof.
  intros Hnd i j x y Hi Hj Hxy.
  apply elem_of_map_to_list, list_elem_of_lookup in Hi as [a Ha].
  apply elem_of_map_to_list, list_elem_of_lookup in Hj as [b Hb].
  assert (a = b) as ->.
  { apply (NoDup_lookup _ a b (username x) Hnd).
    - by rewrite list_lookup_fmap, Ha.
    - rewrite list_lookup_fmap, Hb. simpl. by rewrite Hxy. }
  congruence.
Qed.

Section MoreRuns.
#[local] Existing Instance Run.platform.
#[local] Existing Instance RunMore.accounts.
Import Run RunMore.

Lemma st0_well_formed : tasks_well_formed st0.
Proof.
  intros pk t Hpk. simpl in Hpk.
  apply lookup_insert_Some in Hpk as [[<- <-]|[_ Hpk]];
    [|apply lookup_singleton_Some in Hpk as [<- <-]].
  - repeat split; simpl.
    + intros c [= <-]. by eexists.
    + intros x ->%elem_of_singleton. by eexists.
    + compute_done.
    + compute_done.
  - repeat split; simpl; [done| |compute_done..].
    intros x Hx. by apply not_elem_of_empty in Hx.
Qed.

Lemma owner_never_changes_witness :
  user (mkTask 1 "Updated Task" None None "medium" "pending" (Some 1) {[1]} 10 50) = user groceries
  ∧ created_at (mkTask 1 "Updated Task" None None "medium" "pending" (Some 1) {[1]} 10 50)
    = created_at groceries.
Proof.
  apply (owner_never_changes env0 (Some 1) (Api (TaskUpdate true no_filter 1 retitle)) st0 1).
  - reflexivity.
  - reflexivity.
Defined.

(** Bob deletes the category "Home": Alice's task loses its category and
    keeps everything else. *)
Lemma other_users_tasks_kept_witness :
  let st' := (serve_any env0 (Some 2) (Api (CategoryDestroy 1)) st0).2 in
  tasks st' !! 1 = Some groceries
  ∨ (∃ pk, is_Some (categories st0 !! pk) ∧ categories st' = delete pk (categories st0)
         ∧ tasks st' !! 1 = Some (clear_category pk groceries))
  ∨ (∃ pk, is_Some (tag_table st0 !! pk) ∧ tag_table st' = delete pk (tag_table st0)
         ∧ tasks st' !! 1 = Some (drop_tag pk groceries)).
Proof.
  apply (other_users_tasks_kept env0 (Some 2) (Api (CategoryDestroy 1)) st0 1 groceries).
  - reflexivity.
  - vm_compute. discriminate.
Defined.

Lemma tasks_stay_well_formed_witness :
  tasks_well_formed (serve_any env0 (Some 2) (Api (CategoryDestroy 1)) st0).2.
Proof. apply tasks_stay_well_formed. exact st0_well_formed. Defined.

Lemma usernames_stay_unique_witness :
  unique_usernames
    (serve_any env0 (Some 1) (ProfileUpdate false rename_alice) st0).2.
Proof.
  apply usernames_stay_unique. apply unique_usernames_NoDup. compute_done.
Defined.

(** The profile view at work.  Alice takes a new username and a new
    first name with a PUT; Bob's username she cannot take, and a PUT
    without a username is refused; a registration under a username that
    is in use is refused (400) and leaves the accounts as they are. *)
Example test_profile_view :
  UserProfileView_update false (Some 1) rename_alice st0
    = (mkResponse HTTP_200_OK
         (Dict [("id", "1"); ("username", "alicia"); ("email", "alice@example.com");
                ("first_name", "Alicia"); ("last_name", "Liddell")]),
       set_users (insert 1 (mkUser "alicia" "alice@example.com" (password alice) None
                              "Alicia" "Liddell")) st0)
  ∧ UserProfileView_update true (Some 1) (mkProfileInput (Some "bob") None None None) st0
    = (handle_exception (ValidationError [("username", "unique")]), st0)
  ∧ UserProfileView_update true (Some 1) (mkProfileInput (Some "alice") None None None) st0
    = (mkResponse HTTP_200_OK (UserSerializer_data 1 alice),
       set_users (insert 1 alice) st0)
  ∧ UserProfileView_update false (Some 1) (mkProfileInput None None (Some "Al") None) st0
    = (handle_exception (ValidationError [("username", "required")]), st0)
  ∧ UserProfileView_update false None rename_alice st0
    = (handle_exception NotAuthenticated, st0)
  ∧ UserProfileView_retrieve (Some 2) st0
    = (mkResponse HTTP_200_OK (UserSerializer_data 2 bob), st0)
  ∧ (serve_any env0 None
       (Register (mkRegistrationInput (Some "alice") (Some "a@example.com") (Some "pw")))
       st0).2 = st0.
Proof. repeat split; reflexivity. Qed.

Lemma safe_methods_write_nothing_witness : (serve env0 None CategoryList st0).2 = st0.
Proof. apply safe_methods_write_nothing. simpl. left. Defined.

Lemma filters_bound_results_witness :
  let r := TaskSerializer_data st_rent 3 rent in
  (∀ s, f_title search = Some s → strip s ≠ "" → icontains (r_title r) (strip s) = true)
  ∧ (∀ s, f_description search = Some s → strip s ≠ "" →
       ∃ d, r_description r = Some d ∧ icontains d (strip s) = true)
  ∧ (∀ s, f_status search = Some s → strip s ≠ "" → r_status r = strip s)
  ∧ (∀ p, f_priority search = Some p → strip p ≠ "" → r_priority r = strip p)
  ∧ (∀ c, f_category search = Some c →
       ∃ T, tasks st_rent !! r_id r = Some T ∧ category T = Some c)
  ∧ (∀ d, f_due_date search = Some d → r_due_date r = Some d)
  ∧ (∀ a, f_due_date_after search = Some a → ∃ d, r_due_date r = Some d ∧ a ≤ d)
  ∧ (∀ b, f_due_date_before search = Some b → ∃ d, r_due_date r = Some d ∧ d ≤ b).
Proof.
  intros r.
  apply (filters_bound_results 1 search st_rent [r] r).
  - reflexivity.
  - left.
Defined.

Lemma create_then_retrieve_witness :
  let out := TaskViewSet_create 100 50 (Some 1) (new_task (Some 101)) st0 in
  ∃ repr, data out.1 = OneTask repr
        ∧ r_user repr = 1
        ∧ TaskViewSet_retrieve (Some 1) no_filter (r_id repr) out.2
            = (mkResponse HTTP_200_OK (OneTask repr), out.2)
        ∧ (∃ l, TaskViewSet_list (Some 1) no_filter out.2
                  = (mkResponse HTTP_200_OK (ManyTasks l), out.2)
              ∧ repr ∈ l)
        ∧ (∀ B, B ≠ 1 →
             TaskViewSet_retrieve (Some B) no_filter (r_id repr) out.2
               = (handle_exception NotFound, out.2)).
Proof.
  intros out.
  apply (create_then_retrieve 100 50 1 (new_task (Some 101)) st0 out.2 out.1).
  - reflexivity.
  - reflexivity.
Defined.

Lemma destroy_then_gone_witness :
  let st' := set_tasks (delete 1) st0 in
  TaskViewSet_destroy (Some 1) no_filter 1 st0 = (mkResponse HTTP_204_NO_CONTENT Empty, st')
  ∧ (∀ k, k ≠ 1 → tasks st' !! k = tasks st0 !! k)
  ∧ TaskViewSet_retrieve (Some 1) no_filter 1 st' = (handle_exception NotFound, st')
  ∧ TaskViewSet_destroy (Some 1) no_filter 1 st' = (handle_exception NotFound, st').
Proof.
  apply (destroy_then_gone 1 1 groceries st0).
  - reflexivity.
  - reflexivity.
Defined.

Lemma update_keeps_unsent_fields_witness :
  let out := TaskViewSet_update 100 50 true (Some 1) no_filter 1 describe st0 in
  ∃ T', tasks out.2 !! 1 = Some T'
      ∧ user T' = user groceries ∧ user groceries = 1
      ∧ created_at T' = created_at groceries ∧ updated_at T' = 50
      ∧ match in_title describe with
        | None => title T' = title groceries
        | Some s => char_field (Some 200%nat) false s = Some (title T')
        end
      ∧ match in_description describe with
        | None => description T' = description groceries
        | Some None => description T' = None
        | Some (Some s) =>
            ∃ s', char_field None true s = Some s' ∧ description T' = Some s'
        end
      ∧ due_date T' = default (due_date groceries) (in_due_date describe)
      ∧ priority T' = default (priority groceries) (in_priority describe)
      ∧ status T' = default (status groceries) (in_status describe)
      ∧ category T' = default (category groceries) (in_category describe)
      ∧ tags T' = from_option list_to_set (tags groceries) (in_tags describe)
      ∧ ∀ k, k ≠ 1 → tasks out.2 !! k = tasks st0 !! k.
Proof.
  intros out.
  apply (update_keeps_unsent_fields 100 50 1 1 true describe groceries st0 out.2 out.1).
  - reflexivity.
  - reflexivity.
  - reflexivity.
Defined.

Lemma registration_outcome_witness :
  let out := UserRegistrationView_create "s5" None dave st0 in
  (status_code out.1 = HTTP_400_BAD_REQUEST ∧ out.2 = st0)
  ∨ (status_code out.1 = HTTP_201_CREATED
     ∧ ∃ pk u, users st0 !! pk = None
        ∧ out.2 = set_users (insert pk u) st0
        ∧ (∃ s, reg_username dave = Some s ∧ username_field s = Some (username u))
        ∧ match reg_email dave with
          | Some e => email_field e = Some (email u)
          | None => email u = ""
          end
        ∧ (∃ s p, reg_password dave = Some s ∧ char_field None false s = Some p
                ∧ password u = make_password "s5" p)
        ∧ last_login u = None
        ∧ (∀ j x, users st0 !! j = Some x → username x ≠ username u)
        ∧ (∀ j x, users st0 !! j = Some x → is_Some (reg_email dave) → email x ≠ email u)
        ∧ data out.1 = Dict [("username", username u); ("email", email u)]).
Proof.
  intros out. apply (registration_outcome "s5" None dave st0 out.2 out.1). reflexivity.
Defined.

Lemma registration_refuses_duplicates_witness :
  (∃ errors,
     UserRegistrationView_create "s5" None
       (mkRegistrationInput (Some "alice") (Some "a2@example.com") (Some "pw")) st0
       = (handle_exception (ValidationError errors), st0)
     ∧ ("username", "unique") ∈ errors)
  ∧ UserRegistrationView_create "s5" None
      (mkRegistrationInput (Some "alice2") (Some "alice@example.com") (Some "pw")) st0
      = (mkResponse HTTP_400_BAD_REQUEST (Dict [("email", email_exists_msg)]), st0).
Proof.
  split.
  - apply (registration_refuses_duplicates "s5" None _ st0 1 alice "alice"); reflexivity.
  - eapply (registration_refuses_duplicates "s5" None _ st0 1 alice "alice@example.com");
      reflexivity.
Defined.

Lemma change_password_outcome_witness :
  let d := mkChangePasswordInput (Some "oldpassword") (Some "brandnew") in
  let out := ChangePasswordView_update "s7" false (Some 1) d st0 in
  ((status_code out.1 ≠ HTTP_200_OK ∧ out.2 = st0)
   ∨ (out.1 = password_changed
      ∧ ∃ pk u s_old s_new old new,
          Some 1 = Some pk ∧ users st0 !! pk = Some u
          ∧ in_old_password d = Some s_old ∧ char_field None false s_old = Some old
          ∧ in_new_password d = Some s_new ∧ char_field None false s_new = Some new
          ∧ check_password old (password u) = true
          ∧ out.2 = set_users
                      (insert pk (mkUser (username u) (email u) (make_password "s7" new)
                                    (last_login u) (first_name u) (last_name u))) st0))
  ∧ (∀ pk u old new, Some 1 = Some pk → users st0 !! pk = Some u →
       ChangePasswordSerializer_is_valid d = Return (old, new) →
       check_password old (password u) = false → out.1 = wrong_old_password ∧ out.2 = st0).
Proof.
  intros d out. apply (change_password_outcome "s7" false (Some 1) d st0 out.2 out.1).
  reflexivity.
Defined.

Lemma change_password_spends_tokens_witness :
  let d := mkChangePasswordInput (Some "oldpassword") (Some "brandnew") in
  let out := ChangePasswordView_update "s7" false (Some 1) d st0 in
  reset_password 2000 "s8" (reset_body "MQ" alice_token "again" "again") out.2
    = (invalid_link, out.2).
Proof.
  intros d out.
  apply (change_password_spends_tokens 1500 "s7" "MQ" alice_token false d st0 out.2 out.1
           1 alice (set_password "s7" "brandnew" alice)).
  - intros x y Hxy. exact Hxy.
  - discriminate.
  - reflexivity.
  - reflexivity.
  - reflexivity.
  - reflexivity.
  - reflexivity.
  - vm_compute. discriminate.
  - discriminate.
Defined.

Lemma mailed_link_resets_password_witness :
  let st1 := (forgot_password 1000 None (forgot_body "alice@example.com") st0).2 in
  let uidb64 := urlsafe_base64_encode (pretty 1) in
  let token := make_token 1000 1 alice in
  outbox st1 = (outbox st0 ++ [reset_mail "alice@example.com" (reset_url uidb64 token)])%list
  ∧ (Z.of_N 1500 - Z.of_N 1000 ≤ PASSWORD_RESET_TIMEOUT →
       reset_password 1500 "s9" (reset_body uidb64 token "newpw" "newpw") st1
         = (password_reset_done (access_token_for 1),
            set_users (insert 1 (set_password "s9" "newpw" alice)) st1))
  ∧ (PASSWORD_RESET_TIMEOUT < Z.of_N 1500 - Z.of_N 1000 →
       reset_password 1500 "s9" (reset_body uidb64 token "newpw" "newpw") st1
         = (invalid_link, st1)).
Proof.
  apply (mailed_link_resets_password 1000 1500 "s9" "alice@example.com" "newpw" st0 1 alice).
  - discriminate.
  - apply at_most_one_user_count. vm_compute. lia.
  - reflexivity.
  - reflexivity.
  - discriminate.
  - reflexivity.
  - reflexivity.
  - discriminate.
Defined.

Lemma reset_password_success_frame_witness :
  let body := reset_body "MQ" alice_token "newpw" "newpw" in
  let out := reset_password 1500 "s9" body st0 in
  ∃ data pk u pw,
    body = JsonObject data ∧ dict_get "new_password" data = Some pw
    ∧ users st0 !! pk = Some u
    ∧ users out.2 = <[pk := mkUser (username u) (email u) (make_password "s9" pw)
                              (last_login u) (first_name u) (last_name u)]> (users st0)
    ∧ (∀ j, j ≠ pk → users out.2 !! j = users st0 !! j)
    ∧ tasks out.2 = tasks st0 ∧ categories out.2 = categories st0
    ∧ tag_table out.2 = tag_table st0 ∧ outbox out.2 = outbox st0
    ∧ issued_token out.1 = Some (access_token_for pk).
Proof.
  intros body out. apply (reset_password_success_frame 1500 "s9" body st0 out.2 out.1).
  - reflexivity.
  - reflexivity.
Defined.

Lemma rename_edge_cases_witness :
  (char_field (Some 100%nat) false "Home" = Some "Home" →
     named_update CategoryViewSet false (Some 2) 1 (Some "Home") home_and_work
       = (mkResponse HTTP_200_OK (OneNamed 1 "Home"), <[1 := mkCategory "Home"]> home_and_work))
  ∧ (∀ j other, j ≠ 1 → home_and_work !! j = Some other →
       char_field (Some 100%nat) false "Work" = Some (category_name other) →
       named_update CategoryViewSet false (Some 2) 1 (Some "Work") home_and_work
         = (handle_exception (ValidationError [("name", "unique")]), home_and_work))
  ∧ named_update CategoryViewSet true (Some 2) 1 None home_and_work
      = (mkResponse HTTP_200_OK (OneNamed 1 "Home"), <[1 := mkCategory "Home"]> home_and_work)
  ∧ named_update CategoryViewSet false (Some 2) 1 None home_and_work
      = (handle_exception (ValidationError [("name", "required")]), home_and_work).
Proof.
  assert (unique_names home_and_work) as Hu by (apply unique_names_NoDup; compute_done).
  split; [|split].
  - apply (rename_edge_cases CategoryViewSet 2 false 1 "Home" home_and_work
             (mkCategory "Home") Hu eq_refl).
  - apply (rename_edge_cases CategoryViewSet 2 false 1 "Work" home_and_work
             (mkCategory "Home") Hu eq_refl).
  - apply (rename_edge_cases CategoryViewSet 2 false 1 "Home" home_and_work
             (mkCategory "Home") Hu eq_refl).
Defined.

Lemma created_name_readable_witness :
  let out := named_create CategoryViewSet (Some 1) (Some "Work") (categories st0) in
  ∃ pk n s,
    is_Some (Some 1)
    ∧ Some "Work" = Some s ∧ char_field (Some (name_max_length (A:=Category))) false s = Some n
    ∧ categories st0 !! pk = None ∧ out.2 = <[pk := with_name n]> (categories st0)
    ∧ out.1 = mkResponse HTTP_201_CREATED (OneNamed pk n)
    ∧ (∀ j (row : Category), categories st0 !! j = Some row → name row ≠ n)
    ∧ (∀ anyone, named_retrieve CategoryViewSet anyone pk out.2
                   = (mkResponse HTTP_200_OK (OneNamed pk n), out.2))
    ∧ named_create CategoryViewSet (Some 1) (Some "Work") out.2
        = (handle_exception (ValidationError [("name", "unique")]), out.2).
Proof.
  intros out.
  apply (created_name_readable CategoryViewSet (Some 1) (Some "Work") (categories st0)
           out.2 out.1).
  - by left.
  - reflexivity.
  - reflexivity.
Defined.

(** What the samples show in particular: Bob's delete of the category
    takes it out of Alice's task; Dave's account gets the key 3 and the
    hash of his password; a second registration under the same name is
    refused. *)
Example test_more_views :
  tasks (serve_any env0 (Some 2) (Api (CategoryDestroy 1)) st0).2 !! 1
    = Some (mkTask 1 "Buy groceries" None None "medium" "pending" None {[1]} 10 10)
  ∧ (let out := UserRegistrationView_create "s5" None dave st0 in
     out.1 = mkResponse HTTP_201_CREATED
               (Dict [("username", "newuser"); ("email", "new@example.com")])
     ∧ users out.2 !! 3
         = Some (mkUser "newuser" "new@example.com" "plain$s5$securepassword" None "" "")
     ∧ status_code (UserRegistrationView_create "s6" None dave out.2).1
         = HTTP_400_BAD_REQUEST)
  ∧ (ChangePasswordView_update "s7" false (Some 1)
       (mkChangePasswordInput (Some "wrongpassword") (Some "newpassword")) st0
       = (wrong_old_password, st0))
  ∧ (ChangePasswordView_update "s7" false None
       (mkChangePasswordInput (Some "oldpassword") (Some "newpassword")) st0
       = (handle_exception NotAuthenticated, st0)).
Proof. repeat split; reflexivity. Qed.

Lemma email_change_spends_tokens_witness :
  let u' := mkUser (username alice) "alice@work.example" (password alice)
              (last_login alice) (first_name alice) (last_name alice) in
  let out := UserProfileView_partial_update (Some 1) (Some "alice@work.example") st0 in
  out.1 = mkResponse HTTP_200_OK (UserSerializer_data 1 u')
  ∧ out.2 = set_users (insert 1 u') st0
  ∧ ∀ now2 salt2 pw2, pw2 ≠ "" →
      reset_password now2 salt2 (reset_body "MQ" alice_token pw2 pw2) out.2
        = (invalid_link, out.2).
Proof.
  apply (email_change_spends_tokens 1500 "MQ" alice_token "alice@work.example"
           "alice@work.example" st0 1 alice).
  - intros x y Hxy. exact Hxy.
  - discriminate.
  - reflexivity.
  - reflexivity.
  - reflexivity.
  - discriminate.
Defined.

Lemma category_delete_sets_null_witness :
  let out := CategoryViewSet_destroy (Some 2) 1 st0 in
  is_Some (Some 2) ∧ is_Some (categories st0 !! 1)
  ∧ categories out.2 = delete 1 (categories st0)
  ∧ tag_table out.2 = tag_table st0 ∧ users out.2 = users st0 ∧ outbox out.2 = outbox st0
  ∧ (∀ k, tasks st0 !! k = None → tasks out.2 !! k = None)
  ∧ (∀ k T, tasks st0 !! k = Some T →
       ∃ T', tasks out.2 !! k = Some T'
           ∧ category T' = (if bool_decide (category T = Some 1) then None else category T)
           ∧ (category T ≠ Some 1 → T' = T)
           ∧ user T' = user T ∧ title T' = title T ∧ description T' = description T
           ∧ due_date T' = due_date T ∧ priority T' = priority T ∧ status T' = status T
           ∧ tags T' = tags T ∧ created_at T' = created_at T
           ∧ updated_at T' = updated_at T)
  ∧ (∀ k T', tasks out.2 !! k = Some T' → category T' ≠ Some 1).
Proof.
  intros out. apply (category_delete_sets_null (Some 2) 1 st0 out.2 out.1).
  - reflexivity.
  - reflexivity.
Defined.

Lemma tag_delete_drops_tag_witness :
  let out := TagViewSet_destroy (Some 2) 1 st0 in
  is_Some (Some 2) ∧ is_Some (tag_table st0 !! 1)
  ∧ tag_table out.2 = delete 1 (tag_table st0)
  ∧ categories out.2 = categories st0 ∧ users out.2 = users st0 ∧ outbox out.2 = outbox st0
  ∧ (∀ k, tasks st0 !! k = None → tasks out.2 !! k = None)
  ∧ (∀ k T, tasks st0 !! k = Some T →
       ∃ T', tasks out.2 !! k = Some T'
           ∧ (∀ x, x ∈ tags T' ↔ x ∈ tags T ∧ x ≠ 1)
           ∧ (1 ∉ tags T → T' = T)
           ∧ user T' = user T ∧ title T' = title T ∧ description T' = description T
           ∧ due_date T' = due_date T ∧ priority T' = priority T ∧ status T' = status T
           ∧ category T' = category T ∧ created_at T' = created_at T
           ∧ updated_at T' = updated_at T)
  ∧ (∀ k T', tasks out.2 !! k = Some T' → 1 ∉ tags T').
Proof.
  intros out. apply (tag_delete_drops_tag (Some 2) 1 st0 out.2 out.1).
  - reflexivity.
  - reflexivity.
Defined.

Lemma names_in_representation_witness :
  let r := TaskSerializer_data st0 1 groceries in
  length (r_tags_names r) = size (tags groceries)
  ∧ (∀ n, n ∈ r_tags_names r ↔
          ∃ pk tag, pk ∈ tags groceries ∧ tag_table st0 !! pk = Some tag ∧ tag_name tag = n)
  ∧ match category groceries with
    | Some c => ∃ row, categories st0 !! c = Some row
                     ∧ r_category_name r = Some (category_name row)
    | None => r_category_name r = None
    end.
Proof.
  apply (names_in_representation st0 1 groceries).
  - exact st0_well_formed.
  - reflexivity.
Defined.

Lemma bad_task_input_rejected_witness :
  let d := mkTaskInput None None None None (Some "urgent") None (Some (Some 9)) None in
  ∃ errors,
    TaskViewSet_create 100 50 (Some 1) d st0
      = (mkResponse HTTP_400_BAD_REQUEST (Failure (ValidationError errors)), st0)
    ∧ (in_title d = None → ("title", "required") ∈ errors)
    ∧ (∀ p, in_priority d = Some p → p ∉ priority_choices →
         ("priority", "invalid_choice") ∈ errors)
    ∧ (∀ s, in_status d = Some s → s ∉ status_choices →
         ("status", "invalid_choice") ∈ errors)
    ∧ (∀ c, in_category d = Some (Some c) → categories st0 !! c = None →
         ("category", "does_not_exist") ∈ errors)
    ∧ (∀ l t, in_tags d = Some l → t ∈ l → tag_table st0 !! t = None →
         ("tags", "does_not_exist") ∈ errors).
Proof.
  intros d. apply (bad_task_input_rejected 100 50 1 d st0). left. reflexivity.
Defined.

(** A body that is wrong in three fields is told about all three. *)
Example test_task_errors :
  TaskViewSet_create 100 50 (Some 1)
    (mkTaskInput None None None None (Some "urgent") None (Some (Some 9)) None) st0
  = (mkResponse HTTP_400_BAD_REQUEST
       (Failure (ValidationError [("title", "required"); ("priority", "invalid_choice");
                                  ("category", "does_not_exist")])),
     st0).
Proof. reflexivity. Qed.

(** Members that are not strings.  A number for an address is looked up
    as its text and, with no account under that text, gets the answer
    every unknown address gets; [0], [false], [null] and an empty list
    count as no address.  Two passwords that are the number [1] and the
    float [1.0] are equal, and are refused by the hasher for what they
    are, after the token has checked and before anything is written; a
    password and its confirmation that are both [NaN] differ. *)
Example test_json_members :
  forgot_password 1000 None (JsonObject {[ "email" := JInt 5 ]}) st0 = (reset_mail_sent, st0)
  ∧ forgot_password 1000 None (JsonObject {[ "email" := JInt 0 ]}) st0
    = (email_required, st0)
  ∧ forgot_password 1000 None (JsonObject {[ "email" := JArray [] ]}) st0
    = (email_required, st0)
  ∧ forgot_password 1000 None (LoadsRaises "'utf-8' codec can't decode byte 0xff") st0
    = (unexpected "'utf-8' codec can't decode byte 0xff", st0)
  ∧ reset_password 1500 "s9"
      (JsonObject (list_to_map
         [("uidb64", JString "MQ"); ("token", JString alice_token);
          ("new_password", JInt 1);
          ("confirm_password", JFloat (FFinite false 1 0))])) st0
    = (unexpected "Password must be a string or bytes, got int.", st0)
  ∧ reset_password 1500 "s9"
      (JsonObject (list_to_map
         [("uidb64", JString "MQ"); ("token", JString alice_token);
          ("new_password", JFloat FNaN); ("confirm_password", JFloat FNaN)])) st0
    = (passwords_differ, st0)
  ∧ reset_password 1500 "s9"
      (JsonObject (list_to_map
         [("uidb64", JString "MQ"); ("token", JArray [JString alice_token]);
          ("new_password", JString "newpw"); ("confirm_password", JString "newpw")])) st0
    = (unexpected "'list' object has no attribute 'split'", st0).
Proof. repeat split; reflexivity. Qed.

(** Blank parameters filter nothing out: asked for her tasks with an
    empty description and a status of spaces, Alice gets the one task
    she has, which has no description at all; asked with a title, she
    gets the tasks whose title contains it, whatever the case. *)
Example test_blank_filters :
  TaskViewSet_list (Some 1)
    (mkTaskFilter None (Some "") (Some "  ") None None None None None) st0
    = (mkResponse HTTP_200_OK (ManyTasks [TaskSerializer_data st0 1 groceries]), st0)
  ∧ TaskViewSet_list (Some 1) search st_rent
    = (mkResponse HTTP_200_OK (ManyTasks [TaskSerializer_data st_rent 3 rent]), st_rent)
  ∧ TaskViewSet_list (Some 1)
      (mkTaskFilter (Some "laundry") None None None None None None None) st_rent
    = (mkResponse HTTP_200_OK (ManyTasks []), st_rent).
Proof. repeat split; reflexivity. Qed.
End MoreRuns.
